(** * sfml: configuration, session cache, SQL rendering and CLI glue

    A shallow embedding of the Python package [sfml]
    (config.py, session.py, remote/setup.py, remote/teardown.py,
    remote/disconnect.py, jobs/submit.py) and the properties its
    specification states about it.

    Python [str] values are modelled as byte strings ([string]); the only
    case-changing operation of the code, [str.lower], is modelled on the
    ASCII range, which is exact for the two ASCII patterns the code looks
    for.  Python objects of dynamic type (YAML and TOML values, dataclass
    fields) are values of [pyval]; dictionaries are [gmap string pyval]. *)

From Stdlib Require Import ZArith String Ascii List Bool Lia.
From Stdlib Require Import DecimalString.
From stdpp Require Import base option gmap strings list fin_maps.

Local Open Scope Z_scope.
Local Open Scope string_scope.

(** ** Python string primitives *)

Module Str.

(** [s.startswith(p)] *)
Fixpoint startswith (p s : string) : bool :=
  match p with
  | EmptyString => true
  | String a p' =>
      match s with
      | EmptyString => false
      | String b s' => if Ascii.eqb a b then startswith p' s' else false
      end
  end.

(** [p in s] for strings: some suffix of [s] starts with [p]. *)
Fixpoint contains (p s : string) : bool :=
  startswith p s ||
  match s with
  | EmptyString => false
  | String _ s' => contains p s'
  end.


(** [str.isspace] on one character of the ASCII range:
    TAB, LF, VT, FF, CR, the separators FS, GS, RS, US, and SPACE. *)
Definition is_space (c : ascii) : bool :=
  let n := nat_of_ascii c in
  ((9 <=? n) && (n <=? 13) || (28 <=? n) && (n <=? 32))%nat.

(** [s.lstrip()], [s.rstrip()] and [s.strip()] *)
Fixpoint lstrip (s : string) : string :=
  match s with
  | EmptyString => EmptyString
  | String c s' => if is_space c then lstrip s' else s
  end.

Fixpoint rstrip (s : string) : string :=
  match s with
  | EmptyString => EmptyString
  | String c s' =>
      match rstrip s' with
      | EmptyString => if is_space c then EmptyString else String c EmptyString
      | r => String c r
      end
  end.

Definition strip (s : string) : string := rstrip (lstrip s).

(** [s.split(sep)] for a one-character separator: never the empty list. *)
Fixpoint split (sep : ascii) (s : string) : list string :=
  match s with
  | EmptyString => [EmptyString]
  | String c s' =>
      if Ascii.eqb c sep then EmptyString :: split sep s'
      else match split sep s' with
           | h :: t => String c h :: t
           | [] => [String c EmptyString]
           end
  end.

(** [sep.join(l)] *)
Fixpoint join (sep : string) (l : list string) : string :=
  match l with
  | [] => EmptyString
  | [x] => x
  | x :: l' => x +:+ sep +:+ join sep l'
  end.

(** [c.lower()] and [s.lower()] on the ASCII range. *)
Definition lower_ascii (c : ascii) : ascii :=
  let n := nat_of_ascii c in
  if ((65 <=? n) && (n <=? 90))%nat then ascii_of_nat (n + 32) else c.

Fixpoint lower (s : string) : string :=
  match s with
  | EmptyString => EmptyString
  | String c s' => String (lower_ascii c) (lower s')
  end.

(** [str(n)] for a Python [int]: decimal digits, [-] for negatives. *)
Definition of_int (n : Z) : string := NilZero.string_of_int (Z.to_int n).

(** Truth value of a string: non-empty. *)
Definition truthy (s : string) : bool :=
  match s with EmptyString => false | _ => true end.

(** A character occurs in a string. *)
Fixpoint has_char (c : ascii) (s : string) : bool :=
  match s with
  | EmptyString => false
  | String b s' => Ascii.eqb c b || has_char c s'
  end.

(** An identifier that is safe to interpolate in SQL text: it has no
    white space (so in particular no statement keyword sequence). *)
Fixpoint no_space (s : string) : bool :=
  match s with
  | EmptyString => true
  | String c s' => negb (is_space c) && no_space s'
  end.




(** [p] occurs in [s] as a contiguous piece. *)
Definition infix_of (p s : string) : Prop := ∃ a b, s = a +:+ p +:+ b.

End Str.

(** ** Dynamically typed values *)

#[warnings="-register-all"]
Inductive pyval : Type :=
| VNone
| VBool (b : bool)
| VInt (z : Z)
| VStr (s : string)
| VBytes (s : string)
| VList (l : list pyval)
| VDict (d : gmap string pyval).

(** Truth value of an object ([if x:], [x or y]). *)
Definition truthy (v : pyval) : bool :=
  match v with
  | VNone => false
  | VBool b => b
  | VInt z => negb (z =? 0)%Z
  | VStr s => Str.truthy s
  | VBytes s => Str.truthy s
  | VList l => match l with [] => false | _ => true end
  | VDict d => negb (Nat.eqb (size d) 0)
  end.

(** ** Exceptions, external events and the environment *)

(** The exceptions the modelled code raises or lets through.
    [ExternalError] stands for whatever the vendor SDK, the YAML or TOML
    parser, or the operating system raises. *)
Inductive exn : Type :=
| FileNotFoundError (msg : string)
| ValueError (msg : string)
| TypeError
| AttributeError
| ExternalError (msg : string).

Inductive result (A : Type) : Type :=
| Ok (a : A)
| Raise (e : exn).
Arguments Ok {A} a.
Arguments Raise {A} e.

(** What [subprocess.run(cmd, env=env, capture_output=True, text=True)]
    can do: complete with a return code and the captured streams, fail to
    find the binary ([FileNotFoundError]), or raise something else. *)
Inductive run_outcome : Type :=
| Completed (returncode : Z) (stdout stderr : string)
| BinaryMissing
| RunFailed (e : exn).

(** Arguments forwarded to [snowflake.ml.jobs.submit_file] and
    [snowflake.ml.jobs.submit_directory]. *)
Record submit_request : Type := {
  req_path : string;
  req_entrypoint : option string;
  req_compute_pool : string;
  req_stage_name : string;
  req_session : nat;
  req_target_instances : option Z;
  req_pip_requirements : list string;
  req_external_access_integrations : list string;
  req_args : list string;
}.

(** Interactions with the outside world, in the order they happen.  Every
    one of them except [EvWarn] (a console message) and [EvCopyTree] (a
    local copy) goes over the network or to another process. *)
Inductive event : Type :=
| EvConnect (cfg : gmap string pyval)
| EvSql (session : nat) (stmt : string)
| EvWarn (msg : string)
| EvRun (cmd : list string) (env : gmap string string)
| EvCopyTree (src dst : string) (exclude : list string)
| EvSubmit (req : submit_request)
| EvJobStatus (job : string)
| EvJobWait (job : string) (timeout : Z)
| EvJobResult (job : string).

(** The environment of the process.  The answer of an external system may
    depend on everything that happened before, so the oracles that stand
    for external systems take the trace of past events. *)
Record World : Type := {
  environ : gmap string string;
  fs_exists : string → bool;
  package_root : string;
  yaml_safe_load : string → result pyval;
  snowflake_config_toml : option (result (gmap string pyval));
  load_pem_private_key : string → result string;
  connector_connect : list event → gmap string pyval → option exn;
  sql_collect : list event → nat → string → option exn;
  subprocess_run : list event → list string → gmap string string → run_outcome;
  mkdtemp : list event → string;
  copytree : list event → string → string → list string → option exn;
  jobs_submit : list event → submit_request → result string;
  job_status : list event → string → string;
  job_wait : list event → string → Z → option exn;
  job_result : list event → string → result pyval;
}.

(** ** Process state and the monad of effectful code *)

(** A Snowpark session object: [sess_id] is its identity (two handles are
    the same instance iff they have the same [sess_id]). *)
Record Session : Type := { sess_id : nat; sess_cfg : gmap string pyval }.

(** Process-wide state: the single slot of [lru_cache(maxsize=1)] around
    [get_session] (the key is the argument of the call), the number of
    session objects created so far, and the trace of events. *)
Record State : Type := {
  cache : option (option string * Session);
  created : nat;
  trace : list event;
}.

Definition initial_state : State :=
  {| cache := None; created := 0%nat; trace := [] |}.

Definition M (A : Type) : Type := State → result A * State.

Definition ret {A} (a : A) : M A := λ st, (Ok a, st).
Definition raise {A} (e : exn) : M A := λ st, (Raise e, st).
Definition bind {A B} (m : M A) (k : A → M B) : M B :=
  λ st, match m st with
        | (Ok a, st') => k a st'
        | (Raise e, st') => (Raise e, st')
        end.
(** [try: m except Exception as e: h e] *)
Definition try_except {A} (m : M A) (h : exn → M A) : M A :=
  λ st, match m st with
        | (Ok a, st') => (Ok a, st')
        | (Raise e, st') => h e st'
        end.
Definition lift {A} (r : result A) : M A := λ st, (r, st).
Definition emit (e : event) : M unit :=
  λ st, (Ok tt, {| cache := cache st; created := created st; trace := trace st ++ [e] |}).
Definition get_trace : M (list event) := λ st, (Ok (trace st), st).
Definition when (b : bool) (m : M unit) : M unit := if b then m else ret tt.

(** Sequencing is written with stdpp's monad notations:
    [x ← m; k] and [m;; k]. *)
#[global] Instance M_ret : MRet M := @ret.
#[global] Instance M_bind : MBind M := λ A B k m, bind m k.

(** [x or y] on an optional string. *)
Definition str_or (x : option string) (y : string) : string :=
  match x with
  | Some s => if Str.truthy s then s else y
  | None => y
  end.

(** [if x:] on an optional string. *)
Definition opt_truthy (x : option string) : bool :=
  match x with Some s => Str.truthy s | None => false end.

(** [x or y] on an optional list. *)
Definition list_or {A} (x : option (list A)) (y : list A) : list A :=
  match x with
  | Some (a :: l) => a :: l
  | _ => y
  end.

(** ** config.py *)

Module Config.

Record ComputeConfig : Type := {
  pool_name : pyval;
  instance_family : pyval;
  min_nodes : pyval;
  max_nodes : pyval;
}.

Record StorageConfig : Type := { stage_name : pyval; encryption : pyval }.

Record NetworkConfig : Type := { eai_name : pyval; allow_ports : pyval }.

Record ProjectConfig : Type := { name : pyval; database : pyval }.

Record Config : Type := {
  connection_name : pyval;
  project : ProjectConfig;
  compute : ComputeConfig;
  storage : StorageConfig;
  network : NetworkConfig;
}.

(** [d.get(k, dflt)] *)
Definition get (d : gmap string pyval) (k : string) (dflt : pyval) : pyval :=
  default dflt (d !! k).

(** A dataclass constructor called with keyword arguments [kw] accepts
    exactly the names of its fields; any other keyword is a [TypeError]. *)
Definition accepts (fields : list string) (kw : gmap string pyval) : bool :=
  bool_decide (dom kw ⊆ list_to_set fields).

(** The dataclass constructors: a field that is not given takes the
    default of its declaration. *)
Definition ComputeConfig_init (kw : gmap string pyval) : result ComputeConfig :=
  if accepts ["pool_name"; "instance_family"; "min_nodes"; "max_nodes"] kw then
    Ok {| pool_name := get kw "pool_name" (VStr "ml_dev_pool");
          instance_family := get kw "instance_family" (VStr "CPU_X64_M");
          min_nodes := get kw "min_nodes" (VInt 1);
          max_nodes := get kw "max_nodes" (VInt 1) |}
  else Raise TypeError.

Definition StorageConfig_init (kw : gmap string pyval) : result StorageConfig :=
  if accepts ["stage_name"; "encryption"] kw then
    Ok {| stage_name := get kw "stage_name" (VStr "DEV_STAGE");
          encryption := get kw "encryption" (VStr "SNOWFLAKE_SSE") |}
  else Raise TypeError.

Definition NetworkConfig_init (kw : gmap string pyval) : result NetworkConfig :=
  if accepts ["eai_name"; "allow_ports"] kw then
    Ok {| eai_name := get kw "eai_name" (VStr "ALLOW_ALL_INTEGRATION");
          allow_ports := get kw "allow_ports" (VList [VInt 443; VInt 80]) |}
  else Raise TypeError.

Definition ProjectConfig_init (kw : gmap string pyval) : result ProjectConfig :=
  if accepts ["name"; "database"] kw then
    Ok {| name := get kw "name" (VStr "ml_dev");
          database := get kw "database" (VStr "ML_DEV") |}
  else Raise TypeError.

(** The constructors without arguments: the documented defaults. *)
Definition default_compute : ComputeConfig :=
  {| pool_name := VStr "ml_dev_pool"; instance_family := VStr "CPU_X64_M";
     min_nodes := VInt 1; max_nodes := VInt 1 |}.
Definition default_storage : StorageConfig :=
  {| stage_name := VStr "DEV_STAGE"; encryption := VStr "SNOWFLAKE_SSE" |}.
Definition default_network : NetworkConfig :=
  {| eai_name := VStr "ALLOW_ALL_INTEGRATION";
     allow_ports := VList [VInt 443; VInt 80] |}.
Definition default_project : ProjectConfig :=
  {| name := VStr "ml_dev"; database := VStr "ML_DEV" |}.
Definition default_config : Config :=
  {| connection_name := VStr "default"; project := default_project;
     compute := default_compute; storage := default_storage;
     network := default_network |}.

(** A section value [v] is turned into a dataclass [C] by unpacking it
    as keyword arguments if it is truthy, else by [C()]: a falsy value gives the defaults, a
    non-empty dictionary is passed as keyword arguments, and any other
    truthy value cannot be unpacked as keywords. *)
Definition section {C} (init : gmap string pyval → result C) (dflt : C)
    (v : pyval) : result C :=
  if truthy v then
    match v with
    | VDict kw => init kw
    | _ => Raise TypeError
    end
  else Ok dflt.

Definition from_dict (data : gmap string pyval) : result Config :=
  let project_data := get data "project" (VDict ∅) in
  let compute_data := get data "compute" (VDict ∅) in
  let storage_data := get data "storage" (VDict ∅) in
  let network_data := get data "network" (VDict ∅) in
  let connection := get data "connection_name" (VStr "default") in
  match section ProjectConfig_init default_project project_data with
  | Raise e => Raise e
  | Ok p =>
  match section ComputeConfig_init default_compute compute_data with
  | Raise e => Raise e
  | Ok c =>
  match section StorageConfig_init default_storage storage_data with
  | Raise e => Raise e
  | Ok s =>
  match section NetworkConfig_init default_network network_data with
  | Raise e => Raise e
  | Ok n =>
      Ok {| connection_name := connection; project := p; compute := c;
            storage := s; network := n |}
  end end end end.

Definition to_dict (self : Config) : gmap string pyval :=
  <["connection_name" := connection_name self]> (
  <["project" := VDict (
      <["name" := name (project self)]> (
      <["database" := database (project self)]> ∅))]> (
  <["compute" := VDict (
      <["pool_name" := pool_name (compute self)]> (
      <["instance_family" := instance_family (compute self)]> (
      <["min_nodes" := min_nodes (compute self)]> (
      <["max_nodes" := max_nodes (compute self)]> ∅))))]> (
  <["storage" := VDict (
      <["stage_name" := stage_name (storage self)]> (
      <["encryption" := encryption (storage self)]> ∅))]> (
  <["network" := VDict (
      <["eai_name" := eai_name (network self)]> (
      <["allow_ports" := allow_ports (network self)]> ∅))]> ∅)))).

(** The file [load] reads: the explicit path when it is given and
    truthy, else [config/config.yaml] under the package root if it
    exists, else [config/default.yaml]. *)
Definition select_path (w : World) (config_path : option string) : string :=
  if opt_truthy config_path then default "" config_path
  else
    let user_config := package_root w +:+ "/config/config.yaml" in
    let default_config := package_root w +:+ "/config/default.yaml" in
    if fs_exists w user_config then user_config else default_config.

Definition load (w : World) (config_path : option string) : result Config :=
  let path := select_path w config_path in
  if negb (fs_exists w path) then Ok default_config
  else
    match yaml_safe_load w path with
    | Raise e => Raise e
    | Ok v =>
        (* data = yaml.safe_load(f) or {} *)
        if truthy v then
          match v with
          | VDict data => from_dict data
          | _ => Raise AttributeError
          end
        else from_dict ∅
    end.

End Config.

(** ** session.py *)

Module Sess.

(** [_load_config]: the credential store [~/.snowflake/config.toml],
    the empty dictionary when the file does not exist. *)
Definition _load_config (w : World) : result (gmap string pyval) :=
  match snowflake_config_toml w with
  | None => Ok ∅
  | Some r => r
  end.

(** [_load_private_key]: read the PEM file and re-encode it as DER. *)
Definition _load_private_key (w : World) (key_path : string) : result string :=
  load_pem_private_key w key_path.

Definition is_jwt (conn_config : gmap string pyval) : bool :=
  match conn_config !! "authenticator" with
  | Some (VStr a) => String.eqb a "SNOWFLAKE_JWT"
  | _ => false
  end.

(** [_get_connection_config].  The credential store is expected to hold
    a table [connections] of tables; for a store of another shape Python
    raises a [TypeError] or a [ValueError] depending on the value, and
    the model keeps [TypeError] for all of them. *)
Definition _get_connection_config (w : World) (connection_name : string)
    : result (gmap string pyval) :=
  let not_found :=
    ValueError ("Connection '" +:+ connection_name +:+
                "' not found in ~/.snowflake/config.toml") in
  match _load_config w with
  | Raise e => Raise e
  | Ok config =>
      match config !! "connections" with
      | None => Raise not_found
      | Some (VDict connections) =>
          match connections !! connection_name with
          | None => Raise not_found
          | Some (VDict conn_config) =>
              if is_jwt conn_config then
                let key_path := default VNone (conn_config !! "private_key_path") in
                let conn_config := delete "private_key_path" conn_config in
                if truthy key_path then
                  match key_path with
                  | VStr kp =>
                      match _load_private_key w kp with
                      | Raise e => Raise e
                      | Ok der =>
                          Ok (delete "authenticator"
                                (<["private_key" := VBytes der]> conn_config))
                      end
                  | _ => Raise TypeError
                  end
                else Ok (delete "authenticator" conn_config)
              else Ok conn_config
          | Some _ => Raise TypeError
          end
      | Some _ => Raise TypeError
      end
  end.

(** [os.getenv("SNOWFLAKE_CONNECTION_NAME", "myconnection")] *)
Definition env_connection_name (w : World) : string :=
  default "myconnection" (environ w !! "SNOWFLAKE_CONNECTION_NAME").

(** [snowflake.connector.connect] followed by
    [Session.builder.configs(...).create()]: a new session object. *)
Definition connect (w : World) (conn_config : gmap string pyval) : M Session :=
  tr ← get_trace;
  emit (EvConnect conn_config);;
  match connector_connect w tr conn_config with
  | Some e => raise e
  | None =>
      λ st, (Ok {| sess_id := created st; sess_cfg := conn_config |},
             {| cache := cache st; created := S (created st); trace := trace st |})
  end.

(** The body of [get_session], without its decorator. *)
Definition get_session_uncached (w : World) (connection_name : option string)
    : M Session :=
  let conn_name := str_or connection_name (env_connection_name w) in
  conn_config ← lift (_get_connection_config w conn_name);
  connect w conn_config.

(** [get_session] under [lru_cache(maxsize=1)]: a call whose argument is
    the cached key returns the cached object; any other call runs the
    body and, when the body returns, its result takes the single slot
    (evicting what was there).  A call that raises leaves the cache as
    it was.  Every call site of the package passes the name
    positionally, so the key is the argument itself. *)
Definition get_session (w : World) (connection_name : option string) : M Session :=
  λ st,
    let miss :=
      match get_session_uncached w connection_name st with
      | (Ok h, st') =>
          (Ok h, {| cache := Some (connection_name, h);
                    created := created st'; trace := trace st' |})
      | (Raise e, st') => (Raise e, st')
      end in
    match cache st with
    | Some (key, h) =>
        if decide (key = connection_name) then (Ok h, st) else miss
    | None => miss
    end.


(** [session.sql(stmt).collect()] *)
Definition sql_collect_ (w : World) (session : Session) (stmt : string) : M unit :=
  tr ← get_trace;
  emit (EvSql (sess_id session) stmt);;
  match sql_collect w tr (sess_id session) stmt with
  | Some e => raise e
  | None => ret tt
  end.

End Sess.

(** [str(e)] for an exception. *)
Definition exn_str (e : exn) : string :=
  match e with
  | FileNotFoundError msg => msg
  | ValueError msg => msg
  | TypeError => "TypeError"
  | AttributeError => "AttributeError"
  | ExternalError msg => msg
  end.

(** [for x in l: body x] *)
Fixpoint for_each {A} (l : list A) (body : A → M unit) : M unit :=
  match l with
  | [] => ret tt
  | x :: l' => body x;; for_each l' body
  end.

(** The statement list both [setup] and [teardown] build from their SQL
    text: [[s.strip() for s in sql.split(";")
            if s.strip() and not s.strip().startswith("--")]]. *)
Definition statements (sql : string) : list string :=
  List.map Str.strip
    (List.filter
       (λ s, Str.truthy (Str.strip s) && negb (Str.startswith "--" (Str.strip s)))
       (Str.split ";" sql)).

(** The execution loop of [setup] and [teardown]: each statement is tried
    in turn; an exception is caught, reported on the console when
    [verbose], and the loop goes on. *)
Definition run_statements (w : World) (verbose : bool) (session : Session)
    (stmts : list string) : M unit :=
  for_each stmts (λ stmt,
    when (Str.truthy stmt)
      (try_except (Sess.sql_collect_ w session stmt)
         (λ e, when verbose (emit (EvWarn ("[yellow]Warning:[/] " +:+ exn_str e)))))).

(** ** remote/setup.py

    The progress messages [setup] and [teardown] print when [verbose] are
    not modelled, except the warning of a failed statement. *)

Module Setup.

Record args : Type := {
  connection_name : string;
  project_name : string;
  database : string;
  instance_family : string;
  stage_name : string;
  pool_name : option string;
  eai_name : string;
  allow_ports : option (list Z);
  min_nodes : Z;
  max_nodes : Z;
  execute : bool;
  verbose : bool;
}.

(** The defaults of the signature, for a given connection name. *)
Definition default_args (connection_name : string) : args :=
  {| connection_name := connection_name;
     project_name := "ml_accelerator";
     database := "ML_ACCELERATOR";
     instance_family := "CPU_X64_M";
     stage_name := "DEV_STAGE";
     pool_name := None;
     eai_name := "ALLOW_ALL_INTEGRATION";
     allow_ports := None;
     min_nodes := 1;
     max_nodes := 1;
     execute := true;
     verbose := true |}.

(** [pool_name or f"{project_name}_pool"] *)
Definition resolved_pool_name (a : args) : string :=
  str_or (pool_name a) (project_name a +:+ "_pool").

(** [allow_ports or [443, 80]] *)
Definition resolved_ports (a : args) : list Z :=
  list_or (allow_ports a) [443; 80].

Definition port_list (ports : list Z) : string :=
  Str.join ", " (List.map (λ port, "'0.0.0.0:" +:+ Str.of_int port +:+ "'") ports).

(** The f-string of [setup], piece by piece. *)
Definition render (project_name database eai_name port_list stage_name
    pool_name instance_family : string) (min_nodes max_nodes : Z) : string :=
  "-- Snowflake Remote Dev Setup
-- Project: " +:+ project_name +:+ "

USE ROLE ACCOUNTADMIN;

-- Create Database
CREATE DATABASE IF NOT EXISTS " +:+ database +:+ ";
USE DATABASE " +:+ database +:+ ";

-- Create Network Rule for External Access
CREATE OR REPLACE NETWORK RULE " +:+ eai_name +:+ "_rule
  MODE = EGRESS
  TYPE = HOST_PORT
  VALUE_LIST = (" +:+ port_list +:+ ");

-- Create External Access Integration
CREATE OR REPLACE EXTERNAL ACCESS INTEGRATION " +:+ eai_name +:+ "
  ALLOWED_NETWORK_RULES = (" +:+ eai_name +:+ "_rule)
  ENABLED = true;

-- Grant permissions
GRANT USAGE ON INTEGRATION " +:+ eai_name +:+ " TO ROLE ACCOUNTADMIN;

-- Create Stage for Persistent Storage
CREATE STAGE IF NOT EXISTS " +:+ stage_name +:+ "
  ENCRYPTION = (TYPE = 'SNOWFLAKE_SSE');

-- Create Compute Pool
CREATE COMPUTE POOL IF NOT EXISTS " +:+ pool_name +:+ "
  MIN_NODES = " +:+ Str.of_int min_nodes +:+ "
  MAX_NODES = " +:+ Str.of_int max_nodes +:+ "
  INSTANCE_FAMILY = " +:+ instance_family +:+ ";

-- Show created resources
SHOW COMPUTE POOLS LIKE '" +:+ pool_name +:+ "';
".

Definition sql (a : args) : string :=
  render (project_name a) (database a) (eai_name a)
    (port_list (resolved_ports a)) (stage_name a) (resolved_pool_name a)
    (instance_family a) (min_nodes a) (max_nodes a).

Definition setup (w : World) (a : args) : M (gmap string pyval) :=
  let pool_name := resolved_pool_name a in
  let sql := sql a in
  let result : gmap string pyval :=
    <["database" := VStr (database a)]> (
    <["compute_pool" := VStr pool_name]> (
    <["stage" := VStr (stage_name a)]> (
    <["eai_name" := VStr (eai_name a)]> (
    <["instance_family" := VStr (instance_family a)]> (
    <["sql" := VStr sql]> ∅))))) in
  if execute a then
    session ← Sess.get_session w (Some (connection_name a));
    run_statements w (verbose a) session (statements sql);;
    ret (<["status" := VStr "complete"]> result)
  else
    ret (<["status" := VStr "sql_generated"]> result).

(** The arguments are identifiers that are safe to interpolate: none of
    the names holds white space. *)
Definition safe_identifiers (a : args) : bool :=
  Str.no_space (project_name a) && Str.no_space (database a) &&
  Str.no_space (instance_family a) && Str.no_space (stage_name a) &&
  Str.no_space (eai_name a) &&
  match pool_name a with Some p => Str.no_space p | None => true end.



(** A stage name that carries a statement of its own. *)
Definition injected_args : args :=
  {| connection_name := "a";
     project_name := "ml_accelerator";
     database := "ML_ACCELERATOR";
     instance_family := "CPU_X64_M";
     stage_name := "S; CREATE COMPUTE POOL IF NOT EXISTS q";
     pool_name := None;
     eai_name := "ALLOW_ALL_INTEGRATION";
     allow_ports := None;
     min_nodes := 1;
     max_nodes := 1;
     execute := false;
     verbose := true |}.

(** The names hold no white space and no semicolon, and the database
    name is not empty. *)
Definition plain (a : args) : bool :=
  safe_identifiers a &&
  negb (Str.has_char ";" (project_name a)) && negb (Str.has_char ";" (database a)) &&
  negb (Str.has_char ";" (instance_family a)) && negb (Str.has_char ";" (stage_name a)) &&
  negb (Str.has_char ";" (eai_name a)) &&
  match pool_name a with Some p => negb (Str.has_char ";" p) | None => true end &&
  Str.truthy (database a).

(** The text of [setup], cut at the semicolons of its template. *)
Definition pieces (a : args) : list string :=
  ["-- Snowflake Remote Dev Setup
-- Project: " +:+ project_name a +:+ "

USE ROLE ACCOUNTADMIN";
   "

-- Create Database
CREATE DATABASE IF NOT EXISTS " +:+ database a;
   "
USE DATABASE " +:+ database a;
   "

-- Create Network Rule for External Access
CREATE OR REPLACE NETWORK RULE " +:+ eai_name a +:+ "_rule
  MODE = EGRESS
  TYPE = HOST_PORT
  VALUE_LIST = (" +:+ port_list (resolved_ports a) +:+ ")";
   "

-- Create External Access Integration
CREATE OR REPLACE EXTERNAL ACCESS INTEGRATION " +:+ eai_name a +:+ "
  ALLOWED_NETWORK_RULES = (" +:+ eai_name a +:+ "_rule)
  ENABLED = true";
   "

-- Grant permissions
GRANT USAGE ON INTEGRATION " +:+ eai_name a +:+ " TO ROLE ACCOUNTADMIN";
   "

-- Create Stage for Persistent Storage
CREATE STAGE IF NOT EXISTS " +:+ stage_name a +:+ "
  ENCRYPTION = (TYPE = 'SNOWFLAKE_SSE')";
   "

-- Create Compute Pool
CREATE COMPUTE POOL IF NOT EXISTS " +:+ resolved_pool_name a +:+ "
  MIN_NODES = " +:+ Str.of_int (min_nodes a) +:+ "
  MAX_NODES = " +:+ Str.of_int (max_nodes a) +:+ "
  INSTANCE_FAMILY = " +:+ instance_family a;
   "

-- Show created resources
SHOW COMPUTE POOLS LIKE '" +:+ resolved_pool_name a +:+ "'";
   "
"].

End Setup.

(** ** remote/teardown.py *)

Module Teardown.

Record args : Type := {
  connection_name : string;
  project_name : string;
  database : string;
  pool_name : option string;
  stage_name : string;
  eai_name : string;
  keep_stage : bool;
  keep_database : bool;
  execute : bool;
  verbose : bool;
}.

(** The defaults of the signature. *)
Definition default_args (connection_name project_name : string) : args :=
  {| connection_name := connection_name;
     project_name := project_name;
     database := "ML_DEV";
     pool_name := None;
     stage_name := "DEV_STAGE";
     eai_name := "ALLOW_ALL_INTEGRATION";
     keep_stage := true;
     keep_database := true;
     execute := true;
     verbose := true |}.

Definition resolved_pool_name (a : args) : string :=
  str_or (pool_name a) (project_name a +:+ "_pool").

Definition nl : string := String "010"%char EmptyString.

Definition sql_parts (a : args) : list string :=
  let pool_name := resolved_pool_name a in
  ["-- Teardown for project: " +:+ project_name a;
   "USE ROLE ACCOUNTADMIN;";
   nl +:+ "-- Suspend and drop compute pool";
   "ALTER COMPUTE POOL IF EXISTS " +:+ pool_name +:+ " STOP ALL;";
   "ALTER COMPUTE POOL IF EXISTS " +:+ pool_name +:+ " SUSPEND;";
   "DROP COMPUTE POOL IF EXISTS " +:+ pool_name +:+ ";";
   nl +:+ "-- Drop External Access Integration";
   "DROP INTEGRATION IF EXISTS " +:+ eai_name a +:+ ";";
   "DROP NETWORK RULE IF EXISTS " +:+ database a +:+ ".PUBLIC." +:+ eai_name a +:+ "_rule;"]
  ++ (if negb (keep_stage a) then
        [nl +:+ "-- Drop Stage (WARNING: deletes all files!)";
         "DROP STAGE IF EXISTS " +:+ database a +:+ ".PUBLIC." +:+ stage_name a +:+ ";"]
      else [])
  ++ (if negb (keep_database a) then
        [nl +:+ "-- Drop Database";
         "DROP DATABASE IF EXISTS " +:+ database a +:+ ";"]
      else []).

Definition sql (a : args) : string := Str.join nl (sql_parts a).

Definition teardown (w : World) (a : args) : M (gmap string pyval) :=
  let pool_name := resolved_pool_name a in
  let sql := sql a in
  let result : gmap string pyval :=
    <["project_name" := VStr (project_name a)]> (
    <["database" := VStr (database a)]> (
    <["compute_pool" := VStr pool_name]> (
    <["stage_preserved" := VBool (keep_stage a)]> (
    <["database_preserved" := VBool (keep_database a)]> (
    <["sql" := VStr sql]> ∅))))) in
  if execute a then
    session ← Sess.get_session w (Some (connection_name a));
    run_statements w (verbose a) session (statements sql);;
    ret (<["status" := VStr "complete"]> result)
  else
    ret (<["status" := VStr "sql_generated"]> result).

Definition safe_identifiers (a : args) : bool :=
  Str.no_space (project_name a) && Str.no_space (database a) &&
  Str.no_space (stage_name a) && Str.no_space (eai_name a) &&
  match pool_name a with Some p => Str.no_space p | None => true end.


(** The defaults with [keep_stage=False]. *)
Definition drop_stage_args (connection_name project_name : string) : args :=
  {| connection_name := connection_name;
     project_name := project_name;
     database := "ML_DEV";
     pool_name := None;
     stage_name := "DEV_STAGE";
     eai_name := "ALLOW_ALL_INTEGRATION";
     keep_stage := false;
     keep_database := true;
     execute := true;
     verbose := true |}.

(** The defaults, with an integration name that carries a statement of
    its own. *)
Definition injected_args : args :=
  {| connection_name := "a";
     project_name := "ml_dev";
     database := "ML_DEV";
     pool_name := None;
     stage_name := "DEV_STAGE";
     eai_name := "X; DROP DATABASE ML_DEV; --";
     keep_stage := true;
     keep_database := true;
     execute := false;
     verbose := true |}.

(** The names hold no white space and no semicolon. *)
Definition plain (a : args) : bool :=
  safe_identifiers a &&
  negb (Str.has_char ";" (project_name a)) && negb (Str.has_char ";" (database a)) &&
  negb (Str.has_char ";" (stage_name a)) && negb (Str.has_char ";" (eai_name a)) &&
  match pool_name a with Some p => negb (Str.has_char ";" p) | None => true end.

(** The text of [teardown], cut at the semicolons of its parts. *)
Definition pieces (a : args) : list string :=
  ["-- Teardown for project: " +:+ project_name a +:+ nl +:+ "USE ROLE ACCOUNTADMIN";
   nl +:+ nl +:+ "-- Suspend and drop compute pool" +:+ nl +:+
     "ALTER COMPUTE POOL IF EXISTS " +:+ resolved_pool_name a +:+ " STOP ALL";
   nl +:+ "ALTER COMPUTE POOL IF EXISTS " +:+ resolved_pool_name a +:+ " SUSPEND";
   nl +:+ "DROP COMPUTE POOL IF EXISTS " +:+ resolved_pool_name a;
   nl +:+ nl +:+ "-- Drop External Access Integration" +:+ nl +:+
     "DROP INTEGRATION IF EXISTS " +:+ eai_name a;
   nl +:+ "DROP NETWORK RULE IF EXISTS " +:+ database a +:+ ".PUBLIC." +:+
     eai_name a +:+ "_rule"]
  ++ (if negb (keep_stage a) then
        [nl +:+ nl +:+ "-- Drop Stage (WARNING: deletes all files!)" +:+ nl +:+
           "DROP STAGE IF EXISTS " +:+ database a +:+ ".PUBLIC." +:+ stage_name a]
      else [])
  ++ (if negb (keep_database a) then
        [nl +:+ nl +:+ "-- Drop Database" +:+ nl +:+
           "DROP DATABASE IF EXISTS " +:+ database a]
      else [])
  ++ [""].

(** The statements [teardown] sends for such arguments. *)
Definition sent (a : args) : list string :=
  ["ALTER COMPUTE POOL IF EXISTS " +:+ resolved_pool_name a +:+ " SUSPEND";
   "DROP COMPUTE POOL IF EXISTS " +:+ resolved_pool_name a;
   "DROP NETWORK RULE IF EXISTS " +:+ database a +:+ ".PUBLIC." +:+
     eai_name a +:+ "_rule"].

End Teardown.

(** ** remote/disconnect.py *)

Module Disconnect.

(** The command line and the environment of [snow remote stop]. *)
Definition stop_cmd (name : string) (connection_name : option string) : list string :=
  ["snow"; "remote"; "stop"; "--name"; name] ++
  (if opt_truthy connection_name
   then ["--connection"; default "" connection_name] else []).

Definition cli_env (w : World) (connection_name : option string) : gmap string string :=
  if opt_truthy connection_name
  then <["SNOWFLAKE_DEFAULT_CONNECTION_NAME" := default "" connection_name]> (environ w)
  else environ w.

(** [subprocess.run(cmd, env=env, capture_output=True, text=True)] *)
Definition run (w : World) (cmd : list string) (env : gmap string string)
    : M run_outcome :=
  tr ← get_trace;
  emit (EvRun cmd env);;
  ret (subprocess_run w tr cmd env).

(** The test on the captured error stream:
    ["not found" in stderr.lower() or "does not exist" in stderr.lower()] *)
Definition already_stopped (stderr : string) : bool :=
  Str.contains "not found" (Str.lower stderr) ||
  Str.contains "does not exist" (Str.lower stderr).

(** [disconnect(name="dev", connection_name=None)] *)
Definition disconnect (w : World) (name : string) (connection_name : option string)
    : M bool :=
  let cmd := stop_cmd name connection_name in
  let env := cli_env w connection_name in
  outcome ← run w cmd env;
  match outcome with
  | Completed returncode _ stderr =>
      if (returncode =? 0)%Z then ret true
      else if already_stopped stderr then ret true
      else ret false
  | BinaryMissing => ret false
  | RunFailed _ => ret false
  end.

End Disconnect.

(** ** jobs/submit.py

    Paths are strings in normalised form, so that [str(Path(p))] is [p].
    The import of the vendor package at the head of both functions is
    taken to succeed. *)

Module Submit.

Record args : Type := {
  path : string;
  entrypoint : string;
  compute_pool : string;
  connection_name : option string;
  pip_requirements : option (list string);
  job_args : option (list string);
  stage_name : string;
  target_instances : Z;
  external_access_integrations : option (list string);
  wait : bool;
  timeout : Z;
  verbose : bool;
  exclude_patterns : option (list string);
}.

(** [job.status]: a property read from the service at each access. *)
Definition status (w : World) (job : string) : M string :=
  tr ← get_trace;
  emit (EvJobStatus job);;
  ret (job_status w tr job).

(** The common tail of both functions once the job is submitted: the
    result dictionary, and what [wait=True] adds to it. *)
Definition finish (w : World) (a : args) (job : string)
    (result : gmap string pyval) : M (gmap string pyval) :=
  if wait a then
    tr ← get_trace;
    emit (EvJobWait job (timeout a));;
    match job_wait w tr job (timeout a) with
    | Some e => raise e
    | None =>
        s ← status w job;
        let result := <["status" := VStr s]> result in
        when (verbose a) (status w job;; ret tt);;
        try_except
          (tr ← get_trace;
           emit (EvJobResult job);;
           job_result ← lift (job_result w tr job);
           ret (if truthy job_result
                then <["result" := job_result]> result else result))
          (λ _, ret result)
    end
  else ret result.

Definition submit_file (w : World) (a : args) : M (gmap string pyval) :=
  let file_path := path a in
  if negb (fs_exists w file_path) then
    raise (FileNotFoundError ("File not found: " +:+ file_path))
  else
    session ← Sess.get_session w (connection_name a);
    let eais := list_or (external_access_integrations a) ["ALLOW_ALL_INTEGRATION"] in
    let req := {| req_path := file_path;
                  req_entrypoint := None;
                  req_compute_pool := compute_pool a;
                  req_stage_name := stage_name a;
                  req_session := sess_id session;
                  req_target_instances := None;
                  req_pip_requirements := list_or (pip_requirements a) [];
                  req_external_access_integrations := eais;
                  req_args := list_or (job_args a) [] |} in
    tr ← get_trace;
    emit (EvSubmit req);;
    job ← lift (jobs_submit w tr req);
    when (verbose a) (status w job;; ret tt);;
    s ← status w job;
    finish w a job
      (<["job_id" := VStr job]> (
       <["status" := VStr s]> (
       <["file" := VStr file_path]> (
       <["compute_pool" := VStr (compute_pool a)]> ∅)))).

(** [Path(p).name]: the last component of a normalised path. *)
Definition path_name (p : string) : string :=
  List.last (Str.split "/" p) "".

Definition submit_directory (w : World) (a : args) : M (gmap string pyval) :=
  let dir_path := path a in
  if negb (fs_exists w dir_path) then
    raise (FileNotFoundError ("Directory not found: " +:+ dir_path))
  else
    session ← Sess.get_session w (connection_name a);
    let exclude := list_or (exclude_patterns a)
                     ["__pycache__"; "*.pyc"; ".pytest_cache"; ".git"] in
    let eais := list_or (external_access_integrations a) ["ALLOW_ALL_INTEGRATION"] in
    tr ← get_trace;
    let clean_dir := mkdtemp w tr +:+ "/" +:+ path_name dir_path in
    emit (EvCopyTree dir_path clean_dir exclude);;
    match copytree w tr dir_path clean_dir exclude with
    | Some e => raise e
    | None =>
        let req := {| req_path := clean_dir;
                      req_entrypoint := Some (entrypoint a);
                      req_compute_pool := compute_pool a;
                      req_stage_name := stage_name a;
                      req_session := sess_id session;
                      req_target_instances := Some (target_instances a);
                      req_pip_requirements := list_or (pip_requirements a) [];
                      req_external_access_integrations := eais;
                      req_args := list_or (job_args a) [] |} in
        tr ← get_trace;
        emit (EvSubmit req);;
        job ← lift (jobs_submit w tr req);
        when (verbose a) (status w job;; ret tt);;
        s ← status w job;
        finish w a job
          (<["job_id" := VStr job]> (
           <["status" := VStr s]> (
           <["directory" := VStr dir_path]> (
           <["entrypoint" := VStr (entrypoint a)]> (
           <["compute_pool" := VStr (compute_pool a)]> (
           <["instances" := VInt (target_instances a)]> ∅))))))
    end.

End Submit.

(** ** Definitions the statements below are written with *)

(** A section value the dataclass of that section can be built from: a
    falsy value, or a dictionary whose keys are field names. *)
Definition unpackable (fields : list string) (v : pyval) : bool :=
  negb (truthy v) ||
  match v with
  | VDict kw => Config.accepts fields kw
  | _ => false
  end.

Definition section_ok (data : gmap string pyval) (key : string)
    (fields : list string) : bool :=
  match data !! key with
  | Some v => unpackable fields v
  | None => true
  end.

(** Every section that is present in [data] is well formed. *)
Definition sections_well_formed (data : gmap string pyval) : bool :=
  section_ok data "project" ["name"; "database"] &&
  section_ok data "compute" ["pool_name"; "instance_family"; "min_nodes"; "max_nodes"] &&
  section_ok data "storage" ["stage_name"; "encryption"] &&
  section_ok data "network" ["eai_name"; "allow_ports"].

(** A configuration file that only has a [project] section, partly filled. *)
Definition project_only : gmap string pyval :=
  <["project" := VDict (<["name" := VStr "demo"]> ∅)]> ∅.

(** Session identities are handed out in increasing order, so the cached
    handle, if any, is older than every handle still to be created. *)
Definition cache_fresh (st : State) : Prop :=
  match cache st with
  | Some (_, h) => (sess_id h < created st)%nat
  | None => True
  end.

(** The statements sent to the warehouse, in order. *)
Definition sql_sent (tr : list event) : list string :=
  omap (λ e, match e with EvSql _ stmt => Some stmt | _ => None end) tr.

(** A credential store with two password connections, [a] and [b], and a
    warehouse on which every connection and every statement succeeds; the
    command-line client answers that the service does not exist. *)
Definition conn_a : gmap string pyval :=
  <["account" := VStr "acme"]> (<["user" := VStr "alice"]> ∅).
Definition conn_b : gmap string pyval :=
  <["account" := VStr "acme"]> (<["user" := VStr "bob"]> ∅).

Definition demo_world : World :=
  {| environ := ∅;
     fs_exists := λ _, false;
     package_root := "/opt/sfml";
     yaml_safe_load := λ _, Raise (ExternalError "no such file");
     snowflake_config_toml :=
       Some (Ok (<["connections" :=
                    VDict (<["a" := VDict conn_a]> (<["b" := VDict conn_b]> ∅))]> ∅));
     load_pem_private_key := λ _, Raise (ExternalError "no such file");
     connector_connect := λ _ _, None;
     sql_collect := λ _ _ _, None;
     subprocess_run := λ _ _ _, Completed 1 "" "Error: Service DEV Not Found";
     mkdtemp := λ _, "/tmp/tmp0";
     copytree := λ _ _ _ _, None;
     jobs_submit := λ _ _, Ok "JOB_1";
     job_status := λ _ _, "PENDING";
     job_wait := λ _ _ _, None;
     job_result := λ _ _, Ok VNone |}.

(** The same world with a warehouse that rejects every statement. *)
Definition failing_world : World :=
  {| environ := environ demo_world;
     fs_exists := fs_exists demo_world;
     package_root := package_root demo_world;
     yaml_safe_load := yaml_safe_load demo_world;
     snowflake_config_toml := snowflake_config_toml demo_world;
     load_pem_private_key := load_pem_private_key demo_world;
     connector_connect := connector_connect demo_world;
     sql_collect := λ _ _ _, Some (ExternalError "SQL compilation error");
     subprocess_run := subprocess_run demo_world;
     mkdtemp := mkdtemp demo_world;
     copytree := copytree demo_world;
     jobs_submit := jobs_submit demo_world;
     job_status := job_status demo_world;
     job_wait := job_wait demo_world;
     job_result := job_result demo_world |}.

Definition submit_args (p : string) : Submit.args :=
  {| Submit.path := p;
     Submit.entrypoint := "train.py";
     Submit.compute_pool := "POOL";
     Submit.connection_name := Some "a";
     Submit.pip_requirements := None;
     Submit.job_args := None;
     Submit.stage_name := "ML_JOBS_STAGE";
     Submit.target_instances := 1;
     Submit.external_access_integrations := None;
     Submit.wait := false;
     Submit.timeout := 3600;
     Submit.verbose := true;
     Submit.exclude_patterns := None |}.

(** A machine with nothing on it: no file, no credential store, no
    command-line client. *)
Definition empty_world : World :=
  {| environ := ∅;
     fs_exists := λ _, false;
     package_root := "/opt/sfml";
     yaml_safe_load := λ _, Raise (ExternalError "no such file");
     snowflake_config_toml := None;
     load_pem_private_key := λ _, Raise (ExternalError "no such file");
     connector_connect := λ _ _, None;
     sql_collect := λ _ _ _, None;
     subprocess_run := λ _ _ _, BinaryMissing;
     mkdtemp := λ _, "/tmp/tmp0";
     copytree := λ _ _ _ _, None;
     jobs_submit := λ _ _, Raise (ExternalError "unreachable");
     job_status := λ _ _, "PENDING";
     job_wait := λ _ _ _, None;
     job_result := λ _ _, Ok VNone |}.

(** [demo_world] with every path present. *)
Definition populated_world : World :=
  {| environ := environ demo_world;
     fs_exists := λ _, true;
     package_root := package_root demo_world;
     yaml_safe_load := yaml_safe_load demo_world;
     snowflake_config_toml := snowflake_config_toml demo_world;
     load_pem_private_key := load_pem_private_key demo_world;
     connector_connect := connector_connect demo_world;
     sql_collect := sql_collect demo_world;
     subprocess_run := subprocess_run demo_world;
     mkdtemp := mkdtemp demo_world;
     copytree := copytree demo_world;
     jobs_submit := jobs_submit demo_world;
     job_status := job_status demo_world;
     job_wait := job_wait demo_world;
     job_result := job_result demo_world |}.

(** ** session.py: get_connection *)

Module Connector.

(** A raw connector connection, with the configuration it was opened
    with. *)
Record Connection : Type := { conn_cfg : gmap string pyval }.

(** [get_connection]: the same resolution of the name and of the
    configuration as [get_session], without the decorator. *)
Definition get_connection (w : World) (connection_name : option string)
    : M Connection :=
  let conn_name := str_or connection_name (Sess.env_connection_name w) in
  conn_config ← lift (Sess._get_connection_config w conn_name);
  tr ← get_trace;
  emit (EvConnect conn_config);;
  match connector_connect w tr conn_config with
  | Some e => raise e
  | None => ret {| conn_cfg := conn_config |}
  end.

End Connector.

(** ** remote/disconnect.py: list_services *)

Module Services.



End Services.

(** ** remote/setup.py and remote/teardown.py: the entry points that read
    a configuration file

    [setup] and [teardown] are modelled on strings and integers.  The
    fields of a loaded configuration are dynamically typed; the two entry
    points are modelled for the configurations whose fields have the types
    their dataclasses declare, and are [None] for the others. *)

Module FromConfig.

Definition as_str (v : pyval) : option string :=
  match v with VStr s => Some s | _ => None end.

Definition as_int (v : pyval) : option Z :=
  match v with VInt z => Some z | _ => None end.

Fixpoint as_ints (l : list pyval) : option (list Z) :=
  match l with
  | [] => Some []
  | v :: l' =>
      match as_int v, as_ints l' with
      | Some z, Some zs => Some (z :: zs)
      | _, _ => None
      end
  end.

Definition as_int_list (v : pyval) : option (list Z) :=
  match v with VList l => as_ints l | _ => None end.

(** The keyword arguments [setup_from_config] passes to [setup]; [verbose]
    is left at its default. *)
Definition setup_args (c : Config.Config) (execute : bool) : option Setup.args :=
  connection_name ← as_str (Config.connection_name c);
  project_name ← as_str (Config.name (Config.project c));
  database ← as_str (Config.database (Config.project c));
  instance_family ← as_str (Config.instance_family (Config.compute c));
  stage_name ← as_str (Config.stage_name (Config.storage c));
  pool_name ← as_str (Config.pool_name (Config.compute c));
  eai_name ← as_str (Config.eai_name (Config.network c));
  allow_ports ← as_int_list (Config.allow_ports (Config.network c));
  min_nodes ← as_int (Config.min_nodes (Config.compute c));
  max_nodes ← as_int (Config.max_nodes (Config.compute c));
  Some {| Setup.connection_name := connection_name;
          Setup.project_name := project_name;
          Setup.database := database;
          Setup.instance_family := instance_family;
          Setup.stage_name := stage_name;
          Setup.pool_name := Some pool_name;
          Setup.eai_name := eai_name;
          Setup.allow_ports := Some allow_ports;
          Setup.min_nodes := min_nodes;
          Setup.max_nodes := max_nodes;
          Setup.execute := execute;
          Setup.verbose := true |}.

Definition setup_from_config (w : World) (config_path : option string)
    (execute : bool) : option (M (gmap string pyval)) :=
  match Config.load w config_path with
  | Raise e => Some (raise e)
  | Ok config => Setup.setup w <$> setup_args config execute
  end.

(** The keyword arguments [teardown_from_config] passes to [teardown]. *)
Definition teardown_args (c : Config.Config) (keep_stage keep_database execute : bool)
    : option Teardown.args :=
  connection_name ← as_str (Config.connection_name c);
  project_name ← as_str (Config.name (Config.project c));
  database ← as_str (Config.database (Config.project c));
  pool_name ← as_str (Config.pool_name (Config.compute c));
  stage_name ← as_str (Config.stage_name (Config.storage c));
  eai_name ← as_str (Config.eai_name (Config.network c));
  Some {| Teardown.connection_name := connection_name;
          Teardown.project_name := project_name;
          Teardown.database := database;
          Teardown.pool_name := Some pool_name;
          Teardown.stage_name := stage_name;
          Teardown.eai_name := eai_name;
          Teardown.keep_stage := keep_stage;
          Teardown.keep_database := keep_database;
          Teardown.execute := execute;
          Teardown.verbose := true |}.

Definition teardown_from_config (w : World) (config_path : option string)
    (keep_stage keep_database execute : bool) : option (M (gmap string pyval)) :=
  match Config.load w config_path with
  | Raise e => Some (raise e)
  | Ok config =>
      Teardown.teardown w <$> teardown_args config keep_stage keep_database execute
  end.

End FromConfig.

(** ** jobs/status.py

    The vendor interface of this module: [get_job] looks a job up and
    [list_jobs] returns the table of jobs, already converted to rows.  The
    cells of the table are strings, so that [str] of a cell is the cell.
    Both lookups are answered by the oracle and leave no event of their
    own; what is then done with a job does. *)

Module Status.

Record Service : Type := {
  get_job : list event → string → nat → result string;
  list_jobs_frame : list event → nat → result (list (gmap string string));
}.

(** [s.upper()] on the ASCII letters.  The code only compares the result
    with the word DONE, and no character other than the letters of
    [done] upper-cases to a letter of that word, so the comparison is the
    one of the code. *)
Definition upper_ascii (c : ascii) : ascii :=
  let n := nat_of_ascii c in
  if ((97 <=? n) && (n <=? 122))%nat then ascii_of_nat (n - 32) else c.

Fixpoint upper (s : string) : string :=
  match s with
  | EmptyString => EmptyString
  | String c s' => String (upper_ascii c) (upper s')
  end.

Definition get_job_status (sv : Service) (w : World) (job_id : string)
    (connection_name : option string) (verbose : bool) : M (gmap string pyval) :=
  session ← Sess.get_session w connection_name;
  tr ← get_trace;
  job ← lift (get_job sv tr job_id (sess_id session));
  s ← Submit.status w job;
  let result : gmap string pyval :=
    <["job_id" := VStr job]> (<["status" := VStr s]> ∅) in
  when verbose (Submit.status w job;; ret tt);;
  s' ← Submit.status w job;
  if String.eqb (upper s') "DONE" then
    try_except
      (tr ← get_trace;
       emit (EvJobResult job);;
       job_result ← lift (job_result w tr job);
       ret (if truthy job_result
            then <["result" := job_result]> result else result))
      (λ _, ret result)
  else ret result.

(** [df.head(n)], which is [df.iloc[:n]]: the first [n] rows, or all but
    the last [-n] when [n] is negative. *)
Definition head {A} (n : Z) (l : list A) : list A :=
  if (0 <=? n)%Z then take (Z.to_nat n) l
  else take (length l - Z.to_nat (- n)) l.

(** [row.get(k1, row.get(k2, ""))] *)
Definition row_get (row : gmap string string) (k1 k2 : string) : string :=
  default (default "" (row !! k2)) (row !! k1).

Definition job_info (row : gmap string string) : gmap string pyval :=
  <["job_id" := VStr (row_get row "name" "NAME")]> (
  <["status" := VStr (row_get row "status" "STATUS")]> (
  <["compute_pool" := VStr (row_get row "compute_pool" "COMPUTE_POOL")]> ∅)).

Definition list_jobs (sv : Service) (w : World) (connection_name : option string)
    (limit : Z) (verbose : bool) : M (list (gmap string pyval)) :=
  session ← Sess.get_session w connection_name;
  tr ← get_trace;
  df ← lift (list_jobs_frame sv tr (sess_id session));
  let df := if (limit <? Z.of_nat (length df))%Z then head limit df else df in
  ret (job_info <$> df).

Definition wait_for_job (sv : Service) (w : World) (job_id : string)
    (connection_name : option string) (timeout : Z) (verbose : bool)
    : M (gmap string pyval) :=
  session ← Sess.get_session w connection_name;
  tr ← get_trace;
  job ← lift (get_job sv tr job_id (sess_id session));
  tr ← get_trace;
  emit (EvJobWait job timeout);;
  match job_wait w tr job timeout with
  | Some e => raise e
  | None =>
      s ← Submit.status w job;
      when verbose (Submit.status w job;; ret tt);;
      ret (<["job_id" := VStr job]> (<["status" := VStr s]> ∅))
  end.

End Status.

(** ** remote/connect.py *)

Module Connect.

(** What [subprocess.run(cmd, check=True, env=env)] can do while the
    editor session lasts: finish with a return code, be interrupted from
    the keyboard, fail to find the binary, or raise something else. *)
Inductive interactive_outcome : Type :=
| Finished (returncode : Z)
| Interrupted
| CliMissing
| Failed (e : exn).

(** The machine the editor runs on: [shutil.which] (as a truth value),
    [platform.system()], and the interactive run. *)
Record Desktop : Type := {
  which : string → bool;
  platform_system : string;
  run_interactive : list event → list string → gmap string string → interactive_outcome;
}.

(** How [connect] ends: it returns, or leaves through [sys.exit]. *)
Inductive ending : Type :=
| Returned
| SystemExit (code : Z).

Definition mac_paths : gmap string string :=
  <["code" := "/Applications/Visual Studio Code.app/Contents/Resources/app/bin"]> (
  <["cursor" := "/Applications/Cursor.app/Contents/Resources/app/bin"]> ∅).

Definition _find_editor_path (d : Desktop) (w : World) (editor : string)
    : option string :=
  if which d editor then None
  else if String.eqb (platform_system d) "Darwin" then
    match mac_paths !! editor with
    | Some bin_dir =>
        if fs_exists w (bin_dir +:+ "/" +:+ editor) then Some bin_dir else None
    | None => None
    end
  else None.

Definition child_env (d : Desktop) (w : World) (editor : string) : gmap string string :=
  let editor_bin_dir := _find_editor_path d w editor in
  if opt_truthy editor_bin_dir then
    <["PATH" := default "" editor_bin_dir +:+ ":" +:+ default "" (environ w !! "PATH")]>
      (environ w)
  else environ w.

Definition connect_cmd (name compute_pool stage eai : string)
    (connection_name : option string) (editor : string) : list string :=
  ["snow"; "remote"; editor; name;
   "--compute-pool"; compute_pool;
   "--eai-name"; eai;
   "--stage"; stage] ++
  (if opt_truthy connection_name then ["-c"; default "" connection_name] else []).

(** [connect(name="dev", compute_pool="ML_ACCELERATOR_POOL",
    stage="@ML_ACCELERATOR.PUBLIC.DEV_STAGE", eai="ALLOW_ALL_INTEGRATION",
    connection_name=None, editor="cursor")]; the console messages are not
    modelled. *)
Definition connect (d : Desktop) (w : World) (name compute_pool stage eai : string)
    (connection_name : option string) (editor : string) : M ending :=
  let env := child_env d w editor in
  let cmd := connect_cmd name compute_pool stage eai connection_name editor in
  tr ← get_trace;
  emit (EvRun cmd env);;
  match run_interactive d tr cmd env with
  | Finished returncode =>
      if (returncode =? 0)%Z then ret Returned else ret (SystemExit 1)
  | Interrupted => ret Returned
  | CliMissing => ret (SystemExit 1)
  | Failed e => raise e
  end.

End Connect.

(** ** Definitions the further statements are written with *)

(** The entry of a connection in the credential store, when the store has
    the expected shape. *)
Definition store_entry (w : World) (name : string) : option (gmap string pyval) :=
  match snowflake_config_toml w with
  | Some (Ok config) =>
      match config !! "connections" with
      | Some (VDict connections) =>
          match connections !! name with
          | Some (VDict entry) => Some entry
          | _ => None
          end
      | _ => None
      end
  | _ => None
  end.

(** The store has no entry for the name: there is no store, or it has no
    table of connections, or that table lacks the name. *)
Definition not_in_store (w : World) (name : string) : Prop :=
  snowflake_config_toml w = None ∨
  (∃ config, snowflake_config_toml w = Some (Ok config) ∧
             (config !! "connections" = None ∨
              ∃ connections, config !! "connections" = Some (VDict connections) ∧
                             connections !! name = None)).

(** [demo_world] with the connection [a] named by the environment. *)
Definition env_world : World :=
  {| environ := <["SNOWFLAKE_CONNECTION_NAME" := "a"]> ∅;
     fs_exists := fs_exists demo_world;
     package_root := package_root demo_world;
     yaml_safe_load := yaml_safe_load demo_world;
     snowflake_config_toml := snowflake_config_toml demo_world;
     load_pem_private_key := load_pem_private_key demo_world;
     connector_connect := connector_connect demo_world;
     sql_collect := sql_collect demo_world;
     subprocess_run := subprocess_run demo_world;
     mkdtemp := mkdtemp demo_world;
     copytree := copytree demo_world;
     jobs_submit := jobs_submit demo_world;
     job_status := job_status demo_world;
     job_wait := job_wait demo_world;
     job_result := job_result demo_world |}.

(** A store with one key-pair connection, [k], whose key file loads. *)
Definition conn_k : gmap string pyval :=
  <["account" := VStr "acme"]> (
  <["authenticator" := VStr "SNOWFLAKE_JWT"]> (
  <["private_key_path" := VStr "~/.ssh/sf.p8"]> ∅)).

Definition key_world : World :=
  {| environ := ∅;
     fs_exists := fs_exists demo_world;
     package_root := package_root demo_world;
     yaml_safe_load := yaml_safe_load demo_world;
     snowflake_config_toml :=
       Some (Ok (<["connections" := VDict (<["k" := VDict conn_k]> ∅)]> ∅));
     load_pem_private_key := λ _, Ok "DER";
     connector_connect := connector_connect demo_world;
     sql_collect := sql_collect demo_world;
     subprocess_run := subprocess_run demo_world;
     mkdtemp := mkdtemp demo_world;
     copytree := copytree demo_world;
     jobs_submit := jobs_submit demo_world;
     job_status := job_status demo_world;
     job_wait := job_wait demo_world;
     job_result := job_result demo_world |}.

(** The same store with a key file that cannot be read. *)
Definition bad_key_world : World :=
  {| environ := ∅;
     fs_exists := fs_exists demo_world;
     package_root := package_root demo_world;
     yaml_safe_load := yaml_safe_load demo_world;
     snowflake_config_toml := snowflake_config_toml key_world;
     load_pem_private_key := λ _, Raise (ExternalError "bad key");
     connector_connect := connector_connect demo_world;
     sql_collect := sql_collect demo_world;
     subprocess_run := subprocess_run demo_world;
     mkdtemp := mkdtemp demo_world;
     copytree := copytree demo_world;
     jobs_submit := jobs_submit demo_world;
     job_status := job_status demo_world;
     job_wait := job_wait demo_world;
     job_result := job_result demo_world |}.

(** A machine on which every path exists and every configuration file
    parses to the document [doc]. *)
Definition yaml_world (doc : pyval) : World :=
  {| environ := ∅;
     fs_exists := λ _, true;
     package_root := package_root demo_world;
     yaml_safe_load := λ _, Ok doc;
     snowflake_config_toml := snowflake_config_toml demo_world;
     load_pem_private_key := load_pem_private_key demo_world;
     connector_connect := connector_connect demo_world;
     sql_collect := sql_collect demo_world;
     subprocess_run := subprocess_run demo_world;
     mkdtemp := mkdtemp demo_world;
     copytree := copytree demo_world;
     jobs_submit := jobs_submit demo_world;
     job_status := job_status demo_world;
     job_wait := job_wait demo_world;
     job_result := job_result demo_world |}.

(** A configuration with a misspelt field in its [compute] section. *)
Definition misspelt_compute : gmap string pyval :=
  <["compute" := VDict (<["pool" := VStr "P"]> ∅)]> ∅.

(** A configuration whose [compute] section only names the pool. *)
Definition pool_only : gmap string pyval :=
  <["compute" := VDict (<["pool_name" := VStr "P"]> ∅)]> ∅.

(** The defaults of [setup] with [verbose=False]. *)
Definition quiet_setup_args (connection_name : string) : Setup.args :=
  {| Setup.connection_name := connection_name;
     Setup.project_name := "ml_accelerator";
     Setup.database := "ML_ACCELERATOR";
     Setup.instance_family := "CPU_X64_M";
     Setup.stage_name := "DEV_STAGE";
     Setup.pool_name := None;
     Setup.eai_name := "ALLOW_ALL_INTEGRATION";
     Setup.allow_ports := None;
     Setup.min_nodes := 1;
     Setup.max_nodes := 1;
     Setup.execute := true;
     Setup.verbose := false |}.

(** The arguments [setup] and [teardown] get from the built-in default
    configuration. *)
Definition config_default_setup_args (execute : bool) : Setup.args :=
  {| Setup.connection_name := "default";
     Setup.project_name := "ml_dev";
     Setup.database := "ML_DEV";
     Setup.instance_family := "CPU_X64_M";
     Setup.stage_name := "DEV_STAGE";
     Setup.pool_name := Some "ml_dev_pool";
     Setup.eai_name := "ALLOW_ALL_INTEGRATION";
     Setup.allow_ports := Some [443; 80];
     Setup.min_nodes := 1;
     Setup.max_nodes := 1;
     Setup.execute := execute;
     Setup.verbose := true |}.

Definition config_default_teardown_args (keep_stage keep_database execute : bool)
    : Teardown.args :=
  {| Teardown.connection_name := "default";
     Teardown.project_name := "ml_dev";
     Teardown.database := "ML_DEV";
     Teardown.pool_name := Some "ml_dev_pool";
     Teardown.stage_name := "DEV_STAGE";
     Teardown.eai_name := "ALLOW_ALL_INTEGRATION";
     Teardown.keep_stage := keep_stage;
     Teardown.keep_database := keep_database;
     Teardown.execute := execute;
     Teardown.verbose := true |}.

(** A configuration file that names the project and leaves the pool
    name empty. *)
Definition project_doc : gmap string pyval :=
  <["project" := VDict (<["name" := VStr "demo"]> (<["database" := VStr "DEMO"]> ∅))]> (
  <["compute" := VDict (<["pool_name" := VStr ""]> ∅)]> ∅).

(** A world whose command-line client fails with a message in capitals. *)
Definition shouting_world : World :=
  {| environ := ∅;
     fs_exists := fs_exists demo_world;
     package_root := package_root demo_world;
     yaml_safe_load := yaml_safe_load demo_world;
     snowflake_config_toml := snowflake_config_toml demo_world;
     load_pem_private_key := load_pem_private_key demo_world;
     connector_connect := connector_connect demo_world;
     sql_collect := sql_collect demo_world;
     subprocess_run := λ _ _ _, Completed 2 "" "SERVICE DEV DOES NOT EXIST.";
     mkdtemp := mkdtemp demo_world;
     copytree := copytree demo_world;
     jobs_submit := jobs_submit demo_world;
     job_status := job_status demo_world;
     job_wait := job_wait demo_world;
     job_result := job_result demo_world |}.

(** A Mac without the editor on the search path, on which the editor
    session is ended from the keyboard. *)
Definition mac : Connect.Desktop :=
  {| Connect.which := λ _, false;
     Connect.platform_system := "Darwin";
     Connect.run_interactive := λ _ _ _, Connect.Interrupted |}.

(** The requests sent to the submission interface, the connections
    opened, and the waits and result fetches made, in order. *)
Definition submitted (tr : list event) : list submit_request :=
  omap (λ e, match e with EvSubmit req => Some req | _ => None end) tr.

Definition connections (tr : list event) : list (gmap string pyval) :=
  omap (λ e, match e with EvConnect cfg => Some cfg | _ => None end) tr.

Definition awaited (tr : list event) : list event :=
  List.filter
    (λ e, match e with EvJobWait _ _ | EvJobResult _ => true | _ => false end) tr.

(** The request [submit_file] builds for a session. *)
Definition file_request (a : Submit.args) (session : nat) : submit_request :=
  {| req_path := Submit.path a;
     req_entrypoint := None;
     req_compute_pool := Submit.compute_pool a;
     req_stage_name := Submit.stage_name a;
     req_session := session;
     req_target_instances := None;
     req_pip_requirements := list_or (Submit.pip_requirements a) [];
     req_external_access_integrations :=
       list_or (Submit.external_access_integrations a) ["ALLOW_ALL_INTEGRATION"];
     req_args := list_or (Submit.job_args a) [] |}.

(** [submit_args] with [wait=True]. *)
Definition waiting_args (p : string) : Submit.args :=
  {| Submit.path := p;
     Submit.entrypoint := "train.py";
     Submit.compute_pool := "POOL";
     Submit.connection_name := Some "a";
     Submit.pip_requirements := None;
     Submit.job_args := None;
     Submit.stage_name := "ML_JOBS_STAGE";
     Submit.target_instances := 1;
     Submit.external_access_integrations := Some [];
     Submit.wait := true;
     Submit.timeout := 60;
     Submit.verbose := false;
     Submit.exclude_patterns := None |}.

(** [populated_world] with a wait that times out, and with a copy that
    fails. *)
Definition timeout_world : World :=
  {| environ := environ populated_world;
     fs_exists := fs_exists populated_world;
     package_root := package_root populated_world;
     yaml_safe_load := yaml_safe_load populated_world;
     snowflake_config_toml := snowflake_config_toml populated_world;
     load_pem_private_key := load_pem_private_key populated_world;
     connector_connect := connector_connect populated_world;
     sql_collect := sql_collect populated_world;
     subprocess_run := subprocess_run populated_world;
     mkdtemp := mkdtemp populated_world;
     copytree := copytree populated_world;
     jobs_submit := jobs_submit populated_world;
     job_status := job_status populated_world;
     job_wait := λ _ _ _, Some (ExternalError "timed out");
     job_result := job_result populated_world |}.


(** A job service that knows one job and lists three, the last of them
    under upper-case column names, and a world in which that job is done
    with a result. *)
Definition job_rows : list (gmap string string) :=
  [ <["name" := "JOB_1"]> (<["status" := "DONE"]> (<["compute_pool" := "POOL"]> ∅));
    <["name" := "JOB_2"]> (<["status" := "RUNNING"]> ∅);
    <["NAME" := "JOB_3"]> (<["STATUS" := "FAILED"]> (<["COMPUTE_POOL" := "POOL"]> ∅)) ].

Definition job_service : Status.Service :=
  {| Status.get_job := λ _ job_id _,
       if String.eqb job_id "JOB_1" then Ok "JOB_1"
       else Raise (ValueError "no such job");
     Status.list_jobs_frame := λ _ _, Ok job_rows |}.

Definition done_world : World :=
  {| environ := environ populated_world;
     fs_exists := fs_exists populated_world;
     package_root := package_root populated_world;
     yaml_safe_load := yaml_safe_load populated_world;
     snowflake_config_toml := snowflake_config_toml populated_world;
     load_pem_private_key := load_pem_private_key populated_world;
     connector_connect := connector_connect populated_world;
     sql_collect := sql_collect populated_world;
     subprocess_run := subprocess_run populated_world;
     mkdtemp := mkdtemp populated_world;
     copytree := copytree populated_world;
     jobs_submit := jobs_submit populated_world;
     job_status := λ _ _, "Done";
     job_wait := job_wait populated_world;
     job_result := λ _ _, Ok (VInt 42) |}.

(** * The primitives on concrete inputs *)

Section Sanity.

Example split_keeps_empty_pieces :
  Str.split ";" "a;b; c;" = ["a"; "b"; " c"; ""].
Proof. reflexivity. Qed.

Example strip_both_ends : Str.strip "
  ab c
 " = "ab c".
Proof. reflexivity. Qed.

Example of_int_decimal :
  (Str.of_int 0, Str.of_int (-12), Str.of_int 443) = ("0", "-12", "443").
Proof. reflexivity. Qed.

Example lower_then_search :
  Str.contains "not found" (Str.lower "Service DEV Not Found") = true.
Proof. reflexivity. Qed.

Example port_list_default :
  Setup.port_list [443; 80] = "'0.0.0.0:443', '0.0.0.0:80'".
Proof. reflexivity. Qed.

Example statements_of_plain_text :
  statements "USE ROLE R; -- note
DROP X;
 SELECT 1 ;" = ["USE ROLE R"; "SELECT 1"].
Proof. reflexivity. Qed.

(** With the path present, [submit_file] connects, submits and reads the
    status twice (once for the console, once for the result). *)
Example submit_file_events :
  ∃ cfg req,
    trace (Submit.submit_file populated_world (submit_args "train.py") initial_state).2
    = [EvConnect cfg; EvSubmit req; EvJobStatus "JOB_1"; EvJobStatus "JOB_1"].
Proof. eexists _, _. vm_compute. reflexivity. Qed.

End Sanity.

(** * Facts about the string primitives *)

Section StrFacts.

Import Str.

Lemma str_app_cons (x : ascii) (a b : string) : String x a +:+ b = String x (a +:+ b).
Proof. reflexivity. Qed.

Lemma str_app_assoc (a b c : string) : (a +:+ b) +:+ c = a +:+ (b +:+ c).
Proof.
  induction a as [|x a IH]; [reflexivity|].
  rewrite !str_app_cons. by f_equal.
Qed.






Lemma has_char_app c a b : has_char c (a +:+ b) = has_char c a || has_char c b.
Proof.
  induction a as [|x a IH]; [reflexivity|].
  rewrite str_app_cons. simpl. by rewrite IH, orb_assoc.
Qed.

Lemma no_space_app a b : no_space (a +:+ b) = no_space a && no_space b.
Proof.
  induction a as [|x a IH]; [reflexivity|].
  rewrite str_app_cons. simpl. by rewrite IH, andb_assoc.
Qed.

(** The decimal rendering of an integer has digits and at most a sign. *)
Lemma has_char_uint c d :
  has_char c "0123456789" = false →
  has_char c (NilEmpty.string_of_uint d) = false.
Proof.
  intros Hc. simpl in Hc. repeat (apply orb_false_iff in Hc as [? Hc]).
  induction d; simpl; rewrite ?IHd; try done;
    match goal with H : Ascii.eqb c ?x = false |- Ascii.eqb c ?x || _ = false =>
      by rewrite H end.
Qed.

Lemma has_char_of_int c n :
  has_char c "-0123456789" = false → has_char c (of_int n) = false.
Proof.
  intros Hc. simpl in Hc. apply orb_false_iff in Hc as [Hm Hc].
  assert (Hu : ∀ d, has_char c (NilZero.string_of_uint d) = false).
  { intros d. pose proof (has_char_uint c d Hc) as Hd.
    destruct d; try exact Hd. simpl.
    apply orb_false_iff in Hc as [-> _]. done. }
  unfold of_int. destruct (Z.to_int n); simpl; [apply Hu|].
  by rewrite Hm, Hu.
Qed.


Lemma startswith_spec p s : startswith p s = true ↔ ∃ b, s = p +:+ b.
Proof.
  revert s. induction p as [|a p IH]; intros s.
  - split; [intros _; by exists s | done].
  - destruct s as [|c s]; simpl.
    + split; [done | intros [b Hb]; discriminate].
    + destruct (Ascii.eqb a c) eqn:E.
      * apply Ascii.eqb_eq in E as ->. rewrite IH. split.
        -- intros [b ->]. by exists b.
        -- intros [b Hb]. rewrite str_app_cons in Hb. injection Hb as ->. by exists b.
      * split; [done|]. intros [b Hb]. rewrite str_app_cons in Hb.
        injection Hb as -> _. by rewrite Ascii.eqb_refl in E.
Qed.

(** [contains] decides [infix_of]: the model of Python's [in] on strings
    finds exactly the contiguous pieces. *)
Lemma contains_spec p s : contains p s = true ↔ infix_of p s.
Proof.
  unfold infix_of. induction s as [|c s IH].
  - simpl. rewrite orb_false_r, startswith_spec. split.
    + intros [b Hb]. by exists "", b.
    + intros (a & b & H). destruct a; [by exists b|discriminate].
  - cbn [contains]. rewrite orb_true_iff, IH, startswith_spec. split.
    + intros [[b Hb]|(a & b & ->)]; [by exists "", b|].
      by exists (String c a), b.
    + intros (a & b & H). destruct a as [|x a]; [left; by exists b|].
      right. rewrite str_app_cons in H. injection H as _ ->. by exists a, b.
Qed.

End StrFacts.

Section SetupFacts.

Import Str.

(** The characters of the rendered port list: digits, a sign, and the
    punctuation of the template. *)
Lemma has_char_port_list c ports :
  has_char c "-0123456789'.:, " = false →
  has_char c (Setup.port_list ports) = false.
Proof.
  intros Hc.
  assert (Hn : has_char c "-0123456789" = false).
  { simpl in *. repeat (apply orb_false_iff in Hc as [? Hc]).
    repeat (apply orb_false_iff; split); done. }
  assert (He : ∀ p, has_char c ("'0.0.0.0:" +:+ of_int p +:+ "'") = false).
  { intros p. rewrite !has_char_app, (has_char_of_int _ _ Hn).
    simpl in *. repeat (apply orb_false_iff in Hc as [? Hc]).
    repeat (apply orb_false_iff; split); done. }
  unfold Setup.port_list.
  induction ports as [|p [|q l] IH]; [done | apply He |].
  change (has_char c (("'0.0.0.0:" +:+ of_int p +:+ "'") +:+ ", " +:+
            join ", " (List.map (λ port, "'0.0.0.0:" +:+ of_int port +:+ "'") (q :: l))) = false).
  rewrite has_char_app, He, has_char_app, IH.
  simpl in *. repeat (apply orb_false_iff in Hc as [? Hc]).
  repeat (apply orb_false_iff; split); done.
Qed.

Lemma no_space_str_or x y :
  (∀ s, x = Some s → no_space s = true) → no_space y = true →
  no_space (str_or x y) = true.
Proof.
  intros Hx Hy. destruct x as [s|]; [|done].
  simpl. destruct (Str.truthy s); [by apply Hx | done].
Qed.

End SetupFacts.

(** * The SQL text of setup and teardown *)

Section SqlText.
Import Str.



Lemma infix_skip (x rest s : string) :
  (∃ pre post, rest = pre +:+ s +:+ post) →
  ∃ pre post, x +:+ rest = pre +:+ s +:+ post.
Proof.
  intros (pre & post & ->). exists (x +:+ pre), post. by rewrite str_app_assoc.
Qed.

Lemma safe_pool a :
  Setup.safe_identifiers a = true → no_space (Setup.resolved_pool_name a) = true.
Proof.
  unfold Setup.safe_identifiers. rewrite !andb_true_iff.
  intros [[[[[Hpn _] _] _] _] Hp].
  apply no_space_str_or.
  - intros s Hs. by rewrite Hs in Hp.
  - rewrite no_space_app, Hpn. reflexivity.
Qed.





Lemma safe_tpool a :
  Teardown.safe_identifiers a = true → no_space (Teardown.resolved_pool_name a) = true.
Proof.
  unfold Teardown.safe_identifiers. rewrite !andb_true_iff.
  intros [[[[Hpn _] _] _] Hp].
  apply no_space_str_or.
  - intros s Hs. by rewrite Hs in Hp.
  - rewrite no_space_app, Hpn. reflexivity.
Qed.






End SqlText.

(** * Configuration *)

Section ConfigFacts.
Import Config.

Lemma section_absent {C} (init : gmap string pyval → result C) dflt data key :
  data !! key = None → section init dflt (get data key (VDict ∅)) = Ok dflt.
Proof. intros H. unfold get. rewrite H. reflexivity. Qed.

(** A section is built iff its value can be unpacked. *)
Lemma section_returns {C} (init : gmap string pyval → result C) dflt data key fields :
  (∀ kw, (∃ c, init kw = Ok c) ↔ accepts fields kw = true) →
  (∃ c, section init dflt (get data key (VDict ∅)) = Ok c) ↔
  section_ok data key fields = true.
Proof.
  intros Hinit. unfold section_ok, get.
  destruct (data !! key) as [v|]; simpl; [|split; [done | by eexists]].
  unfold section, unpackable.
  destruct (truthy v); simpl; [|split; [done | by eexists]].
  destruct v; try (split; [by intros [? ?] | done]). apply Hinit.
Qed.

Lemma from_dict_sections data c :
  from_dict data = Ok c →
  section ProjectConfig_init default_project (get data "project" (VDict ∅))
    = Ok (project c) ∧
  section ComputeConfig_init default_compute (get data "compute" (VDict ∅))
    = Ok (compute c) ∧
  section StorageConfig_init default_storage (get data "storage" (VDict ∅))
    = Ok (storage c) ∧
  section NetworkConfig_init default_network (get data "network" (VDict ∅))
    = Ok (network c).
Proof.
  unfold from_dict. cbv zeta.
  destruct (section ProjectConfig_init _ _) as [p|]; [|discriminate].
  destruct (section ComputeConfig_init _ _) as [k|]; [|discriminate].
  destruct (section StorageConfig_init _ _) as [s|]; [|discriminate].
  destruct (section NetworkConfig_init _ _) as [n|]; [|discriminate].
  by intros [= <-].
Qed.

Lemma load_parsed w p data :
  fs_exists w (select_path w p) = true →
  yaml_safe_load w (select_path w p) = Ok (VDict data) →
  load w p = from_dict data.
Proof.
  intros Hex Hy. unfold load. rewrite Hex, Hy. simpl.
  destruct (size data =? 0)%nat eqn:Hsz; simpl; [|reflexivity].
  apply Nat.eqb_eq, map_size_empty_iff in Hsz. by rewrite Hsz.
Qed.

Ltac init_spec :=
  let kw := fresh "kw" in
  intros kw;
  unfold ProjectConfig_init, ComputeConfig_init, StorageConfig_init, NetworkConfig_init;
  destruct (accepts _ kw);
    [ split; [reflexivity | intros _; eexists; reflexivity]
    | split; [intros [? ?]; discriminate | discriminate] ].

(** C6: [from_dict] produces a configuration exactly for the input
    dictionaries whose present sections can be unpacked (it raises a
    [TypeError] on the others), and in every configuration it produces,
    as in the one [load] produces from a file that parses to the
    dictionary, each omitted section is the documented default; omitting
    [network] yields [allow_ports] [[443, 80]] and [eai_name]
    ALLOW_ALL_INTEGRATION. *)
Theorem from_dict_omitted_sections (data : gmap string pyval) :
  ((∃ c, from_dict data = Ok c) ↔ sections_well_formed data = true) ∧
  ∀ c, from_dict data = Ok c →
    (∀ w p, fs_exists w (select_path w p) = true →
            yaml_safe_load w (select_path w p) = Ok (VDict data) →
            load w p = Ok c) ∧
    (data !! "project" = None → project c = default_project) ∧
    (data !! "compute" = None → compute c = default_compute) ∧
    (data !! "storage" = None → storage c = default_storage) ∧
    (data !! "network" = None →
       network c = default_network ∧
       allow_ports (network c) = VList [VInt 443; VInt 80] ∧
       eai_name (network c) = VStr "ALLOW_ALL_INTEGRATION").
Proof.
  split.
  - unfold sections_well_formed. rewrite !andb_true_iff.
    rewrite <- (section_returns ProjectConfig_init default_project data "project")
      by init_spec.
    rewrite <- (section_returns ComputeConfig_init default_compute data "compute")
      by init_spec.
    rewrite <- (section_returns StorageConfig_init default_storage data "storage")
      by init_spec.
    rewrite <- (section_returns NetworkConfig_init default_network data "network")
      by init_spec.
    split.
    + intros [c Hc]. apply from_dict_sections in Hc as (Hp & Hk & Hs & Hn).
      repeat split; by eexists.
    + intros [[[[p Hp] [k Hk]] [s Hs]] [n Hn]].
      unfold from_dict. cbv zeta. rewrite Hp, Hk, Hs, Hn. by eexists.
  - intros c Hc. split.
    { intros w p Hex Hy. by rewrite (load_parsed w p data Hex Hy). }
    apply from_dict_sections in Hc as (Hp & Hk & Hs & Hn).
    repeat split.
    + intros H. rewrite (section_absent _ _ _ _ H) in Hp. congruence.
    + intros H. rewrite (section_absent _ _ _ _ H) in Hk. congruence.
    + intros H. rewrite (section_absent _ _ _ _ H) in Hs. congruence.
    + rewrite (section_absent _ _ _ _ H) in Hn. congruence.
    + rewrite (section_absent _ _ _ _ H) in Hn. by injection Hn as <-.
    + rewrite (section_absent _ _ _ _ H) in Hn. by injection Hn as <-.
Qed.

Lemma from_dict_omitted_sections_witness :
  ∃ c, from_dict project_only = Ok c ∧
       name (project c) = VStr "demo" ∧
       database (project c) = VStr "ML_DEV" ∧
       network c = default_network.
Proof.
  destruct (from_dict_omitted_sections project_only) as [Hiff Hdflt].
  destruct (proj2 Hiff ltac:(vm_compute; reflexivity)) as [c Hc].
  exists c. split; [exact Hc|].
  destruct (Hdflt c Hc) as (_ & _ & _ & _ & Hn).
  destruct (Hn ltac:(vm_compute; reflexivity)) as [Hn' _].
  vm_compute in Hc. injection Hc as <-. repeat split.
Defined.

(** C10: for every configuration [c], [from_dict (to_dict c)] is [c]:
    the round trip through the dictionary loses and renames no field. *)
Theorem from_dict_to_dict (c : Config) : from_dict (to_dict c) = Ok c.
Proof.
  destruct c as [cn [n d] [pn fam mn mx] [sn en] [ea ap]].
  unfold from_dict, to_dict, get. simpl.
  simplify_map_eq.
  unfold section, truthy.
  rewrite !map_size_insert_None by (by simplify_map_eq).
  simpl.
  unfold ProjectConfig_init, ComputeConfig_init, StorageConfig_init,
    NetworkConfig_init, accepts, get.
  rewrite !bool_decide_eq_true_2 by (rewrite !dom_insert_L; set_solver).
  by simplify_map_eq.
Qed.

End ConfigFacts.

(** * Statement execution *)

Section Execution.

(** [for_each] over a body that never raises and only appends events. *)
Lemma try_statement w verbose session stmt st :
  ∃ st',
    when (Str.truthy stmt)
      (try_except (Sess.sql_collect_ w session stmt)
         (λ e, when verbose (emit (EvWarn ("[yellow]Warning:[/] " +:+ exn_str e))))) st
    = (Ok tt, st') ∧
    cache st' = cache st ∧ created st' = created st ∧
    sql_sent (trace st') =
      (sql_sent (trace st) ++ (if Str.truthy stmt then [stmt] else []))%list.
Proof.
  destruct (Str.truthy stmt); simpl.
  - unfold try_except, Sess.sql_collect_, mbind, M_bind, bind, get_trace, emit.
    simpl. unfold sql_sent.
    destruct (sql_collect w (trace st) (sess_id session) stmt) as [e|]; simpl.
    + destruct verbose; simpl; eexists; (split; [reflexivity|]); simpl;
        rewrite ?omap_app; simpl; rewrite ?app_nil_r; done.
    + eexists; (split; [reflexivity|]); simpl. rewrite omap_app. done.
  - exists st. rewrite app_nil_r. done.
Qed.

(** The loop never raises, keeps the session cache, and sends every
    non-empty statement of its list, in order, whatever fails. *)
Lemma run_statements_continues w verbose session stmts st :
  ∃ st',
    run_statements w verbose session stmts st = (Ok tt, st') ∧
    cache st' = cache st ∧ created st' = created st ∧
    sql_sent (trace st') =
      (sql_sent (trace st) ++ List.filter Str.truthy stmts)%list.
Proof.
  unfold run_statements. revert st.
  induction stmts as [|stmt l IH]; intros st.
  - exists st. simpl. rewrite app_nil_r. done.
  - destruct (try_statement w verbose session stmt st) as (st1 & E1 & Hc1 & Hn1 & Ht1).
    destruct (IH st1) as (st2 & E2 & Hc2 & Hn2 & Ht2).
    exists st2. split; [|split; [congruence|split; [congruence|]]].
    + cbn [for_each]. unfold mbind, M_bind, bind at 1. rewrite E1. exact E2.
    + rewrite Ht2, Ht1. cbn [List.filter].
      destruct (Str.truthy stmt); simpl; rewrite <- ?List.app_assoc; simpl;
        rewrite ?app_nil_r; done.
Qed.

End Execution.

(** * Splitting the text into statements *)

Section SplitFacts.
Import Str.

Lemma str_app_empty_r (a : string) : a +:+ "" = a.
Proof.
  induction a as [|x a IH]; [reflexivity|]. rewrite str_app_cons. by f_equal.
Qed.

Lemma split_nonempty sep s : split sep s ≠ [].
Proof.
  destruct s as [|c s]; [done|]. simpl.
  destruct (Ascii.eqb c sep); [done|]. by destruct (split sep s).
Qed.

(** A string without the separator is glued to the first piece. *)
Lemma split_app_nosep sep x rest :
  has_char sep x = false →
  split sep (x +:+ rest) =
    match split sep rest with
    | h :: t => (x +:+ h) :: t
    | [] => [x]
    end.
Proof.
  induction x as [|c x IH]; intros H.
  - change ("" +:+ rest) with rest.
    destruct (split sep rest) eqn:E; [by apply split_nonempty in E | done].
  - simpl in H. apply orb_false_iff in H as [Hc Hx].
    rewrite str_app_cons. cbn [split].
    rewrite Ascii.eqb_sym, Hc, (IH Hx).
    destruct (split sep rest) eqn:E; [by apply split_nonempty in E | done].
Qed.

Lemma split_nosep sep x : has_char sep x = false → split sep x = [x].
Proof.
  induction x as [|c x IH]; intros H; [done|].
  simpl in H. apply orb_false_iff in H as [Hc Hx].
  cbn [split]. by rewrite Ascii.eqb_sym, Hc, (IH Hx).
Qed.

(** Splitting undoes joining when no piece holds the separator. *)
Lemma split_join sep (l : list string) :
  l ≠ [] → Forall (λ x, has_char sep x = false) l →
  split sep (join (String sep "") l) = l.
Proof.
  induction l as [|x [|y l] IH]; intros Hne Hall; [done | |].
  - simpl. apply split_nosep. by inversion Hall.
  - inversion Hall as [|? ? Hx Hrest]; subst.
    change (join (String sep "") (x :: y :: l))
      with (x +:+ String sep (join (String sep "") (y :: l))).
    rewrite (split_app_nosep _ _ _ Hx). cbn [split].
    rewrite Ascii.eqb_refl, IH by done.
    by rewrite str_app_empty_r.
Qed.

Lemma rstrip_no_space t : no_space t = true → rstrip t = t.
Proof.
  induction t as [|c t IH]; [done|]. simpl.
  intros [Hc Ht]%andb_true_iff. rewrite (IH Ht).
  apply negb_true_iff in Hc. rewrite Hc. by destruct t.
Qed.

Lemma rstrip_app x t :
  rstrip t ≠ "" → rstrip (x +:+ t) = x +:+ rstrip t.
Proof.
  intros Ht. induction x as [|c x IH]; [done|].
  rewrite !str_app_cons. cbn [rstrip]. rewrite IH.
  destruct (x +:+ rstrip t) eqn:E; [|done].
  destruct x; [|discriminate]. by destruct Ht.
Qed.

Lemma rstrip_cons c s : is_space c = false → rstrip (String c s) = String c (rstrip s).
Proof. intros H. simpl. rewrite H. by destruct (rstrip s). Qed.

(** A piece whose first line is a comment is not kept as a statement. *)
Lemma commented_text s :
  startswith "--" (lstrip s) = true →
  truthy (strip s) && negb (startswith "--" (strip s)) = false.
Proof.
  intros H. unfold strip.
  destruct (lstrip s) as [|a [|b u]]; cbn [startswith] in H.
  - discriminate.
  - by destruct (Ascii.eqb "-" a).
  - destruct (Ascii.eqb_spec "-" a) as [<-|]; [|discriminate].
    destruct (Ascii.eqb_spec "-" b) as [<-|]; [|discriminate].
    rewrite !rstrip_cons by reflexivity. reflexivity.
Qed.

(** A piece that, once its leading white space is gone, does not begin
    with a dash and ends in something visible is kept as it then is. *)
Lemma statement_text s :
  rstrip (lstrip s) = lstrip s → lstrip s ≠ "" →
  Ascii.eqb "-" (match lstrip s with String a _ => a | _ => " "%char end) = false →
  strip s = lstrip s ∧
  truthy (strip s) && negb (startswith "--" (strip s)) = true.
Proof.
  intros Hr Hne Ha. unfold strip. rewrite Hr. split; [done|].
  destruct (lstrip s) as [|a u]; [done|].
  cbn [startswith truthy andb negb]. by rewrite Ha.
Qed.

Lemma rstrip_keeps x t : rstrip t = t → t ≠ "" → rstrip (x +:+ t) = x +:+ t.
Proof. intros Ht Hne. rewrite rstrip_app, Ht by (by rewrite Ht). done. Qed.

Lemma app_not_empty x t : t ≠ "" → x +:+ t ≠ "".
Proof. intros Ht. destruct x; [done | discriminate]. Qed.

Lemma truthy_not_empty s : truthy s = true → s ≠ "".
Proof. by destruct s. Qed.

End SplitFacts.

Section StatementLists.
Import Str.

Lemma filter_drop {A} (f : A → bool) x l :
  f x = false → List.filter f (x :: l) = List.filter f l.
Proof. intros H. simpl. by rewrite H. Qed.

Lemma filter_keep {A} (f : A → bool) x l :
  f x = true → List.filter f (x :: l) = x :: List.filter f l.
Proof. intros H. simpl. by rewrite H. Qed.

Lemma setup_sql_pieces a : Setup.sql a = join ";" (Setup.pieces a).
Proof.
  unfold Setup.sql, Setup.render, Setup.pieces. cbn [join].
  rewrite !str_app_assoc. reflexivity.
Qed.

Lemma teardown_sql_pieces a : Teardown.sql a = join ";" (Teardown.pieces a).
Proof.
  unfold Teardown.sql, Teardown.sql_parts, Teardown.pieces, Teardown.nl.
  destruct (Teardown.keep_stage a), (Teardown.keep_database a);
    cbn [negb app join]; rewrite !str_app_assoc; reflexivity.
Qed.


Lemma setup_plain a :
  Setup.plain a = true →
  Setup.safe_identifiers a = true ∧
  has_char ";" (Setup.project_name a) = false ∧
  has_char ";" (Setup.database a) = false ∧
  has_char ";" (Setup.instance_family a) = false ∧
  has_char ";" (Setup.stage_name a) = false ∧
  has_char ";" (Setup.eai_name a) = false ∧
  has_char ";" (Setup.resolved_pool_name a) = false ∧
  Setup.database a ≠ "".
Proof.
  unfold Setup.plain. rewrite !andb_true_iff, !negb_true_iff.
  intros [[[[[[[Hs H1] H2] H3] H4] H5] H6] H7].
  repeat split; try done; [|by apply truthy_not_empty].
  unfold Setup.resolved_pool_name, str_or.
  destruct (Setup.pool_name a) as [p|].
  - apply negb_true_iff in H6. destruct (Str.truthy p); [done|].
    by rewrite has_char_app, H1.
  - by rewrite has_char_app, H1.
Qed.

Ltac filter_pieces :=
  repeat first
    [ rewrite filter_drop by (apply commented_text; reflexivity)
    | rewrite filter_drop by reflexivity
    | rewrite filter_keep by
        (apply statement_text;
         [ match goal with H : rstrip _ = _ |- _ => exact H end
         | vm_compute; discriminate
         | reflexivity ]) ].

Ltac stripped_pieces :=
  cbn [List.filter List.map];
  repeat (apply (f_equal2 cons);
          [ etransitivity;
            [ apply statement_text;
              [ match goal with H : rstrip _ = _ |- _ => exact H end
              | vm_compute; discriminate
              | reflexivity ]
            | reflexivity ] | ]).

Lemma setup_statements a :
  Setup.plain a = true →
  statements (Setup.sql a) = ["USE DATABASE " +:+ Setup.database a].
Proof.
  intros Hplain.
  destruct (setup_plain a Hplain) as (Hsafe & H1 & H2 & H3 & H4 & H5 & H6 & Hdb).
  pose proof (safe_pool a Hsafe) as Hpool.
  unfold Setup.safe_identifiers in Hsafe. rewrite !andb_true_iff in Hsafe.
  destruct Hsafe as [[[[[Hpn Hd] Hfam] Hst] Heai] _].
  assert (Hr : rstrip ("USE DATABASE " +:+ Setup.database a)
               = "USE DATABASE " +:+ Setup.database a)
    by (apply rstrip_keeps; [by apply rstrip_no_space | done]).
  unfold statements. rewrite setup_sql_pieces, split_join; [|done|].
  - unfold Setup.pieces. filter_pieces. stripped_pieces. done.
  - unfold Setup.pieces.
    repeat (apply Forall_cons; split); try apply Forall_nil;
      rewrite ?has_char_app, ?H1, ?H2, ?H3, ?H4, ?H5, ?H6,
        ?(has_char_of_int ";"), ?(has_char_port_list ";"); reflexivity.
Qed.


Lemma teardown_plain a :
  Teardown.plain a = true →
  Teardown.safe_identifiers a = true ∧
  has_char ";" (Teardown.project_name a) = false ∧
  has_char ";" (Teardown.database a) = false ∧
  has_char ";" (Teardown.stage_name a) = false ∧
  has_char ";" (Teardown.eai_name a) = false ∧
  has_char ";" (Teardown.resolved_pool_name a) = false ∧
  Teardown.resolved_pool_name a ≠ "".
Proof.
  unfold Teardown.plain. rewrite !andb_true_iff, !negb_true_iff.
  intros [[[[[Hs H1] H2] H3] H4] H5].
  repeat split; try done;
    unfold Teardown.resolved_pool_name, str_or;
    destruct (Teardown.pool_name a) as [p|].
  - apply negb_true_iff in H5. destruct (Str.truthy p); [done|].
    by rewrite has_char_app, H1.
  - by rewrite has_char_app, H1.
  - destruct (Str.truthy p) eqn:Hp; [by apply truthy_not_empty|].
    by apply app_not_empty.
  - by apply app_not_empty.
Qed.

Lemma teardown_statements a :
  Teardown.plain a = true →
  statements (Teardown.sql a) = Teardown.sent a.
Proof.
  intros Hplain.
  destruct (teardown_plain a Hplain) as (Hsafe & H1 & H2 & H3 & H4 & H5 & Hne).
  pose proof (safe_tpool a Hsafe) as Hpool.
  unfold Teardown.safe_identifiers in Hsafe. rewrite !andb_true_iff in Hsafe.
  destruct Hsafe as [[[[Hpn Hd] Hst] Heai] _].
  unfold statements. rewrite teardown_sql_pieces.
  unfold Teardown.pieces, Teardown.sent, Teardown.nl.
  generalize dependent (Teardown.resolved_pool_name a). intros pool H5 Hne Hpool.
  assert (Hq2 : rstrip ("ALTER COMPUTE POOL IF EXISTS " +:+ pool +:+ " SUSPEND")
                = "ALTER COMPUTE POOL IF EXISTS " +:+ pool +:+ " SUSPEND").
  { rewrite <- !str_app_assoc. by apply rstrip_keeps. }
  assert (Hq3 : rstrip ("DROP COMPUTE POOL IF EXISTS " +:+ pool)
                = "DROP COMPUTE POOL IF EXISTS " +:+ pool)
    by (apply rstrip_keeps; [by apply rstrip_no_space | done]).
  assert (Hq5 : rstrip ("DROP NETWORK RULE IF EXISTS " +:+ Teardown.database a +:+
                        ".PUBLIC." +:+ Teardown.eai_name a +:+ "_rule")
                = "DROP NETWORK RULE IF EXISTS " +:+ Teardown.database a +:+
                  ".PUBLIC." +:+ Teardown.eai_name a +:+ "_rule").
  { rewrite <- !str_app_assoc. by apply rstrip_keeps. }
  rewrite split_join.
  - destruct (Teardown.keep_stage a), (Teardown.keep_database a);
      cbn [negb app]; filter_pieces; stripped_pieces; done.
  - by destruct (Teardown.keep_stage a).
  - destruct (Teardown.keep_stage a), (Teardown.keep_database a); cbn [negb app];
      repeat (apply Forall_cons; split); try apply Forall_nil;
      rewrite ?has_char_app, ?H1, ?H2, ?H3, ?H4, ?H5; reflexivity.
Qed.


(** C1 (what the code does instead): for arguments whose names hold no
    white space and no semicolon, the statement list of [setup] holds
    USE DATABASE only, and that of [teardown] three statements (SUSPEND,
    DROP COMPUTE POOL, DROP NETWORK RULE), whatever the [keep] flags: a
    piece of the text that begins with a comment line is dropped together
    with the statement that follows the comment.  With [execute=True] and
    a session, these and no other statements are sent, in order, whether
    or not they fail. *)
Theorem setup_skips_commented_statements :
  (∀ a, Setup.plain a = true →
     statements (Setup.sql a) = ["USE DATABASE " +:+ Setup.database a] ∧
     ∀ w st session st1,
       Setup.execute a = true →
       Sess.get_session w (Some (Setup.connection_name a)) st = (Ok session, st1) →
       ∃ r st2,
         Setup.setup w a st = (Ok r, st2) ∧
         r !! "status" = Some (VStr "complete") ∧
         sql_sent (trace st2) =
           (sql_sent (trace st1) ++ ["USE DATABASE " +:+ Setup.database a])%list) ∧
  (∀ a, Teardown.plain a = true →
     statements (Teardown.sql a) = Teardown.sent a ∧
     ∀ w st session st1,
       Teardown.execute a = true →
       Sess.get_session w (Some (Teardown.connection_name a)) st = (Ok session, st1) →
       ∃ r st2,
         Teardown.teardown w a st = (Ok r, st2) ∧
         r !! "status" = Some (VStr "complete") ∧
         sql_sent (trace st2) = (sql_sent (trace st1) ++ Teardown.sent a)%list).
Proof.
  split; intros a Hplain.
  - pose proof (setup_statements a Hplain) as Hs. split; [exact Hs|].
    intros w st session st1 Hex Hget.
    destruct (run_statements_continues w (Setup.verbose a) session
                (statements (Setup.sql a)) st1) as (st2 & E & _ & _ & Ht).
    eexists _, st2. unfold Setup.setup. rewrite Hex.
    cbv [mbind M_bind bind ret]. rewrite Hget, E.
    split; [reflexivity|]. split; [by simplify_map_eq|].
    rewrite Ht, Hs. reflexivity.
  - pose proof (teardown_statements a Hplain) as Hs. split; [exact Hs|].
    intros w st session st1 Hex Hget.
    destruct (run_statements_continues w (Teardown.verbose a) session
                (statements (Teardown.sql a)) st1) as (st2 & E & _ & _ & Ht).
    eexists _, st2. unfold Teardown.teardown. rewrite Hex.
    cbv [mbind M_bind bind ret]. rewrite Hget, E.
    split; [reflexivity|]. split; [by simplify_map_eq|].
    rewrite Ht, Hs. reflexivity.
Qed.

Lemma setup_skips_commented_statements_witness :
  (∃ r st2,
     Setup.setup demo_world (Setup.default_args "a") initial_state = (Ok r, st2) ∧
     sql_sent (trace st2) = ["USE DATABASE ML_ACCELERATOR"]) ∧
  (∃ r st2,
     Teardown.teardown demo_world (Teardown.drop_stage_args "a" "ml_dev") initial_state
       = (Ok r, st2) ∧
     sql_sent (trace st2) =
       ["ALTER COMPUTE POOL IF EXISTS ml_dev_pool SUSPEND";
        "DROP COMPUTE POOL IF EXISTS ml_dev_pool";
        "DROP NETWORK RULE IF EXISTS ML_DEV.PUBLIC.ALLOW_ALL_INTEGRATION_rule"]).
Proof.
  destruct setup_skips_commented_statements as [Hsetup Hteardown]. split.
  - destruct (Hsetup (Setup.default_args "a") eq_refl) as [_ Hrun].
    destruct (Hrun demo_world initial_state
                {| sess_id := 0; sess_cfg := conn_a |}
                {| cache := Some (Some "a", {| sess_id := 0; sess_cfg := conn_a |});
                   created := 1; trace := [EvConnect conn_a] |}
                eq_refl eq_refl) as (r & st2 & E & _ & Ht).
    exists r, st2. split; [exact E | exact Ht].
  - destruct (Hteardown (Teardown.drop_stage_args "a" "ml_dev") eq_refl) as [_ Hrun].
    destruct (Hrun demo_world initial_state
                {| sess_id := 0; sess_cfg := conn_a |}
                {| cache := Some (Some "a", {| sess_id := 0; sess_cfg := conn_a |});
                   created := 1; trace := [EvConnect conn_a] |}
                eq_refl eq_refl) as (r & st2 & E & _ & Ht).
    exists r, st2. split; [exact E | exact Ht].
Defined.

End StatementLists.



Section LoadFacts.
Import Config.

(** C2, as stated, fails: an explicit path that does not exist raises
    nothing, [load] returns the built-in defaults. *)
Lemma load_missing_explicit_path :
  fs_exists demo_world "missing.yaml" = false ∧
  load demo_world (Some "missing.yaml") = Ok default_config.
Proof. split; reflexivity. Qed.

(** C2 (amended): [load] raises no error for a missing file.  If the
    explicit path does not exist, or no path is given and neither the user
    file nor the default file exists, it returns the built-in default
    configuration; whenever it raises, the file it selected exists. *)
Theorem load_missing_file (w : World) :
  (∀ p, Str.truthy p = true → fs_exists w p = false →
        load w (Some p) = Ok default_config) ∧
  (fs_exists w (package_root w +:+ "/config/config.yaml") = false →
   fs_exists w (package_root w +:+ "/config/default.yaml") = false →
   load w None = Ok default_config) ∧
  (∀ p e, load w p = Raise e → fs_exists w (select_path w p) = true).
Proof.
  split; [|split].
  - intros p Hp Hex. unfold load, select_path. simpl. rewrite Hp. simpl.
    by rewrite Hex.
  - intros Hu Hd. unfold load, select_path. simpl. rewrite Hu, Hd. reflexivity.
  - intros p e. unfold load.
    destruct (fs_exists w (select_path w p)); [done | discriminate].
Qed.

Lemma load_missing_file_witness :
  load demo_world (Some "missing.yaml") = Ok default_config ∧
  load demo_world None = Ok default_config.
Proof.
  destruct (load_missing_file demo_world) as (H1 & H2 & _). split.
  - apply H1; reflexivity.
  - apply H2; reflexivity.
Defined.

End LoadFacts.

Section SessionFacts.
Import Sess.

Lemma get_session_uncached_ok w name st h st' :
  get_session_uncached w name st = (Ok h, st') →
  sess_id h = created st ∧ created st' = S (created st) ∧
  cache st' = cache st ∧ trace st' = (trace st ++ [EvConnect (sess_cfg h)])%list.
Proof.
  unfold get_session_uncached, connect.
  cbv [mbind M_bind bind lift get_trace emit raise].
  destruct (_get_connection_config w _) as [cfg|e]; [|discriminate].
  simpl. destruct (connector_connect w (trace st) cfg); [discriminate|].
  intros [= <- <-]. done.
Qed.

Lemma get_session_uncached_raise w name st e st' :
  get_session_uncached w name st = (Raise e, st') →
  cache st' = cache st ∧ created st' = created st.
Proof.
  unfold get_session_uncached, connect.
  cbv [mbind M_bind bind lift get_trace emit raise].
  destruct (_get_connection_config w _) as [cfg|e0].
  - simpl. destruct (connector_connect w (trace st) cfg); [|discriminate].
    intros [= <- <-]. done.
  - intros [= <- <-]. done.
Qed.

(** A call whose argument is not the cached key runs the body. *)
Lemma get_session_miss w name st :
  (∀ h, cache st ≠ Some (name, h)) →
  get_session w name st =
    match get_session_uncached w name st with
    | (Ok h, st') =>
        (Ok h, {| cache := Some (name, h); created := created st'; trace := trace st' |})
    | (Raise e, st') => (Raise e, st')
    end.
Proof.
  intros Hmiss. unfold get_session.
  destruct (cache st) as [[key h]|]; [|reflexivity].
  destruct (decide (key = name)) as [->|]; [|reflexivity].
  by destruct (Hmiss h).
Qed.

Lemma get_session_ok w name st h st' :
  cache_fresh st → get_session w name st = (Ok h, st') →
  cache st' = Some (name, h) ∧ cache_fresh st' ∧ (sess_id h < created st')%nat.
Proof.
  intros Hf. unfold get_session.
  assert (Hmiss :
    match get_session_uncached w name st with
    | (Ok h0, st0) =>
        (Ok h0, {| cache := Some (name, h0); created := created st0; trace := trace st0 |})
    | (Raise e, st0) => (Raise e, st0)
    end = (Ok h, st') →
    cache st' = Some (name, h) ∧ cache_fresh st' ∧ (sess_id h < created st')%nat).
  { destruct (get_session_uncached w name st) as [[h0|e] st0] eqn:E; [|discriminate].
    intros [= <- <-]. apply get_session_uncached_ok in E as (Hid & Hn & _ & _).
    unfold cache_fresh. simpl. rewrite Hid, Hn. repeat split; lia. }
  unfold cache_fresh in Hf.
  destruct (cache st) as [[key h0]|] eqn:Ec; [|exact Hmiss].
  destruct (decide (key = name)) as [->|]; [|exact Hmiss].
  intros [= <- <-]. unfold cache_fresh. rewrite Ec. done.
Qed.



(** C3, as stated, fails: after a call with the name [a], a call with
    the name [b] and no clearing of the cache in between makes a new
    handle and puts it in the cache in place of the first. *)
Lemma get_session_second_name_replaces :
  ∃ h1 st1 h2 st2,
    get_session demo_world (Some "a") initial_state = (Ok h1, st1) ∧
    get_session demo_world (Some "b") st1 = (Ok h2, st2) ∧
    cache st1 = Some (Some "a", h1) ∧
    cache st2 = Some (Some "b", h2) ∧
    sess_id h1 = 0%nat ∧ sess_id h2 = 1%nat.
Proof.
  eexists _, _, _, _. vm_compute. repeat split.
Qed.

(** C3 (amended): for two calls of [get_session] with distinct
    connection names and no clearing of the cache in between, the second
    call, when it returns, has made a new connection and a new handle,
    and that handle has taken the single slot of the cache in place of the
    first; only a second call that raises leaves the first handle cached. *)
Theorem get_session_other_name_evicts w a b st h1 st1 :
  cache_fresh st → a ≠ b → get_session w a st = (Ok h1, st1) →
  cache st1 = Some (a, h1) ∧
  (∀ h2 st2, get_session w b st1 = (Ok h2, st2) →
     cache st2 = Some (b, h2) ∧
     sess_id h2 ≠ sess_id h1 ∧
     created st2 = S (created st1) ∧
     trace st2 = (trace st1 ++ [EvConnect (sess_cfg h2)])%list) ∧
  (∀ e st2, get_session w b st1 = (Raise e, st2) →
     cache st2 = Some (a, h1) ∧ created st2 = created st1).
Proof.
  intros Hf Hne H1. destruct (get_session_ok _ _ _ _ _ Hf H1) as (Hc & Hf1 & Hlt).
  split; [exact Hc|].
  assert (Hmiss : ∀ h, cache st1 ≠ Some (b, h)) by (rewrite Hc; congruence).
  rewrite (get_session_miss w b st1 Hmiss).
  destruct (get_session_uncached w b st1) as [[h0|e0] st0] eqn:E; split.
  - intros h2 st2 [= <- <-].
    apply get_session_uncached_ok in E as (Hid & Hn & _ & Ht). simpl.
    repeat split; [lia | done | done].
  - discriminate.
  - discriminate.
  - intros e st2 [= <- <-].
    apply get_session_uncached_raise in E as [Hc' Hn]. split; congruence.
Qed.

Lemma get_session_other_name_evicts_witness :
  ∃ h1 st1 h2 st2,
    get_session demo_world (Some "a") initial_state = (Ok h1, st1) ∧
    get_session demo_world (Some "b") st1 = (Ok h2, st2) ∧
    cache st2 = Some (Some "b", h2) ∧ sess_id h2 ≠ sess_id h1.
Proof.
  destruct (get_session demo_world (Some "a") initial_state) as [[h1|e] st1] eqn:E1;
    [|vm_compute in E1; discriminate].
  destruct (get_session demo_world (Some "b") st1) as [[h2|e] st2] eqn:E2.
  - exists h1, st1, h2, st2. split; [reflexivity|]. split; [exact E2|].
    destruct (get_session_other_name_evicts demo_world (Some "a") (Some "b")
                initial_state h1 st1 I ltac:(discriminate) E1) as (_ & Hok & _).
    destruct (Hok h2 st2 E2) as (Hc & Hid & _). split; assumption.
  - vm_compute in E1. injection E1 as <- <-. vm_compute in E2. discriminate.
Defined.

End SessionFacts.

(** * The command-line client and job submission *)


Section DisconnectFacts.
Import Disconnect.



End DisconnectFacts.

Section SubmitFacts.
Import Submit.

(** C7: for every path that does not exist, [submit_file] and
    [submit_directory] raise [FileNotFoundError] and leave the process
    state as it was: no session is obtained, no event of any kind takes
    place, so the submission interface is not called. *)
Theorem submit_missing_path w a st :
  fs_exists w (path a) = false →
  submit_file w a st =
    (Raise (FileNotFoundError ("File not found: " +:+ path a)), st) ∧
  submit_directory w a st =
    (Raise (FileNotFoundError ("Directory not found: " +:+ path a)), st).
Proof.
  intros H. unfold submit_file, submit_directory. rewrite H. split; reflexivity.
Qed.

Lemma submit_missing_path_witness :
  submit_file demo_world (submit_args "train.py") initial_state =
    (Raise (FileNotFoundError "File not found: train.py"), initial_state) ∧
  submit_directory demo_world (submit_args "project") initial_state =
    (Raise (FileNotFoundError "Directory not found: project"), initial_state).
Proof.
  split.
  - apply (submit_missing_path demo_world (submit_args "train.py") initial_state).
    reflexivity.
  - apply (submit_missing_path demo_world (submit_args "project") initial_state).
    reflexivity.
Defined.

End SubmitFacts.

(** * Sessions and connections: further properties *)

Section SessionMore.
Import Sess.

Lemma config_not_in_store w name :
  not_in_store w name →
  _get_connection_config w name =
    Raise (ValueError ("Connection '" +:+ name +:+
                       "' not found in ~/.snowflake/config.toml")).
Proof.
  unfold _get_connection_config, _load_config.
  intros [-> | (config & -> & [-> | (connections & -> & ->)])]; reflexivity.
Qed.

(** X1: when the credential store has no entry for the resolved name (no
    store file, no [connections] table, or no such name in it), a call of
    [get_session] that is not answered by the cache, and any call of
    [get_connection], raises a [ValueError] that names the connection,
    attempts no connection and leaves the process state as it was. *)
Theorem unknown_connection_raises w arg st :
  not_in_store w (str_or arg (env_connection_name w)) →
  (∀ h, cache st ≠ Some (arg, h)) →
  let err := ValueError ("Connection '" +:+ str_or arg (env_connection_name w) +:+
                         "' not found in ~/.snowflake/config.toml") in
  get_session w arg st = (Raise err, st) ∧
  Connector.get_connection w arg st = (Raise err, st).
Proof.
  intros Hno Hmiss err. split.
  - rewrite get_session_miss by done. unfold get_session_uncached.
    cbv [mbind M_bind bind lift]. by rewrite (config_not_in_store w _ Hno).
  - unfold Connector.get_connection.
    cbv [mbind M_bind bind lift]. by rewrite (config_not_in_store w _ Hno).
Qed.

Lemma unknown_connection_raises_witness :
  get_session demo_world None initial_state =
    (Raise (ValueError "Connection 'myconnection' not found in ~/.snowflake/config.toml"),
     initial_state) ∧
  get_session empty_world (Some "a") initial_state =
    (Raise (ValueError "Connection 'a' not found in ~/.snowflake/config.toml"),
     initial_state).
Proof.
  split.
  - apply (unknown_connection_raises demo_world None initial_state); [|done].
    right. eexists. split; [reflexivity|]. right. eexists. split; reflexivity.
  - apply (unknown_connection_raises empty_world (Some "a") initial_state); [|done].
    left. reflexivity.
Defined.

Lemma config_of_entry w name entry :
  store_entry w name = Some entry →
  _get_connection_config w name =
    if is_jwt entry then
      let key_path := default VNone (entry !! "private_key_path") in
      let conn_config := delete "private_key_path" entry in
      if truthy key_path then
        match key_path with
        | VStr kp =>
            match _load_private_key w kp with
            | Raise e => Raise e
            | Ok der =>
                Ok (delete "authenticator" (<["private_key" := VBytes der]> conn_config))
            end
        | _ => Raise TypeError
        end
      else Ok (delete "authenticator" conn_config)
    else Ok entry.
Proof.
  unfold store_entry, _get_connection_config, _load_config.
  destruct (snowflake_config_toml w) as [[config|]|]; try done.
  destruct (config !! "connections") as [[]|]; try done.
  destruct (d !! name) as [[]|]; try done.
  by intros [= ->].
Qed.

Lemma is_jwt_spec entry :
  is_jwt entry = true ↔ entry !! "authenticator" = Some (VStr "SNOWFLAKE_JWT").
Proof.
  unfold is_jwt. destruct (entry !! "authenticator") as [[]|]; try (split; done).
  rewrite String.eqb_eq. split; [by intros -> | by intros [= ->]].
Qed.

(** X2: the configuration handed to the connector.  An entry whose
    [authenticator] is not SNOWFLAKE_JWT is passed as it stands in the
    store.  For a SNOWFLAKE_JWT entry with a non-empty [private_key_path]
    whose key loads, the connector receives the loaded key under
    [private_key], neither [authenticator] nor [private_key_path], and
    every other field as in the store; without a key path it receives the
    entry without those two fields and without any key. *)
Theorem connector_configuration w name entry :
  store_entry w name = Some entry →
  (entry !! "authenticator" ≠ Some (VStr "SNOWFLAKE_JWT") →
     _get_connection_config w name = Ok entry) ∧
  (entry !! "authenticator" = Some (VStr "SNOWFLAKE_JWT") →
     (∀ kp der,
        entry !! "private_key_path" = Some (VStr kp) → kp ≠ "" →
        load_pem_private_key w kp = Ok der →
        ∃ cfg, _get_connection_config w name = Ok cfg ∧
               cfg !! "private_key" = Some (VBytes der) ∧
               cfg !! "authenticator" = None ∧
               cfg !! "private_key_path" = None ∧
               ∀ k, k ≠ "private_key" → k ≠ "authenticator" →
                    k ≠ "private_key_path" → cfg !! k = entry !! k) ∧
     (entry !! "private_key_path" = None →
        ∃ cfg, _get_connection_config w name = Ok cfg ∧
               cfg !! "private_key" = entry !! "private_key" ∧
               cfg !! "authenticator" = None ∧
               ∀ k, k ≠ "authenticator" → cfg !! k = entry !! k)).
Proof.
  intros He. rewrite (config_of_entry w name entry He).
  split; [|intros H; split].
  - intros Hn. destruct (is_jwt entry) eqn:E; [|done].
    by apply is_jwt_spec in E.
  - intros kp der Hkp Hne Hload.
    apply is_jwt_spec in H. rewrite H, Hkp. simpl.
    destruct kp; [done|]. simpl. unfold _load_private_key. rewrite Hload.
    eexists. split; [reflexivity|]. repeat split.
    + by simplify_map_eq.
    + by simplify_map_eq.
    + by simplify_map_eq.
    + intros k H1 H2 H3. by simplify_map_eq.
  - intros Hkp. apply is_jwt_spec in H. rewrite H, Hkp. simpl.
    eexists. split; [reflexivity|]. repeat split.
    + by simplify_map_eq.
    + by simplify_map_eq.
    + intros k H1. destruct (decide (k = "private_key_path")) as [->|];
        by simplify_map_eq.
Qed.

Lemma connector_configuration_witness :
  _get_connection_config demo_world "a" = Ok conn_a ∧
  ∃ cfg, _get_connection_config key_world "k" = Ok cfg ∧
         cfg !! "private_key" = Some (VBytes "DER") ∧
         cfg !! "authenticator" = None ∧
         cfg !! "private_key_path" = None ∧
         cfg !! "account" = Some (VStr "acme").
Proof.
  split.
  - apply (connector_configuration demo_world "a" conn_a eq_refl).
    vm_compute. discriminate.
  - destruct (connector_configuration key_world "k" conn_k eq_refl) as [_ Hjwt].
    destruct (Hjwt eq_refl) as [Hkey _].
    destruct (Hkey "~/.ssh/sf.p8" "DER" eq_refl ltac:(discriminate) eq_refl)
      as (cfg & E & Hk & Ha & Hp & Hrest).
    exists cfg. repeat split; try assumption.
    rewrite Hrest by discriminate. reflexivity.
Defined.


(** X3: when the key file of a SNOWFLAKE_JWT entry cannot be loaded, a
    call of [get_session] that is not answered by the cache raises the
    error of the loader; no connection is attempted and the process state
    is as it was. *)
Theorem unreadable_key_stops_before_connecting w arg st entry kp e :
  store_entry w (str_or arg (env_connection_name w)) = Some entry →
  entry !! "authenticator" = Some (VStr "SNOWFLAKE_JWT") →
  entry !! "private_key_path" = Some (VStr kp) → kp ≠ "" →
  load_pem_private_key w kp = Raise e →
  (∀ h, cache st ≠ Some (arg, h)) →
  get_session w arg st = (Raise e, st).
Proof.
  intros He Hj Hkp Hne Hload Hmiss.
  rewrite get_session_miss by done. unfold get_session_uncached.
  cbv [mbind M_bind bind lift]. rewrite (config_of_entry w _ entry He).
  apply is_jwt_spec in Hj. rewrite Hj, Hkp. simpl.
  destruct kp; [done|]. simpl. unfold _load_private_key. by rewrite Hload.
Qed.

Lemma unreadable_key_stops_before_connecting_witness :
  get_session bad_key_world (Some "k") initial_state
    = (Raise (ExternalError "bad key"), initial_state).
Proof.
  apply (unreadable_key_stops_before_connecting bad_key_world (Some "k")
           initial_state conn_k "~/.ssh/sf.p8"); try reflexivity; done.
Defined.

Lemma get_session_uncached_cfg w name st h st' :
  get_session_uncached w name st = (Ok h, st') →
  _get_connection_config w (str_or name (env_connection_name w)) = Ok (sess_cfg h).
Proof.
  unfold get_session_uncached, connect.
  cbv [mbind M_bind bind lift get_trace emit raise].
  destruct (_get_connection_config w _) as [cfg|e]; [|discriminate].
  simpl. destruct (connector_connect w (trace st) cfg); [discriminate|].
  by intros [= <- <-].
Qed.

(** X4: the cache is keyed by the argument of the call, not by the
    connection name it resolves to.  Starting with an empty cache, two
    calls of [get_session] whose arguments differ but resolve to the same
    name (as [None] and the name the environment gives) that both return
    make two connections with the same configuration and return two
    different handles. *)
Theorem same_name_other_argument_reconnects w a b st h1 st1 h2 st2 :
  cache st = None → a ≠ b →
  str_or a (env_connection_name w) = str_or b (env_connection_name w) →
  get_session w a st = (Ok h1, st1) →
  get_session w b st1 = (Ok h2, st2) →
  sess_cfg h2 = sess_cfg h1 ∧ sess_id h2 ≠ sess_id h1 ∧
  trace st2 = (trace st ++ [EvConnect (sess_cfg h1); EvConnect (sess_cfg h1)])%list.
Proof.
  intros Hc Hne Hres H1 H2.
  rewrite get_session_miss in H1 by (rewrite Hc; done).
  destruct (get_session_uncached w a st) as [[h|e] st0] eqn:E1; [|discriminate].
  injection H1 as -> <-.
  rewrite get_session_miss in H2 by (simpl; congruence).
  destruct (get_session_uncached w b _) as [[h|e] st3] eqn:E2; [|discriminate].
  injection H2 as -> <-.
  pose proof (get_session_uncached_cfg _ _ _ _ _ E1) as C1.
  pose proof (get_session_uncached_cfg _ _ _ _ _ E2) as C2.
  apply get_session_uncached_ok in E1 as (I1 & N1 & _ & T1).
  apply get_session_uncached_ok in E2 as (I2 & N2 & _ & T2).
  simpl in *. rewrite Hres in C1.
  assert (sess_cfg h2 = sess_cfg h1) as Hcfg by congruence.
  split; [done|]. split; [lia|].
  rewrite T2, T1, Hcfg, <- List.app_assoc. reflexivity.
Qed.

Lemma same_name_other_argument_reconnects_witness :
  ∃ h1 st1 h2 st2,
    get_session env_world None initial_state = (Ok h1, st1) ∧
    get_session env_world (Some "a") st1 = (Ok h2, st2) ∧
    sess_cfg h2 = sess_cfg h1 ∧ sess_id h2 ≠ sess_id h1.
Proof.
  destruct (get_session env_world None initial_state) as [[h1|e] st1] eqn:E1;
    [|vm_compute in E1; discriminate].
  destruct (get_session env_world (Some "a") st1) as [[h2|e] st2] eqn:E2.
  - exists h1, st1, h2, st2. split; [reflexivity|]. split; [exact E2|].
    destruct (same_name_other_argument_reconnects env_world None (Some "a")
                initial_state h1 st1 h2 st2 eq_refl ltac:(discriminate) eq_refl E1 E2)
      as (Hc & Hi & _).
    split; assumption.
  - vm_compute in E1. injection E1 as <- <-. vm_compute in E2. discriminate.
Defined.

(** X5: a call of [get_session] that raises does not cost the cached
    session: after a call that returned a handle, a following call that
    raises, for whatever name, leaves the cache as it is, and the first
    call, repeated, returns the same handle without a new connection. *)
Theorem failed_call_keeps_cached_session w a b st h st1 e st2 :
  cache_fresh st →
  get_session w a st = (Ok h, st1) →
  get_session w b st1 = (Raise e, st2) →
  get_session w a st2 = (Ok h, st2) ∧ created st2 = created st1.
Proof.
  intros Hf H1 H2.
  destruct (get_session_ok _ _ _ _ _ Hf H1) as (Hc & _ & _).
  assert (Hne : b ≠ a).
  { intros ->. unfold get_session in H2. rewrite Hc in H2.
    rewrite decide_True in H2 by done. discriminate. }
  rewrite get_session_miss in H2 by (rewrite Hc; congruence).
  destruct (get_session_uncached w b st1) as [[h0|e0] st0] eqn:E; [discriminate|].
  injection H2 as <- <-.
  apply get_session_uncached_raise in E as [Hc' Hn].
  split; [|done]. unfold get_session. rewrite Hc', Hc.
  by rewrite decide_True.
Qed.

Lemma failed_call_keeps_cached_session_witness :
  ∃ h st1 e st2,
    get_session demo_world (Some "a") initial_state = (Ok h, st1) ∧
    get_session demo_world (Some "zz") st1 = (Raise e, st2) ∧
    get_session demo_world (Some "a") st2 = (Ok h, st2).
Proof.
  destruct (get_session demo_world (Some "a") initial_state) as [[h|e] st1] eqn:E1;
    [|vm_compute in E1; discriminate].
  destruct (get_session demo_world (Some "zz") st1) as [[h2|e] st2] eqn:E2.
  - vm_compute in E1. injection E1 as <- <-. vm_compute in E2. discriminate.
  - exists h, st1, e, st2. split; [reflexivity|]. split; [exact E2|].
    exact (proj1 (failed_call_keeps_cached_session demo_world (Some "a") (Some "zz")
                    initial_state h st1 e st2 I E1 E2)).
Defined.

(** X6: [get_connection] neither reads nor writes the session cache:
    whatever the cache holds, a call that returns has opened a connection
    of its own, with the configuration of the resolved name, and the
    cache and the count of sessions are as before. *)
Theorem get_connection_is_not_cached w arg st r st' :
  Connector.get_connection w arg st = (r, st') →
  cache st' = cache st ∧ created st' = created st ∧
  ∀ c, r = Ok c →
       _get_connection_config w (str_or arg (env_connection_name w))
         = Ok (Connector.conn_cfg c) ∧
       trace st' = (trace st ++ [EvConnect (Connector.conn_cfg c)])%list.
Proof.
  unfold Connector.get_connection.
  cbv [mbind M_bind bind lift get_trace emit raise ret].
  destruct (_get_connection_config w _) as [cfg|e0].
  - simpl. destruct (connector_connect w (trace st) cfg).
    + intros [= <- <-]. split; [done|]. split; [done|]. discriminate.
    + intros [= <- <-]. split; [done|]. split; [done|]. by intros c [= <-].
  - intros [= <- <-]. split; [done|]. split; [done|]. discriminate.
Qed.

Lemma get_connection_is_not_cached_witness :
  ∃ h st1 c st2,
    get_session demo_world (Some "a") initial_state = (Ok h, st1) ∧
    Connector.get_connection demo_world (Some "a") st1 = (Ok c, st2) ∧
    cache st2 = cache st1 ∧
    trace st2 = (trace st1 ++ [EvConnect conn_a])%list.
Proof.
  destruct (get_session demo_world (Some "a") initial_state) as [[h|e] st1] eqn:E1;
    [|vm_compute in E1; discriminate].
  destruct (Connector.get_connection demo_world (Some "a") st1) as [[c|e] st2] eqn:E2.
  - exists h, st1, c, st2. split; [reflexivity|]. split; [exact E2|].
    destruct (get_connection_is_not_cached demo_world (Some "a") st1 (Ok c) st2 E2)
      as (Hc & _ & Ht).
    split; [exact Hc|]. destruct (Ht c eq_refl) as [Hcfg Htr].
    rewrite Htr. f_equal. f_equal. f_equal.
    change (_get_connection_config demo_world "a") with (Ok conn_a) in Hcfg.
    by injection Hcfg.
  - vm_compute in E1. injection E1 as <- <-. vm_compute in E2. discriminate.
Defined.

End SessionMore.

(** * Configuration: further properties *)

Section ConfigMore.
Import Config.

Lemma section_raises {C} (init : gmap string pyval → result C) dflt v e :
  (∀ kw e', init kw = Raise e' → e' = TypeError) →
  section init dflt v = Raise e → e = TypeError.
Proof.
  intros Hinit. unfold section.
  destruct (truthy v); [|discriminate].
  destruct v; try (by intros [= <-]). apply Hinit.
Qed.

Ltac init_raises :=
  let kw := fresh "kw" in
  intros kw ?;
  unfold ProjectConfig_init, ComputeConfig_init, StorageConfig_init, NetworkConfig_init;
  destruct (accepts _ kw); [discriminate | by intros [= <-]].

Lemma from_dict_raises data e : from_dict data = Raise e → e = TypeError.
Proof.
  unfold from_dict. cbv zeta.
  destruct (section ProjectConfig_init _ _) as [p|e1] eqn:E1.
  2: { intros [= <-]. eapply section_raises; [|exact E1]. init_raises. }
  destruct (section ComputeConfig_init _ _) as [k|e2] eqn:E2.
  2: { intros [= <-]. eapply section_raises; [|exact E2]. init_raises. }
  destruct (section StorageConfig_init _ _) as [s|e3] eqn:E3.
  2: { intros [= <-]. eapply section_raises; [|exact E3]. init_raises. }
  destruct (section NetworkConfig_init _ _) as [n|e4] eqn:E4.
  2: { intros [= <-]. eapply section_raises; [|exact E4]. init_raises. }
  discriminate.
Qed.

Ltac init_returns :=
  let kw := fresh "kw" in
  intros kw;
  unfold ProjectConfig_init, ComputeConfig_init, StorageConfig_init, NetworkConfig_init;
  destruct (accepts _ kw);
    [ split; [reflexivity | intros _; eexists; reflexivity]
    | split; [intros [? ?]; discriminate | discriminate] ].

Lemma from_dict_returns data :
  (∃ c, from_dict data = Ok c) ↔ sections_well_formed data = true.
Proof.
  unfold sections_well_formed. rewrite !andb_true_iff.
  rewrite <- (section_returns ProjectConfig_init default_project data "project")
    by init_returns.
  rewrite <- (section_returns ComputeConfig_init default_compute data "compute")
    by init_returns.
  rewrite <- (section_returns StorageConfig_init default_storage data "storage")
    by init_returns.
  rewrite <- (section_returns NetworkConfig_init default_network data "network")
    by init_returns.
  split.
  - intros [c Hc]. apply from_dict_sections in Hc as (Hp & Hk & Hs & Hn).
    repeat split; by eexists.
  - intros [[[[p Hp] [k Hk]] [s Hs]] [n Hn]].
    unfold from_dict. cbv zeta. rewrite Hp, Hk, Hs, Hn. by eexists.
Qed.

(** X7: the only error of [from_dict] is a [TypeError], and it is raised
    exactly when a section that is present cannot be unpacked: a truthy
    value that is not a dictionary, or a dictionary with a key that is not
    a field of the section, such as a misspelt one. *)
Theorem malformed_section_is_type_error (data : gmap string pyval) :
  sections_well_formed data = false ↔ from_dict data = Raise TypeError.
Proof.
  split.
  - intros Hwf. destruct (from_dict data) as [c|e] eqn:E.
    + assert (sections_well_formed data = true) by (apply from_dict_returns; eauto).
      congruence.
    + by rewrite (from_dict_raises data e E).
  - intros E. apply not_true_is_false. intros Hwf.
    apply from_dict_returns in Hwf as [c Hc]. congruence.
Qed.

Lemma malformed_section_is_type_error_witness :
  from_dict misspelt_compute = Raise TypeError.
Proof.
  apply (proj1 (malformed_section_is_type_error misspelt_compute)).
  vm_compute. reflexivity.
Defined.

(** X8: [from_dict] ignores every top-level key other than
    [connection_name] and the four sections: adding one, with whatever
    value, changes nothing, where the same key inside a section is an
    error. *)
Theorem unknown_top_level_key_ignored (data : gmap string pyval) k v :
  k ≠ "connection_name" → k ≠ "project" → k ≠ "compute" →
  k ≠ "storage" → k ≠ "network" →
  from_dict (<[k := v]> data) = from_dict data.
Proof.
  intros H1 H2 H3 H4 H5. unfold from_dict, get.
  by rewrite !lookup_insert_ne by done.
Qed.

Lemma unknown_top_level_key_ignored_witness :
  from_dict (<["pool" := VStr "P"]> ∅) = Ok default_config.
Proof.
  rewrite (unknown_top_level_key_ignored ∅ "pool" (VStr "P")) by discriminate.
  vm_compute. reflexivity.
Defined.

(** X9: a section that is present with a falsy value ([null], an empty
    mapping, an empty list or string, zero, false) is read as if it were
    omitted. *)
Theorem falsy_section_is_omitted (data : gmap string pyval) key v :
  key ∈ ["project"; "compute"; "storage"; "network"] →
  truthy v = false →
  from_dict (<[key := v]> data) = from_dict (delete key data).
Proof.
  intros Hk Hv.
  assert (Hs : ∀ C (init : gmap string pyval → result C) dflt,
             section init dflt v = section init dflt (VDict ∅)).
  { intros C init dflt. unfold section. by rewrite Hv. }
  repeat (apply elem_of_cons in Hk as [->|Hk]); [| | | |by apply elem_of_nil in Hk];
    unfold from_dict, get;
    repeat first [ rewrite lookup_insert_eq | rewrite lookup_delete_eq
                 | rewrite lookup_insert_ne by done
                 | rewrite lookup_delete_ne by done ];
    cbn [default]; by rewrite Hs.
Qed.

Lemma falsy_section_is_omitted_witness :
  from_dict (<["network" := VNone]> ∅) = Ok default_config ∧
  from_dict (<["compute" := VList []]> ∅) = Ok default_config.
Proof.
  split.
  - rewrite (falsy_section_is_omitted ∅ "network" VNone); [reflexivity | | reflexivity].
    set_solver.
  - rewrite (falsy_section_is_omitted ∅ "compute" (VList [])); [reflexivity | | reflexivity].
    set_solver.
Defined.

Lemma section_fields {C} (init : gmap string pyval → result C) dflt data key kw c :
  data !! key = Some (VDict kw) →
  section init dflt (get data key (VDict ∅)) = Ok c →
  (init kw = Ok c ∧ kw ≠ ∅) ∨ (c = dflt ∧ kw = ∅).
Proof.
  intros Hk. unfold get. rewrite Hk. simpl. unfold section. simpl.
  destruct (size kw =? 0)%nat eqn:Hsz; simpl.
  - apply Nat.eqb_eq, map_size_empty_iff in Hsz. intros [= <-]. by right.
  - intros E. left. split; [done|]. intros ->. by rewrite map_size_empty in Hsz.
Qed.

(** X10: in a section that gives some of its fields, the fields that are
    given are kept and each of the others takes its own default. *)
Theorem partial_section_defaults (data : gmap string pyval) c :
  from_dict data = Ok c →
  (∀ kw, data !! "project" = Some (VDict kw) →
     name (project c) = default (VStr "ml_dev") (kw !! "name") ∧
     database (project c) = default (VStr "ML_DEV") (kw !! "database")) ∧
  (∀ kw, data !! "compute" = Some (VDict kw) →
     pool_name (compute c) = default (VStr "ml_dev_pool") (kw !! "pool_name") ∧
     instance_family (compute c) = default (VStr "CPU_X64_M") (kw !! "instance_family") ∧
     min_nodes (compute c) = default (VInt 1) (kw !! "min_nodes") ∧
     max_nodes (compute c) = default (VInt 1) (kw !! "max_nodes")) ∧
  (∀ kw, data !! "storage" = Some (VDict kw) →
     stage_name (storage c) = default (VStr "DEV_STAGE") (kw !! "stage_name") ∧
     encryption (storage c) = default (VStr "SNOWFLAKE_SSE") (kw !! "encryption")) ∧
  (∀ kw, data !! "network" = Some (VDict kw) →
     eai_name (network c) = default (VStr "ALLOW_ALL_INTEGRATION") (kw !! "eai_name") ∧
     allow_ports (network c) =
       default (VList [VInt 443; VInt 80]) (kw !! "allow_ports")).
Proof.
  intros Hc. apply from_dict_sections in Hc as (Hp & Hk & Hs & Hn).
  split; [|split; [|split]]; intros kw Hkw.
  - destruct (section_fields ProjectConfig_init default_project data _ kw _ Hkw Hp) as [[E _]|[-> ->]]; [|done].
    unfold ProjectConfig_init in E.
    destruct (accepts _ kw); [|discriminate]. by injection E as <-.
  - destruct (section_fields ComputeConfig_init default_compute data _ kw _ Hkw Hk) as [[E _]|[-> ->]]; [|done].
    unfold ComputeConfig_init in E.
    destruct (accepts _ kw); [|discriminate]. by injection E as <-.
  - destruct (section_fields StorageConfig_init default_storage data _ kw _ Hkw Hs) as [[E _]|[-> ->]]; [|done].
    unfold StorageConfig_init in E.
    destruct (accepts _ kw); [|discriminate]. by injection E as <-.
  - destruct (section_fields NetworkConfig_init default_network data _ kw _ Hkw Hn) as [[E _]|[-> ->]]; [|done].
    unfold NetworkConfig_init in E.
    destruct (accepts _ kw); [|discriminate]. by injection E as <-.
Qed.

Lemma partial_section_defaults_witness :
  ∃ c, from_dict pool_only = Ok c ∧
       pool_name (compute c) = VStr "P" ∧
       instance_family (compute c) = VStr "CPU_X64_M".
Proof.
  destruct (from_dict pool_only) as [c|e] eqn:E; [|vm_compute in E; discriminate].
  exists c. split; [reflexivity|].
  destruct (partial_section_defaults pool_only c E) as (_ & Hk & _).
  destruct (Hk (<["pool_name" := VStr "P"]> ∅) eq_refl) as (H1 & H2 & _).
  split; [exact H1 | exact H2].
Defined.


Lemma from_dict_empty : from_dict ∅ = Ok default_config.
Proof. reflexivity. Qed.

(** X11: a configuration file that exists and whose document is not a
    mapping.  An empty or falsy document (an empty file, [null], an empty
    list, zero) gives the built-in default configuration; a truthy one (a
    list, a string, a number) makes [load] raise an [AttributeError]. *)
Theorem non_mapping_document w p doc :
  fs_exists w (select_path w p) = true →
  yaml_safe_load w (select_path w p) = Ok doc →
  (∀ d, doc ≠ VDict d) →
  load w p = if truthy doc then Raise AttributeError else Ok default_config.
Proof.
  intros Hex Hy Hd. unfold load. rewrite Hex, Hy. simpl.
  destruct (truthy doc); [|reflexivity].
  destruct doc; try reflexivity. by destruct (Hd d).
Qed.

Lemma non_mapping_document_witness :
  load (yaml_world VNone) (Some "cfg.yaml") = Ok default_config ∧
  load (yaml_world (VList [VStr "project"])) None = Raise AttributeError.
Proof.
  split.
  - apply (non_mapping_document (yaml_world VNone) (Some "cfg.yaml") VNone);
      try reflexivity. discriminate.
  - apply (non_mapping_document (yaml_world (VList [VStr "project"])) None
             (VList [VStr "project"])); try reflexivity. discriminate.
Defined.

Lemma truthy_app_r a b : Str.truthy b = true → Str.truthy (a +:+ b) = true.
Proof. intros Hb. destruct a; [exact Hb | reflexivity]. Qed.

(** X12: the search order of [load].  An empty path is no path; without a
    path, [load] reads [config/config.yaml] under the package root when it
    exists, whatever [config/default.yaml] holds, and [config/default.yaml]
    otherwise: it does what it does on that file given explicitly. *)
Theorem load_search_order w :
  load w (Some "") = load w None ∧
  (fs_exists w (package_root w +:+ "/config/config.yaml") = true →
     load w None = load w (Some (package_root w +:+ "/config/config.yaml"))) ∧
  (fs_exists w (package_root w +:+ "/config/config.yaml") = false →
     load w None = load w (Some (package_root w +:+ "/config/default.yaml"))).
Proof.
  split; [reflexivity|]. split; intros Hu; unfold load, select_path, opt_truthy;
    rewrite truthy_app_r by reflexivity; cbn [default]; by rewrite Hu.
Qed.

Lemma load_search_order_witness :
  load (yaml_world (VDict pool_only)) None
    = load (yaml_world (VDict pool_only)) (Some "/opt/sfml/config/config.yaml") ∧
  load demo_world None = load demo_world (Some "/opt/sfml/config/default.yaml").
Proof.
  split.
  - destruct (load_search_order (yaml_world (VDict pool_only))) as (_ & Hu & _).
    apply Hu. reflexivity.
  - destruct (load_search_order demo_world) as (_ & _ & Hd).
    apply Hd. reflexivity.
Defined.

End ConfigMore.

(** * Statements and their execution: further properties *)

Section StatementsMore.
Import Str.

Lemma split_pieces_no_sep sep s x :
  In x (split sep s) → has_char sep x = false.
Proof.
  revert x. induction s as [|c s IH]; intros x.
  - simpl. intros [<-|[]]. reflexivity.
  - cbn [split]. destruct (Ascii.eqb_spec c sep) as [->|Hne].
    + intros [<-|Hin]; [reflexivity | by apply IH].
    + destruct (split sep s) as [|h t] eqn:E.
      * by apply split_nonempty in E.
      * intros [<-|Hin].
        -- simpl. rewrite (IH h (or_introl eq_refl)), orb_false_r.
           apply Ascii.eqb_neq. congruence.
        -- apply IH. by right.
Qed.

Lemma has_char_lstrip c s : has_char c (lstrip s) = true → has_char c s = true.
Proof.
  induction s as [|a s IH]; [done|]. cbn [lstrip].
  destruct (is_space a); [|done].
  intros H. simpl. by rewrite (IH H), orb_true_r.
Qed.

Lemma has_char_rstrip c s : has_char c (rstrip s) = true → has_char c s = true.
Proof.
  induction s as [|a s IH]; [done|]. cbn [rstrip].
  destruct (rstrip s) as [|b r].
  - destruct (is_space a); [done|]. simpl. rewrite orb_false_r.
    intros ->. reflexivity.
  - simpl. intros [->|H]%orb_true_iff; [reflexivity|].
    simpl in IH. by rewrite (IH H), orb_true_r.
Qed.

Lemma rstrip_idempotent s : rstrip (rstrip s) = rstrip s.
Proof.
  induction s as [|a s IH]; [done|]. cbn [rstrip].
  destruct (rstrip s) as [|b r] eqn:E.
  - destruct (is_space a) eqn:Ha; [done|]. simpl. by rewrite Ha.
  - cbn [rstrip] in *. by rewrite IH.
Qed.

Lemma lstrip_head s :
  lstrip s = "" ∨ ∃ c t, lstrip s = String c t ∧ is_space c = false.
Proof.
  induction s as [|a s IH]; [by left|]. cbn [lstrip].
  destruct (is_space a) eqn:Ha; [exact IH|]. right. eauto.
Qed.

Lemma strip_idempotent s : strip (strip s) = strip s.
Proof.
  unfold strip. destruct (lstrip_head s) as [->|(c & t & -> & Hc)]; [done|].
  rewrite (rstrip_cons c t Hc). cbn [lstrip]. rewrite Hc.
  by rewrite <- (rstrip_cons c t Hc), rstrip_idempotent.
Qed.

(** X13: what the statement list never holds, whatever the text: every
    statement is non-empty, has no white space at either end, does not
    begin with a comment mark and holds no semicolon. *)
Theorem statements_are_clean sql s :
  In s (statements sql) →
  s ≠ "" ∧ strip s = s ∧ startswith "--" s = false ∧ has_char ";" s = false.
Proof.
  unfold statements. intros (x & <- & Hx)%in_map_iff.
  apply filter_In in Hx as [Hin [Ht Hc]%andb_true_iff].
  repeat split.
  - intros E. by rewrite E in Ht.
  - apply strip_idempotent.
  - by apply negb_true_iff in Hc.
  - destruct (has_char ";" (strip x)) eqn:E; [|done].
    unfold strip in E. apply has_char_rstrip, has_char_lstrip in E.
    by rewrite (split_pieces_no_sep _ _ _ Hin) in E.
Qed.

Lemma statements_are_clean_witness :
  strip "SELECT 1" = "SELECT 1" ∧ has_char ";" "SELECT 1" = false.
Proof.
  destruct (statements_are_clean "  -- note ; SELECT 1 ;; " "SELECT 1")
    as (_ & Hs & _ & Hc).
  - vm_compute. by left.
  - split; assumption.
Defined.

Lemma statements_truthy sql :
  List.filter truthy (statements sql) = statements sql.
Proof.
  pose proof (statements_are_clean sql) as H.
  induction (statements sql) as [|s l IH]; [done|].
  cbn [List.filter]. destruct (H s (or_introl eq_refl)) as (Hne & _).
  destruct s; [done|]. cbn [truthy]. f_equal. apply IH.
  intros s' Hs'. apply H. by right.
Qed.

End StatementsMore.

Section ExecutionMore.

Lemma get_session_trace w name st r st' :
  Sess.get_session w name st = (r, st') →
  sql_sent (trace st') = sql_sent (trace st).
Proof.
  unfold Sess.get_session.
  assert (Hu : ∀ r0 st0, Sess.get_session_uncached w name st = (r0, st0) →
               sql_sent (trace st0) = sql_sent (trace st)).
  { unfold Sess.get_session_uncached, Sess.connect.
    cbv [mbind M_bind bind lift get_trace emit raise].
    destruct (Sess._get_connection_config w _) as [cfg|e].
    - simpl. destruct (connector_connect w (trace st) cfg);
        intros r0 st0 [= <- <-]; simpl; unfold sql_sent;
        rewrite omap_app; simpl; by rewrite app_nil_r.
    - by intros r0 st0 [= <- <-]. }
  destruct (cache st) as [[key h]|].
  - destruct (decide (key = name)); [by intros [= <- <-]|].
    destruct (Sess.get_session_uncached w name st) as [[h0|e] st0] eqn:E;
      intros [= <- <-]; simpl; by apply (Hu _ _ eq_refl).
  - destruct (Sess.get_session_uncached w name st) as [[h0|e] st0] eqn:E;
      intros [= <- <-]; simpl; by apply (Hu _ _ eq_refl).
Qed.

(** X14: a failure to obtain the session is not caught, unlike the
    failure of a statement: [setup] and [teardown] with [execute=True]
    then raise the error of [get_session], return no record and send no
    statement. *)
Theorem connection_failure_is_not_caught w :
  (∀ a st e st1,
     Setup.execute a = true →
     Sess.get_session w (Some (Setup.connection_name a)) st = (Raise e, st1) →
     Setup.setup w a st = (Raise e, st1) ∧
     sql_sent (trace st1) = sql_sent (trace st)) ∧
  (∀ a st e st1,
     Teardown.execute a = true →
     Sess.get_session w (Some (Teardown.connection_name a)) st = (Raise e, st1) →
     Teardown.teardown w a st = (Raise e, st1) ∧
     sql_sent (trace st1) = sql_sent (trace st)).
Proof.
  split; intros a st e st1 Hex Hget;
    (split; [|by apply (get_session_trace _ _ _ _ _ Hget)]).
  - unfold Setup.setup. rewrite Hex. cbv [mbind M_bind bind]. by rewrite Hget.
  - unfold Teardown.teardown. rewrite Hex. cbv [mbind M_bind bind]. by rewrite Hget.
Qed.

Lemma connection_failure_is_not_caught_witness :
  Setup.setup empty_world (Setup.default_args "a") initial_state
    = (Raise (ValueError "Connection 'a' not found in ~/.snowflake/config.toml"),
       initial_state) ∧
  Teardown.teardown empty_world (Teardown.default_args "a" "ml_dev") initial_state
    = (Raise (ValueError "Connection 'a' not found in ~/.snowflake/config.toml"),
       initial_state).
Proof.
  destruct (connection_failure_is_not_caught empty_world) as [Hs Ht]. split.
  - apply (Hs (Setup.default_args "a") initial_state); reflexivity.
  - apply (Ht (Teardown.default_args "a" "ml_dev") initial_state); reflexivity.
Defined.




Lemma run_statements_quiet w verbose session stmts st :
  verbose = false ∨ (∀ tr s, sql_collect w tr (sess_id session) s = None) →
  ∃ st',
    run_statements w verbose session stmts st = (Ok tt, st') ∧
    trace st' =
      (trace st ++ List.map (EvSql (sess_id session)) (List.filter Str.truthy stmts))%list.
Proof.
  intros Hq. unfold run_statements. revert st.
  induction stmts as [|stmt l IH]; intros st.
  - exists st. simpl. by rewrite app_nil_r.
  - cbn [for_each List.filter]. unfold mbind, M_bind, bind at 1.
    destruct (Str.truthy stmt); simpl.
    + unfold try_except, Sess.sql_collect_.
      cbv [mbind M_bind bind get_trace emit raise ret when]. simpl.
      destruct (sql_collect w (trace st) (sess_id session) stmt) as [e|] eqn:E.
      * destruct Hq as [->|Hacc]; [|by rewrite Hacc in E]. simpl.
        destruct (IH {| cache := cache st; created := created st;
                        trace := trace st ++ [EvSql (sess_id session) stmt] |})
          as (st' & E' & Ht).
        exists st'. split; [exact E'|]. rewrite Ht. simpl.
        by rewrite <- List.app_assoc.
      * destruct (IH {| cache := cache st; created := created st;
                        trace := trace st ++ [EvSql (sess_id session) stmt] |})
          as (st' & E' & Ht).
        exists st'. split; [exact E'|]. rewrite Ht. simpl.
        by rewrite <- List.app_assoc.
    + apply IH.
Qed.

(** X16: failures leave no mark when [verbose=False].  With
    [execute=True] and a session, the events of [setup] and [teardown]
    after the session is obtained are then exactly the statements sent,
    one event each, the same as on a warehouse that accepts every
    statement: nothing tells a rejected statement from an accepted one. *)
Theorem quiet_run_hides_failures w :
  (∀ a st session st1,
     Setup.execute a = true →
     Setup.verbose a = false ∨ (∀ tr s, sql_collect w tr (sess_id session) s = None) →
     Sess.get_session w (Some (Setup.connection_name a)) st = (Ok session, st1) →
     ∃ r st2,
       Setup.setup w a st = (Ok r, st2) ∧
       trace st2 =
         (trace st1 ++
          List.map (EvSql (sess_id session)) (statements (Setup.sql a)))%list) ∧
  (∀ a st session st1,
     Teardown.execute a = true →
     Teardown.verbose a = false ∨ (∀ tr s, sql_collect w tr (sess_id session) s = None) →
     Sess.get_session w (Some (Teardown.connection_name a)) st = (Ok session, st1) →
     ∃ r st2,
       Teardown.teardown w a st = (Ok r, st2) ∧
       trace st2 =
         (trace st1 ++
          List.map (EvSql (sess_id session)) (statements (Teardown.sql a)))%list).
Proof.
  split; intros a st session st1 Hex Hq Hget.
  - destruct (run_statements_quiet w (Setup.verbose a) session
                (statements (Setup.sql a)) st1 Hq) as (st2 & E & Ht).
    eexists _, st2. unfold Setup.setup. rewrite Hex.
    cbv [mbind M_bind bind ret]. rewrite Hget, E.
    split; [reflexivity|]. by rewrite Ht, statements_truthy.
  - destruct (run_statements_quiet w (Teardown.verbose a) session
                (statements (Teardown.sql a)) st1 Hq) as (st2 & E & Ht).
    eexists _, st2. unfold Teardown.teardown. rewrite Hex.
    cbv [mbind M_bind bind ret]. rewrite Hget, E.
    split; [reflexivity|]. by rewrite Ht, statements_truthy.
Qed.

Lemma quiet_run_hides_failures_witness :
  ∃ r st2,
    Setup.setup failing_world (quiet_setup_args "a") initial_state = (Ok r, st2) ∧
    trace st2 = [EvConnect conn_a; EvSql 0 "USE DATABASE ML_ACCELERATOR"].
Proof.
  destruct (quiet_run_hides_failures failing_world) as [Hs _].
  destruct (Hs (quiet_setup_args "a") initial_state
              {| sess_id := 0; sess_cfg := conn_a |}
              {| cache := Some (Some "a", {| sess_id := 0; sess_cfg := conn_a |});
                 created := 1; trace := [EvConnect conn_a] |}
              eq_refl (or_introl eq_refl) eq_refl) as (r & st2 & E & Ht).
  exists r, st2. split; [exact E|]. rewrite Ht. vm_compute. reflexivity.
Defined.

End ExecutionMore.

(** * The entry points that read a configuration file *)

Section FromConfigFacts.
Import FromConfig.

(** X17: without a configuration file (the explicit path, or both
    searched files, missing) [setup_from_config] and
    [teardown_from_config] run [setup] and [teardown] with the defaults of
    the configuration dataclasses: the connection [default], the database
    [ML_DEV] and the pool [ml_dev_pool], which are not the defaults of
    the signature of [setup] ([ML_ACCELERATOR], a pool named after the
    project). *)
Theorem from_config_without_file w p :
  fs_exists w (Config.select_path w p) = false →
  (∀ execute,
     setup_from_config w p execute
       = Some (Setup.setup w (config_default_setup_args execute))) ∧
  (∀ keep_stage keep_database execute,
     teardown_from_config w p keep_stage keep_database execute
       = Some (Teardown.teardown w
                 (config_default_teardown_args keep_stage keep_database execute))) ∧
  (∀ conn execute,
     Setup.sql (config_default_setup_args execute) ≠ Setup.sql (Setup.default_args conn)).
Proof.
  intros Hex.
  assert (Hl : Config.load w p = Ok Config.default_config)
    by (unfold Config.load; by rewrite Hex).
  split; [|split].
  - intros execute. unfold setup_from_config. by rewrite Hl.
  - intros ks kd execute. unfold teardown_from_config. by rewrite Hl.
  - intros conn execute. vm_compute. discriminate.
Qed.

Lemma from_config_without_file_witness :
  ∃ m r,
    setup_from_config demo_world None false = Some m ∧
    m initial_state = (Ok r, initial_state) ∧
    r !! "database" = Some (VStr "ML_DEV") ∧
    r !! "compute_pool" = Some (VStr "ml_dev_pool").
Proof.
  destruct (from_config_without_file demo_world None eq_refl) as (Hs & _ & _).
  eexists _, _. split; [apply Hs|]. split; [reflexivity|].
  split; reflexivity.
Defined.

Lemma setup_names_pool a :
  Str.infix_of ("CREATE COMPUTE POOL IF NOT EXISTS " +:+ Setup.resolved_pool_name a)
    (Setup.sql a).
Proof.
  unfold Setup.sql, Setup.render. do 18 apply infix_skip.
  exists "
  ENCRYPTION = (TYPE = 'SNOWFLAKE_SSE');

-- Create Compute Pool
". eexists. rewrite !str_app_assoc. reflexivity.
Qed.

Lemma teardown_names_pool a :
  ∃ pre post, Teardown.sql a = pre +:+ ("DROP COMPUTE POOL IF EXISTS " +:+ Teardown.resolved_pool_name a +:+ ";") +:+ post.
Proof.
  unfold Teardown.sql, Teardown.sql_parts, Teardown.nl.
  cbn [app Str.join]. rewrite !str_app_assoc.
  repeat lazymatch goal with
         | |- ∃ pre post, "DROP COMPUTE POOL IF EXISTS " +:+ _ = _ => fail
         | |- _ => apply infix_skip
         end.
  exists "". eexists. rewrite !str_app_assoc. reflexivity.
Qed.


Lemma as_str_Some v s : as_str v = Some s → v = VStr s.
Proof. destruct v; try discriminate. by intros [= ->]. Qed.

Lemma setup_args_fields c e a :
  setup_args c e = Some a →
  Config.name (Config.project c) = VStr (Setup.project_name a) ∧
  Config.database (Config.project c) = VStr (Setup.database a) ∧
  (∃ pool, Config.pool_name (Config.compute c) = VStr pool ∧
           Setup.pool_name a = Some pool) ∧
  Setup.execute a = e.
Proof.
  unfold setup_args. intros H.
  repeat (apply bind_Some in H as (? & ? & H)). injection H as <-. simpl.
  repeat match goal with H : as_str _ = Some _ |- _ => apply as_str_Some in H end.
  eauto 10.
Qed.

Lemma teardown_args_fields c ks kd e a :
  teardown_args c ks kd e = Some a →
  Config.name (Config.project c) = VStr (Teardown.project_name a) ∧
  Config.database (Config.project c) = VStr (Teardown.database a) ∧
  (∃ pool, Config.pool_name (Config.compute c) = VStr pool ∧
           Teardown.pool_name a = Some pool) ∧
  Teardown.execute a = e.
Proof.
  unfold teardown_args. intros H.
  repeat (apply bind_Some in H as (? & ? & H)). injection H as <-. simpl.
  repeat match goal with H : as_str _ = Some _ |- _ => apply as_str_Some in H end.
  eauto 10.
Qed.

(** X18: [setup_from_config] and [teardown_from_config] read the same
    fields of the same file, so they agree on what they name: called with
    [execute=False] on the same file, the database and the compute pool
    of the two returned records are equal, the text of [setup] creates
    that pool and the text of [teardown] drops it. *)
Theorem from_config_same_resources w p ks kd ms mt st rs st1 rt st2 :
  setup_from_config w p false = Some ms →
  teardown_from_config w p ks kd false = Some mt →
  ms st = (Ok rs, st1) → mt st = (Ok rt, st2) →
  rs !! "database" = rt !! "database" ∧
  ∃ pool ssql tsql,
    rs !! "compute_pool" = Some (VStr pool) ∧
    rt !! "compute_pool" = Some (VStr pool) ∧
    rs !! "sql" = Some (VStr ssql) ∧ rt !! "sql" = Some (VStr tsql) ∧
    Str.infix_of ("CREATE COMPUTE POOL IF NOT EXISTS " +:+ pool) ssql ∧
    Str.infix_of ("DROP COMPUTE POOL IF EXISTS " +:+ pool +:+ ";") tsql.
Proof.
  unfold setup_from_config, teardown_from_config.
  destruct (Config.load w p) as [c|e].
  2: { intros [= <-] _. discriminate. }
  destruct (setup_args c false) as [sa|] eqn:Es; [|discriminate].
  destruct (teardown_args c ks kd false) as [ta|] eqn:Et; [|discriminate].
  simpl. intros [= <-] [= <-].
  apply setup_args_fields in Es as (Sn & Sd & (pool & Sp & Spn) & Hse).
  apply teardown_args_fields in Et as (Tn & Td & (pool' & Tp & Tpn) & Hte).
  unfold Setup.setup, Teardown.teardown. rewrite Hse, Hte.
  intros [= <- <-] [= <- <-].
  assert (Hd : Setup.database sa = Teardown.database ta) by congruence.
  assert (Hn : Setup.project_name sa = Teardown.project_name ta) by congruence.
  assert (Hp : Setup.pool_name sa = Teardown.pool_name ta) by congruence.
  assert (Hr : Setup.resolved_pool_name sa = Teardown.resolved_pool_name ta).
  { unfold Setup.resolved_pool_name, Teardown.resolved_pool_name. by rewrite Hp, Hn. }
  split; [rewrite Hd; reflexivity|].
  exists (Setup.resolved_pool_name sa), (Setup.sql sa), (Teardown.sql ta).
  split; [reflexivity|]. split; [rewrite Hr; reflexivity|].
  split; [reflexivity|]. split; [reflexivity|].
  split; [apply setup_names_pool | rewrite Hr; apply teardown_names_pool].
Qed.

Lemma from_config_same_resources_witness :
  ∃ rs rt,
    (setup_from_config (yaml_world (VDict project_doc)) None false
       ≫= λ m, Some (m initial_state)) = Some (Ok rs, initial_state) ∧
    (teardown_from_config (yaml_world (VDict project_doc)) None true true false
       ≫= λ m, Some (m initial_state)) = Some (Ok rt, initial_state) ∧
    rs !! "database" = rt !! "database" ∧
    rs !! "compute_pool" = Some (VStr "demo_pool") ∧
    rt !! "compute_pool" = Some (VStr "demo_pool").
Proof.
  eexists _, _. split; [reflexivity|]. split; [reflexivity|].
  destruct (from_config_same_resources (yaml_world (VDict project_doc)) None true true
              _ _ initial_state _ _ _ _ eq_refl eq_refl eq_refl eq_refl)
    as (Hd & pool & ssql & tsql & Hs & Ht & _).
  split; [exact Hd|]. split; reflexivity.
Defined.

End FromConfigFacts.

(** * The command-line client: further properties *)

Section ClientMore.
Import Disconnect.


Lemma lower_app a b : Str.lower (a +:+ b) = Str.lower a +:+ Str.lower b.
Proof.
  induction a as [|c a IH]; [reflexivity|].
  rewrite str_app_cons. simpl. rewrite IH. reflexivity.
Qed.

(** X20: the test on the error stream does not depend on letter case or
    on what surrounds the words: for every message that holds, anywhere,
    a piece whose lower-case form is "not found" or "does not exist",
    [disconnect] on a client that exits non-zero with that message returns
    [True]. *)
Theorem disconnect_matches_any_case w name conn st rc out pre m post :
  Str.lower m = "not found" ∨ Str.lower m = "does not exist" →
  subprocess_run w (trace st) (stop_cmd name conn) (cli_env w conn)
    = Completed rc out (pre +:+ m +:+ post) →
  (disconnect w name conn st).1 = Ok true.
Proof.
  intros Hm Hrun. unfold disconnect, run.
  cbv [mbind M_bind bind get_trace emit ret]. rewrite Hrun.
  destruct (rc =? 0)%Z; [reflexivity|].
  assert (already_stopped (pre +:+ m +:+ post) = true) as ->; [|reflexivity].
  unfold already_stopped. rewrite !lower_app. apply orb_true_iff.
  destruct Hm as [-> | ->]; [left|right]; apply contains_spec;
    by exists (Str.lower pre), (Str.lower post).
Qed.

Lemma disconnect_matches_any_case_witness :
  (disconnect shouting_world "dev" None initial_state).1 = Ok true.
Proof.
  apply (disconnect_matches_any_case shouting_world "dev" None initial_state
           2 "" "SERVICE DEV " "DOES NOT EXIST" "."); [right|]; reflexivity.
Defined.

End ClientMore.

Section ConnectFacts.
Import Connect.

(** X21: [_find_editor_path] returns a directory only on a Mac, only
    when the editor is not on the search path, and only for [code] and
    [cursor], whose application bundle must hold the binary; the
    directory is then the [bin] directory of that bundle.  In every other
    case it returns [None]. *)
Theorem find_editor_path_spec d w editor dir :
  _find_editor_path d w editor = Some dir ↔
  which d editor = false ∧ platform_system d = "Darwin" ∧
  fs_exists w (dir +:+ "/" +:+ editor) = true ∧
  ((editor = "code" ∧
    dir = "/Applications/Visual Studio Code.app/Contents/Resources/app/bin") ∨
   (editor = "cursor" ∧
    dir = "/Applications/Cursor.app/Contents/Resources/app/bin")).
Proof.
  unfold _find_editor_path.
  assert (Hmac : ∀ dir', mac_paths !! editor = Some dir' ↔
            (editor = "code" ∧
             dir' = "/Applications/Visual Studio Code.app/Contents/Resources/app/bin") ∨
            (editor = "cursor" ∧
             dir' = "/Applications/Cursor.app/Contents/Resources/app/bin")).
  { intros dir'. unfold mac_paths.
    destruct (decide (editor = "code")) as [->|H1].
    - rewrite lookup_insert_eq. split; [intros [= <-]; by left|].
      intros [[_ ->]|[? _]]; [done|discriminate].
    - rewrite lookup_insert_ne by done.
      destruct (decide (editor = "cursor")) as [->|H2].
      + rewrite lookup_insert_eq. split; [intros [= <-]; by right|].
        intros [[? _]|[_ ->]]; [discriminate|done].
      + rewrite lookup_insert_ne by done. rewrite lookup_empty.
        split; [done|]. intros [[? _]|[? _]]; done. }
  destruct (which d editor); [split; [done | by intros [? _]]|].
  destruct (String.eqb_spec (platform_system d) "Darwin") as [->|Hp];
    [|split; [done | by intros (_ & ? & _)]].
  destruct (mac_paths !! editor) as [bin_dir|].
  - destruct (fs_exists w (bin_dir +:+ "/" +:+ editor)) eqn:Hex.
    + split.
      * intros [= <-]. repeat split; try done. by apply Hmac.
      * intros (_ & _ & _ & Hd). by apply Hmac in Hd.
    + split; [done|]. intros (_ & _ & Hex' & Hd).
      apply Hmac in Hd. injection Hd as ->. congruence.
  - split; [done|]. intros (_ & _ & _ & Hd). by apply Hmac in Hd.
Qed.

Lemma find_editor_path_spec_witness :
  _find_editor_path mac (yaml_world VNone) "cursor"
    = Some "/Applications/Cursor.app/Contents/Resources/app/bin".
Proof.
  apply (proj2 (find_editor_path_spec mac (yaml_world VNone) "cursor" _)).
  repeat split; try reflexivity. right. split; reflexivity.
Defined.

End ConnectFacts.

(** * The editor session *)

Section ConnectOutcome.
Import Connect.

Lemma find_editor_path_truthy d w editor :
  opt_truthy (_find_editor_path d w editor) =
    bool_decide (_find_editor_path d w editor ≠ None).
Proof.
  unfold _find_editor_path.
  destruct (which d editor); [done|].
  destruct (String.eqb (platform_system d) "Darwin"); [|done].
  destruct (mac_paths !! editor) as [bin_dir|] eqn:E; [|done].
  destruct (fs_exists w (bin_dir +:+ "/" +:+ editor)); [|done].
  unfold mac_paths in E.
  destruct (decide (editor = "code")) as [->|H1].
  { rewrite lookup_insert_eq in E. by injection E as <-. }
  rewrite lookup_insert_ne in E by done.
  destruct (decide (editor = "cursor")) as [->|H2].
  { rewrite lookup_insert_eq in E. by injection E as <-. }
  rewrite lookup_insert_ne in E by done. by rewrite lookup_empty in E.
Qed.

(** X22: how [connect] ends.  It runs the client once, with the
    environment of the process in which only [PATH] may differ: the
    directory found by [_find_editor_path], if any, is put in front of it.
    It returns exactly when the client exits with zero or the session is
    interrupted from the keyboard, leaves through [sys.exit(1)] exactly
    when the client exits with another code or is not installed, and lets
    every other error through. *)
Theorem connect_outcome d w name compute_pool stage eai connection_name editor st :
  let cmd := connect_cmd name compute_pool stage eai connection_name editor in
  let env := child_env d w editor in
  let outcome := run_interactive d (trace st) cmd env in
  ∃ res,
    connect d w name compute_pool stage eai connection_name editor st =
      (res, {| cache := cache st; created := created st;
               trace := trace st ++ [EvRun cmd env] |}) ∧
    (res = Ok Returned ↔ outcome = Finished 0 ∨ outcome = Interrupted) ∧
    (res = Ok (SystemExit 1) ↔
       (∃ rc, rc ≠ 0%Z ∧ outcome = Finished rc) ∨ outcome = CliMissing) ∧
    (∀ e, res = Raise e ↔ outcome = Failed e) ∧
    (∀ k, k ≠ "PATH" → env !! k = environ w !! k) ∧
    env !! "PATH" =
      match _find_editor_path d w editor with
      | Some bin_dir => Some (bin_dir +:+ ":" +:+ default "" (environ w !! "PATH"))
      | None => environ w !! "PATH"
      end.
Proof.
  intros cmd env outcome. unfold connect.
  cbv [mbind M_bind bind get_trace emit ret raise]. simpl.
  fold cmd env outcome.
  assert (Henv : (∀ k, k ≠ "PATH" → env !! k = environ w !! k) ∧
            env !! "PATH" =
              match _find_editor_path d w editor with
              | Some bin_dir =>
                  Some (bin_dir +:+ ":" +:+ default "" (environ w !! "PATH"))
              | None => environ w !! "PATH"
              end).
  { subst env. unfold child_env. rewrite find_editor_path_truthy.
    destruct (_find_editor_path d w editor) as [bin_dir|]; simpl.
    - split; [intros k Hk; by rewrite lookup_insert_ne | by rewrite lookup_insert_eq].
    - done. }
  destruct Henv as [Hk Hp].
  exists (match outcome with
          | Finished rc => if (rc =? 0)%Z then Ok Returned else Ok (SystemExit 1)
          | Interrupted => Ok Returned
          | CliMissing => Ok (SystemExit 1)
          | Failed e => Raise e
          end).
  split; [|split; [|split; [|split; [|split; [exact Hk | exact Hp]]]]].
  - destruct outcome as [rc| | |e]; try reflexivity. by destruct (rc =? 0)%Z.
  - destruct outcome as [rc| | |e].
    + destruct (Z.eqb_spec rc 0) as [->|Hrc].
      * split; [by left | done].
      * split; [done|]. intros [[= ->] | [=]]. done.
    + split; [by right | done].
    + split; [done|]. by intros [[=] | [=]].
    + split; [done|]. by intros [[=] | [=]].
  - destruct outcome as [rc| | |e].
    + destruct (Z.eqb_spec rc 0) as [->|Hrc].
      * split; [done|]. intros [(rc & Hrc & [= <-]) | [=]]. done.
      * split; [|done]. intros _. left. by exists rc.
    + split; [done|]. by intros [(rc & _ & [=]) | [=]].
    + split; [by right | done].
    + split; [done|]. by intros [(rc & _ & [=]) | [=]].
  - intros e0. destruct outcome as [rc| | |e].
    + split; [by destruct (rc =? 0)%Z | done].
    + done.
    + done.
    + split; [by intros [= ->] | by intros [= ->]].
Qed.

End ConnectOutcome.

(** * Job submission: further properties *)

Section SubmitMore.
Import Submit.

Lemma status_run w job st :
  status w job st =
    (Ok (job_status w (trace st) job),
     {| cache := cache st; created := created st;
        trace := trace st ++ [EvJobStatus job] |}).
Proof. reflexivity. Qed.

(** What [finish] does to the state: it appends events about the job,
    none of them a connection or a submission. *)
Lemma finish_events w a job r st res st' :
  finish w a job r st = (res, st') →
  cache st' = cache st ∧ created st' = created st ∧
  ∃ rest, trace st' = (trace st ++ rest)%list ∧
          submitted rest = [] ∧ connections rest = [] ∧
          (wait a = false → rest = [] ∧ res = Ok r).
Proof.
  unfold finish. destruct (wait a).
  2: { intros [= <- <-]. repeat split; try done. exists [].
       by rewrite app_nil_r. }
  cbv [mbind M_bind bind get_trace emit raise ret lift when try_except status].
  simpl. destruct (job_wait w (trace st) job (timeout a)).
  { intros [= <- <-]. repeat split; try done. by eexists [_]. }
  destruct (verbose a); simpl;
    match goal with |- context [job_result w ?tr job] =>
      destruct (job_result w tr job) end;
    intros [= <- <-]; simpl; (split; [done|]); (split; [done|]);
    rewrite <- ?List.app_assoc; simpl; eexists; (split; [reflexivity|]); done.
Qed.


Lemma get_session_events w name st r st' :
  Sess.get_session w name st = (r, st') →
  ∃ rest, trace st' = (trace st ++ rest)%list ∧
          submitted rest = [] ∧ awaited rest = [] ∧
          (rest = [] ∨ ∃ cfg, rest = [EvConnect cfg]).
Proof.
  unfold Sess.get_session.
  assert (Hu : ∀ r0 st0, Sess.get_session_uncached w name st = (r0, st0) →
               ∃ rest, trace st0 = (trace st ++ rest)%list ∧
                       submitted rest = [] ∧ awaited rest = [] ∧
                       (rest = [] ∨ ∃ cfg, rest = [EvConnect cfg])).
  { unfold Sess.get_session_uncached, Sess.connect.
    cbv [mbind M_bind bind lift get_trace emit raise].
    destruct (Sess._get_connection_config w _) as [cfg|e].
    - simpl. destruct (connector_connect w (trace st) cfg);
        intros r0 st0 [= <- <-]; simpl; exists [EvConnect cfg]; eauto 6.
    - intros r0 st0 [= <- <-]. exists []. rewrite app_nil_r. auto. }
  assert (Hhit : ∃ rest, trace st = (trace st ++ rest)%list ∧
                   submitted rest = [] ∧ awaited rest = [] ∧
                   (rest = [] ∨ ∃ cfg, rest = [EvConnect cfg])).
  { exists []. rewrite app_nil_r. auto. }
  destruct (cache st) as [[key h]|].
  - destruct (decide (key = name)); [by intros [= <- <-]|].
    destruct (Sess.get_session_uncached w name st) as [[h0|e] st0] eqn:E;
      intros [= <- <-]; simpl; by apply (Hu _ _ eq_refl).
  - destruct (Sess.get_session_uncached w name st) as [[h0|e] st0] eqn:E;
      intros [= <- <-]; simpl; by apply (Hu _ _ eq_refl).
Qed.

(** The course of [submit_file] once the path exists and the session is
    there. *)
Lemma submit_file_after_session w a st session st1 :
  fs_exists w (path a) = true →
  Sess.get_session w (connection_name a) st = (Ok session, st1) →
  let req := file_request a (sess_id session) in
  let st2 := {| cache := cache st1; created := created st1;
                trace := trace st1 ++ [EvSubmit req] |} in
  match jobs_submit w (trace st1) req with
  | Raise e => submit_file w a st = (Raise e, st2)
  | Ok job =>
      ∃ st3 s,
        submit_file w a st =
          finish w a job
            (<["job_id" := VStr job]> (
             <["status" := VStr s]> (
             <["file" := VStr (path a)]> (
             <["compute_pool" := VStr (compute_pool a)]> ∅)))) st3 ∧
        cache st3 = cache st1 ∧ created st3 = created st1 ∧
        ∃ reads, trace st3 = (trace st2 ++ reads)%list ∧
                 submitted reads = [] ∧ connections reads = [] ∧ awaited reads = []
  end.
Proof.
  intros Hex Hget req st2. unfold submit_file. rewrite Hex. simpl.
  cbv [mbind M_bind bind]. rewrite Hget.
  cbv [get_trace emit lift when ret status mbind M_bind bind]. simpl.
  subst st2 req. unfold file_request.
  destruct (jobs_submit w (trace st1) _) as [job|e]; [|reflexivity].
  destruct (verbose a); simpl; eexists _, _; (split; [reflexivity|]); simpl;
    (split; [done|]); (split; [done|]).
  - exists [EvJobStatus job; EvJobStatus job].
    split; [by rewrite <- !List.app_assoc|]. done.
  - exists [EvJobStatus job]. done.
Qed.


Lemma submitted_app a b : submitted (a ++ b) = (submitted a ++ submitted b)%list.
Proof. apply omap_app. Qed.

Lemma connections_app a b :
  connections (a ++ b) = (connections a ++ connections b)%list.
Proof. apply omap_app. Qed.

Lemma awaited_app a b : awaited (a ++ b) = (awaited a ++ awaited b)%list.
Proof. apply List.filter_app. Qed.

(** X23: with [wait=True], an error of the wait (a timeout) leaves
    [submit_file] as an exception after the job has been submitted: the
    request is on the trace, and the job identifier is not returned. *)
Theorem wait_failure_after_submission w a st session st1 job e :
  wait a = true →
  fs_exists w (path a) = true →
  Sess.get_session w (connection_name a) st = (Ok session, st1) →
  jobs_submit w (trace st1) (file_request a (sess_id session)) = Ok job →
  (∀ tr, job_wait w tr job (timeout a) = Some e) →
  ∃ st', submit_file w a st = (Raise e, st') ∧
         submitted (trace st') =
           (submitted (trace st1) ++ [file_request a (sess_id session)])%list.
Proof.
  intros Hw Hex Hget Hsub Hwait.
  pose proof (submit_file_after_session w a st session st1 Hex Hget) as H.
  cbv zeta in H. rewrite Hsub in H.
  destruct H as (st3 & s & -> & _ & _ & reads & Ht & Hs & _).
  unfold finish. rewrite Hw.
  cbv [mbind M_bind bind get_trace emit raise]. simpl. rewrite Hwait.
  eexists. split; [reflexivity|]. simpl.
  rewrite Ht. simpl. rewrite !submitted_app, Hs. simpl. by rewrite !app_nil_r.
Qed.

Lemma wait_failure_after_submission_witness :
  ∃ st', submit_file timeout_world (waiting_args "train.py") initial_state
           = (Raise (ExternalError "timed out"), st') ∧
         length (submitted (trace st')) = 1%nat.
Proof.
  destruct (wait_failure_after_submission timeout_world (waiting_args "train.py")
              initial_state {| sess_id := 0; sess_cfg := conn_a |}
              {| cache := Some (Some "a", {| sess_id := 0; sess_cfg := conn_a |});
                 created := 1; trace := [EvConnect conn_a] |}
              "JOB_1" (ExternalError "timed out")
              eq_refl eq_refl eq_refl eq_refl ltac:(reflexivity))
    as (st' & E & Hs).
  exists st'. split; [exact E|]. by rewrite Hs.
Defined.

(** X24: with [wait=True] and a wait that ends, the record of
    [submit_file] has a [result] exactly when the job's result could be
    fetched and is truthy: an error of the fetch is swallowed, and a
    result that is [None], zero, empty or false is left out as well.  The
    [status] of the record is one read after the wait. *)
Theorem result_only_when_truthy w a st session st1 job res :
  wait a = true →
  fs_exists w (path a) = true →
  Sess.get_session w (connection_name a) st = (Ok session, st1) →
  jobs_submit w (trace st1) (file_request a (sess_id session)) = Ok job →
  (∀ tr, job_wait w tr job (timeout a) = None) →
  (∀ tr, job_result w tr job = res) →
  ∃ r st',
    submit_file w a st = (Ok r, st') ∧
    r !! "job_id" = Some (VStr job) ∧
    r !! "result" =
      match res with
      | Ok v => if truthy v then Some v else None
      | Raise _ => None
      end ∧
    ∃ tr, r !! "status" = Some (VStr (job_status w tr job)) ∧
          In (EvJobWait job (timeout a)) tr.
Proof.
  intros Hw Hex Hget Hsub Hwait Hres.
  pose proof (submit_file_after_session w a st session st1 Hex Hget) as H.
  cbv zeta in H. rewrite Hsub in H.
  destruct H as (st3 & s & -> & _ & _ & _).
  unfold finish. rewrite Hw.
  cbv [mbind M_bind bind get_trace emit raise ret lift when try_except status].
  simpl. rewrite Hwait.
  assert (Hin : In (EvJobWait job (timeout a))
                  (trace st3 ++ [EvJobWait job (timeout a)])).
  { apply in_or_app. right. by left. }
  destruct (verbose a); simpl; rewrite Hres; destruct res as [v|e0]; simpl;
    try destruct (truthy v); eexists _, _; (split; [reflexivity|]);
    (split; [by simplify_map_eq|]); (split; [by simplify_map_eq|]);
    eexists; (split; [by simplify_map_eq | exact Hin]).
Qed.

Lemma result_only_when_truthy_witness :
  ∃ r st',
    submit_file populated_world (waiting_args "train.py") initial_state = (Ok r, st') ∧
    r !! "job_id" = Some (VStr "JOB_1") ∧ r !! "result" = None.
Proof.
  destruct (result_only_when_truthy populated_world (waiting_args "train.py")
              initial_state {| sess_id := 0; sess_cfg := conn_a |}
              {| cache := Some (Some "a", {| sess_id := 0; sess_cfg := conn_a |});
                 created := 1; trace := [EvConnect conn_a] |}
              "JOB_1" (Ok VNone)
              eq_refl eq_refl eq_refl eq_refl ltac:(reflexivity) ltac:(reflexivity))
    as (r & st' & E & Hj & Hr & _).
  exists r, st'. split; [exact E|]. split; [exact Hj | exact Hr].
Defined.


(** The course of [submit_directory] once the directory exists and the
    session is there. *)
Lemma submit_directory_after_session w a st session st1 :
  fs_exists w (path a) = true →
  Sess.get_session w (connection_name a) st = (Ok session, st1) →
  let dst := mkdtemp w (trace st1) +:+ "/" +:+ path_name (path a) in
  let exclude := list_or (exclude_patterns a)
                   ["__pycache__"; "*.pyc"; ".pytest_cache"; ".git"] in
  let stc := {| cache := cache st1; created := created st1;
                trace := trace st1 ++ [EvCopyTree (path a) dst exclude] |} in
  match copytree w (trace st1) (path a) dst exclude with
  | Some e => submit_directory w a st = (Raise e, stc)
  | None =>
      ∃ req,
        req_path req = dst ∧ req_entrypoint req = Some (entrypoint a) ∧
        req_session req = sess_id session ∧
        req_external_access_integrations req =
          list_or (external_access_integrations a) ["ALLOW_ALL_INTEGRATION"] ∧
        let st2 := {| cache := cache st1; created := created st1;
                      trace := trace stc ++ [EvSubmit req] |} in
        match jobs_submit w (trace stc) req with
        | Raise e => submit_directory w a st = (Raise e, st2)
        | Ok job =>
            ∃ st3 s,
              submit_directory w a st =
                finish w a job
                  (<["job_id" := VStr job]> (
                   <["status" := VStr s]> (
                   <["directory" := VStr (path a)]> (
                   <["entrypoint" := VStr (entrypoint a)]> (
                   <["compute_pool" := VStr (compute_pool a)]> (
                   <["instances" := VInt (target_instances a)]> ∅)))))) st3 ∧
              cache st3 = cache st1 ∧ created st3 = created st1 ∧
              ∃ reads, trace st3 = (trace st2 ++ reads)%list ∧
                       submitted reads = [] ∧ connections reads = [] ∧
                       awaited reads = []
        end
  end.
Proof.
  intros Hex Hget dst exclude stc. unfold submit_directory. rewrite Hex. simpl.
  cbv [mbind M_bind bind]. rewrite Hget.
  cbv [get_trace emit lift raise when ret status mbind M_bind bind]. simpl.
  subst stc dst exclude.
  destruct (copytree w (trace st1) _ _ _) as [e|]; [reflexivity|].
  exists {| req_path := mkdtemp w (trace st1) +:+ "/" +:+ path_name (path a);
            req_entrypoint := Some (entrypoint a);
            req_compute_pool := compute_pool a;
            req_stage_name := stage_name a;
            req_session := sess_id session;
            req_target_instances := Some (target_instances a);
            req_pip_requirements := list_or (pip_requirements a) [];
            req_external_access_integrations :=
              list_or (external_access_integrations a) ["ALLOW_ALL_INTEGRATION"];
            req_args := list_or (job_args a) [] |}. simpl.
  do 4 (split; [reflexivity|]).
  destruct (jobs_submit w _ _) as [job|e]; [|reflexivity].
  destruct (verbose a); simpl; eexists _, _; (split; [reflexivity|]); simpl;
    (split; [done|]); (split; [done|]).
  - exists [EvJobStatus job; EvJobStatus job].
    split; [by rewrite <- !List.app_assoc|]. done.
  - exists [EvJobStatus job]. done.
Qed.

Lemma list_or_not_empty {A} (x : option (list A)) (d : list A) :
  d ≠ [] → list_or x d ≠ [].
Proof. by destruct x as [[|]|]. Qed.



(** The requests a call of either function adds to the trace. *)
Lemma submit_file_requests w a st res st' :
  submit_file w a st = (res, st') →
  ∃ new, submitted (trace st') = (submitted (trace st) ++ new)%list ∧
         (new = [] ∨ ∃ h, new = [file_request a h]).
Proof.
  intros Hrun.
  destruct (fs_exists w (path a)) eqn:Hex.
  2: { unfold submit_file in Hrun. rewrite Hex in Hrun. simpl in Hrun.
       injection Hrun as <- <-. exists []. rewrite app_nil_r. auto. }
  destruct (Sess.get_session w (connection_name a) st) as [[session|e] st1] eqn:Hget.
  2: { unfold submit_file in Hrun. rewrite Hex in Hrun. simpl in Hrun.
       cbv [mbind M_bind bind] in Hrun. rewrite Hget in Hrun.
       injection Hrun as <- <-.
       apply get_session_events in Hget as (rest & -> & Hs & _).
       exists []. rewrite submitted_app, Hs. auto. }
  pose proof (submit_file_after_session w a st session st1 Hex Hget) as H.
  cbv zeta in H.
  apply get_session_events in Hget as (rest0 & Ht0 & Hs0 & _).
  exists [file_request a (sess_id session)]. split; [|eauto].
  destruct (jobs_submit w _ _) as [job|e].
  - destruct H as (st3 & s & Hf & _ & _ & reads & Ht & Hs & _).
    rewrite Hf in Hrun. apply finish_events in Hrun as (_ & _ & rest & Ht' & Hs' & _).
    rewrite Ht', Ht. simpl. rewrite Ht0, !submitted_app, Hs, Hs', Hs0. simpl.
    by rewrite !app_nil_r.
  - rewrite H in Hrun. injection Hrun as <- <-. simpl.
    rewrite Ht0, !submitted_app, Hs0. simpl. by rewrite !app_nil_r.
Qed.

Lemma submit_directory_requests w a st res st' :
  submit_directory w a st = (res, st') →
  ∃ new, submitted (trace st') = (submitted (trace st) ++ new)%list ∧
         (new = [] ∨
          ∃ req, new = [req] ∧
                 req_external_access_integrations req =
                   list_or (external_access_integrations a) ["ALLOW_ALL_INTEGRATION"]).
Proof.
  intros Hrun.
  destruct (fs_exists w (path a)) eqn:Hex.
  2: { unfold submit_directory in Hrun. rewrite Hex in Hrun. simpl in Hrun.
       injection Hrun as <- <-. exists []. rewrite app_nil_r. auto. }
  destruct (Sess.get_session w (connection_name a) st) as [[session|e] st1] eqn:Hget.
  2: { unfold submit_directory in Hrun. rewrite Hex in Hrun. simpl in Hrun.
       cbv [mbind M_bind bind] in Hrun. rewrite Hget in Hrun.
       injection Hrun as <- <-.
       apply get_session_events in Hget as (rest & -> & Hs & _).
       exists []. rewrite submitted_app, Hs. auto. }
  pose proof (submit_directory_after_session w a st session st1 Hex Hget) as H.
  cbv zeta in H.
  apply get_session_events in Hget as (rest0 & Ht0 & Hs0 & _).
  destruct (copytree w (trace st1) _ _ _) as [e|].
  { rewrite H in Hrun. injection Hrun as <- <-. exists []. simpl.
    rewrite Ht0, !submitted_app, Hs0. simpl. rewrite !app_nil_r. auto. }
  destruct H as (req & _ & _ & _ & Hi & H).
  exists [req]. split; [|eauto].
  destruct (jobs_submit w _ _) as [job|e].
  - destruct H as (st3 & s & Hf & _ & _ & reads & Ht & Hs & _).
    rewrite Hf in Hrun. apply finish_events in Hrun as (_ & _ & rest & Ht' & Hs' & _).
    rewrite Ht', Ht. simpl. rewrite Ht0, !submitted_app, Hs, Hs', Hs0. simpl.
    by rewrite !app_nil_r.
  - rewrite H in Hrun. injection Hrun as <- <-. simpl.
    rewrite Ht0, !submitted_app, Hs0. simpl. by rewrite !app_nil_r.
Qed.

(** X26: a call of [submit_file] or of [submit_directory] sends at most
    one request, whatever fails, and no request goes out with an empty
    list of external access integrations: an empty list given by the
    caller is replaced by [ALLOW_ALL_INTEGRATION] like a missing one, and
    a non-empty one is passed on as it is. *)
Theorem one_request_never_without_integrations w a st res st' f :
  f = submit_file ∨ f = submit_directory →
  f w a st = (res, st') →
  ∃ new,
    submitted (trace st') = (submitted (trace st) ++ new)%list ∧
    (length new ≤ 1)%nat ∧
    ∀ req, In req new →
      req_external_access_integrations req ≠ [] ∧
      match external_access_integrations a with
      | None | Some [] =>
          req_external_access_integrations req = ["ALLOW_ALL_INTEGRATION"]
      | Some l => req_external_access_integrations req = l
      end.
Proof.
  assert (Hl : ∀ l : list string,
            l = list_or (external_access_integrations a) ["ALLOW_ALL_INTEGRATION"] →
            l ≠ [] ∧
            match external_access_integrations a with
            | None | Some [] => l = ["ALLOW_ALL_INTEGRATION"]
            | Some l0 => l = l0
            end).
  { intros l ->. by destruct (external_access_integrations a) as [[|]|]. }
  intros [-> | ->] Hrun.
  - apply submit_file_requests in Hrun as (new & Hs & [-> | (h & ->)]);
      eexists; (split; [exact Hs|]); (split; [simpl; lia|]).
    + intros req [].
    + intros req [<- | []]. by apply Hl.
  - apply submit_directory_requests in Hrun as (new & Hs & [-> | (r & -> & Hi)]);
      eexists; (split; [exact Hs|]); (split; [simpl; lia|]).
    + intros req [].
    + intros req [<- | []]. by apply Hl.
Qed.

Lemma one_request_never_without_integrations_witness :
  ∃ new,
    submitted (trace (snd (submit_file populated_world (waiting_args "train.py") initial_state)))
      = new ∧
    ∀ req, In req new →
      req_external_access_integrations req = ["ALLOW_ALL_INTEGRATION"].
Proof.
  destruct (one_request_never_without_integrations populated_world
              (waiting_args "train.py") initial_state _ _ submit_file
              (or_introl eq_refl) eq_refl) as (new & Hs & _ & H).
  exists new. split; [exact Hs|]. intros req Hin. exact (proj2 (H req Hin)).
Defined.

Lemma get_session_caches w name st h st' :
  Sess.get_session w name st = (Ok h, st') → cache st' = Some (name, h).
Proof.
  unfold Sess.get_session.
  destruct (cache st) as [[key h0]|] eqn:Ec.
  - destruct (decide (key = name)) as [->|].
    + by intros [= <- <-].
    + destruct (Sess.get_session_uncached w name st) as [[h1|e] st0];
        by intros [= <- <-].
  - destruct (Sess.get_session_uncached w name st) as [[h1|e] st0];
      by intros [= <- <-].
Qed.

Lemma get_session_hit w name st h :
  cache st = Some (name, h) → Sess.get_session w name st = (Ok h, st).
Proof.
  intros Hc. unfold Sess.get_session. rewrite Hc. by rewrite decide_True.
Qed.

(** X27: two submissions under the same connection name share one
    session.  After a first [submit_file] has returned, a second one with
    the same name opens no connection, whatever its outcome, and a
    request it sends goes out on the session of the first. *)
Theorem submissions_share_the_session w a b st r st1 res st2 :
  connection_name b = connection_name a →
  submit_file w a st = (Ok r, st1) →
  submit_file w b st1 = (res, st2) →
  connections (trace st2) = connections (trace st1) ∧
  ∃ h,
    submitted (trace st1) = (submitted (trace st) ++ [file_request a h])%list ∧
    (submitted (trace st2) = submitted (trace st1) ∨
     submitted (trace st2) = (submitted (trace st1) ++ [file_request b h])%list).
Proof.
  intros Hname Hone Htwo.
  destruct (fs_exists w (path a)) eqn:Hex;
    [|unfold submit_file in Hone; rewrite Hex in Hone; discriminate].
  destruct (Sess.get_session w (connection_name a) st) as [[session|e] st0] eqn:Hget.
  2: { unfold submit_file in Hone. rewrite Hex in Hone. simpl in Hone.
       cbv [mbind M_bind bind] in Hone. rewrite Hget in Hone. discriminate. }
  pose proof (get_session_caches _ _ _ _ _ Hget) as Hc0.
  pose proof (get_session_events _ _ _ _ _ Hget) as (rest0 & Ht0 & Hs0 & _).
  pose proof (submit_file_after_session w a st session st0 Hex Hget) as H.
  cbv zeta in H.
  destruct (jobs_submit w _ _) as [job|e]; [|rewrite H in Hone; discriminate].
  destruct H as (st3 & s & Hf & Hc3 & _ & reads & Ht3 & Hs3 & _).
  rewrite Hf in Hone.
  apply finish_events in Hone as (Hc1 & _ & rest1 & Ht1 & Hs1 & _).
  assert (Hcache : cache st1 = Some (connection_name b, session))
    by (by rewrite Hc1, Hc3, Hname).
  assert (Hfirst : submitted (trace st1) =
                     (submitted (trace st) ++ [file_request a (sess_id session)])%list).
  { rewrite Ht1, Ht3. simpl. rewrite Ht0, !submitted_app, Hs0, Hs1, Hs3. simpl.
    by rewrite !app_nil_r. }
  pose proof (get_session_hit w _ _ _ Hcache) as Hhit.
  destruct (fs_exists w (path b)) eqn:Hexb.
  2: { unfold submit_file in Htwo. rewrite Hexb in Htwo. simpl in Htwo.
       injection Htwo as <- <-. split; [done|]. exists (sess_id session). auto. }
  pose proof (submit_file_after_session w b st1 session st1 Hexb Hhit) as H.
  cbv zeta in H.
  destruct (jobs_submit w _ _) as [job'|e].
  - destruct H as (st4 & s' & Hf' & _ & _ & reads' & Ht4 & Hs4 & Hn4 & _).
    rewrite Hf' in Htwo.
    apply finish_events in Htwo as (_ & _ & rest2 & Ht2 & Hs2 & Hn2 & _).
    split.
    + rewrite Ht2, Ht4. simpl. rewrite !connections_app, Hn2, Hn4. simpl.
      by rewrite !app_nil_r.
    + exists (sess_id session). split; [done|]. right.
      rewrite Ht2, Ht4. simpl. rewrite !submitted_app, Hs2, Hs4. simpl.
      by rewrite !app_nil_r.
  - rewrite H in Htwo. injection Htwo as <- <-. split.
    + simpl. rewrite connections_app. simpl. by rewrite app_nil_r.
    + exists (sess_id session). split; [done|]. right. simpl.
      by rewrite submitted_app.
Qed.

Lemma submissions_share_the_session_witness :
  ∃ r st1 st2,
    submit_file populated_world (submit_args "a.py") initial_state = (Ok r, st1) ∧
    snd (submit_file populated_world (submit_args "b.py") st1) = st2 ∧
    connections (trace st2) = connections (trace st1).
Proof.
  eexists _, _, _. split; [vm_compute; reflexivity|]. split; [reflexivity|].
  exact (proj1 (submissions_share_the_session populated_world
                  (submit_args "a.py") (submit_args "b.py") initial_state
                  _ _ _ _ eq_refl eq_refl eq_refl)).
Defined.

End SubmitMore.

(** * Job status *)

Section StatusFacts.
Import Status.

Lemma take_head {A} (limit : Z) (l : list A) :
  (if (limit <? Z.of_nat (length l))%Z then head limit l else l) =
    take (if (0 <=? limit)%Z then Z.to_nat limit
          else length l - Z.to_nat (- limit))%nat l.
Proof.
  unfold head. destruct (Z.ltb_spec limit (Z.of_nat (length l))).
  - by destruct (0 <=? limit)%Z.
  - destruct (Z.leb_spec 0 limit); [|lia].
    symmetry. apply take_ge. lia.
Qed.

(** X28: the [limit] of [list_jobs].  With a session and a listing, the
    result holds one record for each of the first [limit] rows, in the
    order of the listing, and every row when there are fewer; [limit=0]
    gives the empty list.  A negative [limit] is no error: it drops that
    many rows from the end of the listing. *)
Theorem list_jobs_limit sv w connection_name limit verbose st session st1 rows :
  Sess.get_session w connection_name st = (Ok session, st1) →
  list_jobs_frame sv (trace st1) (sess_id session) = Ok rows →
  ∃ out,
    list_jobs sv w connection_name limit verbose st = (Ok out, st1) ∧
    (∃ k, out = job_info <$> take k rows) ∧
    ((0 ≤ limit)%Z → length out = Nat.min (Z.to_nat limit) (length rows)) ∧
    ((limit < 0)%Z → length out = (length rows - Z.to_nat (- limit))%nat).
Proof.
  intros Hget Hrows. unfold list_jobs.
  cbv [mbind M_bind bind get_trace lift ret]. rewrite Hget. simpl.
  rewrite Hrows. rewrite take_head. destruct st1 as [c n tr]. simpl.
  eexists. split; [reflexivity|]. split; [by eexists|].
  rewrite length_fmap, length_take.
  split; intros Hl.
  - destruct (Z.leb_spec 0 limit); [done|lia].
  - destruct (Z.leb_spec 0 limit); [lia|]. lia.
Qed.

Lemma list_jobs_limit_witness :
  ∃ out,
    list_jobs job_service populated_world (Some "a") (-1) false initial_state
      = (Ok out, {| cache := Some (Some "a", {| sess_id := 0; sess_cfg := conn_a |});
                    created := 1; trace := [EvConnect conn_a] |}) ∧
    length out = 2%nat.
Proof.
  destruct (list_jobs_limit job_service populated_world (Some "a") (-1) false
              initial_state {| sess_id := 0; sess_cfg := conn_a |}
              {| cache := Some (Some "a", {| sess_id := 0; sess_cfg := conn_a |});
                 created := 1; trace := [EvConnect conn_a] |}
              job_rows eq_refl eq_refl) as (out & E & _ & _ & Hn).
  exists out. split; [exact E|]. apply Hn. lia.
Defined.

(** X29: [get_job_status] asks for the result of a job only when its
    status reads DONE, in any letter case.  With a session, a known job
    and a status that does not change, the call returns the identifier
    and the status; for a status other than DONE nothing is fetched and
    the record has no [result]; for DONE the record has a [result] exactly
    when the fetched value is truthy, and an error of the fetch is
    swallowed. *)
Theorem result_fetched_only_when_done sv w job_id connection_name verbose
    st session st1 job s :
  Sess.get_session w connection_name st = (Ok session, st1) →
  get_job sv (trace st1) job_id (sess_id session) = Ok job →
  (∀ tr, job_status w tr job = s) →
  ∃ r st',
    get_job_status sv w job_id connection_name verbose st = (Ok r, st') ∧
    r !! "job_id" = Some (VStr job) ∧ r !! "status" = Some (VStr s) ∧
    (upper s ≠ "DONE" →
       r !! "result" = None ∧ awaited (trace st') = awaited (trace st1)) ∧
    (upper s = "DONE" →
       ∃ tr, r !! "result" =
               match job_result w tr job with
               | Ok v => if truthy v then Some v else None
               | Raise _ => None
               end).
Proof.
  intros Hget Hjob Hs. unfold get_job_status.
  cbv [mbind M_bind bind get_trace lift ret raise emit when try_except Submit.status].
  rewrite Hget. simpl. rewrite Hjob. simpl. rewrite !Hs.
  destruct verbose; simpl; rewrite ?Hs;
    destruct (String.eqb_spec (upper s) "DONE") as [Hd|Hd]; simpl.
  all: try (eexists _, _; (split; [reflexivity|]); simpl;
            (split; [by simplify_map_eq|]); (split; [by simplify_map_eq|]);
            split; [intros _; split; [by simplify_map_eq|];
                    rewrite !awaited_app; simpl; by rewrite !app_nil_r
                   | done]).
  all: match goal with |- context [job_result ?w0 ?tr ?j] =>
         destruct (job_result w0 tr j) as [v|e] eqn:E end; simpl;
       try destruct (truthy v) eqn:Ev;
       eexists _, _; (split; [reflexivity|]);
       (split; [by simplify_map_eq|]); (split; [by simplify_map_eq|]);
       (split; [done|]); intros _; eexists; rewrite E, ?Ev; by simplify_map_eq.
Qed.

Lemma result_fetched_only_when_done_witness :
  ∃ r st',
    get_job_status job_service done_world "JOB_1" (Some "a") true initial_state
      = (Ok r, st') ∧
    r !! "status" = Some (VStr "Done").
Proof.
  destruct (result_fetched_only_when_done job_service done_world "JOB_1" (Some "a")
              true initial_state {| sess_id := 0; sess_cfg := conn_a |}
              {| cache := Some (Some "a", {| sess_id := 0; sess_cfg := conn_a |});
                 created := 1; trace := [EvConnect conn_a] |}
              "JOB_1" "Done" eq_refl eq_refl ltac:(reflexivity))
    as (r & st' & E & _ & Hs & _).
  exists r, st'. split; [exact E | exact Hs].
Defined.

(** X30: [wait_for_job] and a job that cannot be looked up or waited
    for.  With a session, an error of the lookup is the outcome of
    [wait_for_job] and of [get_job_status], before anything is asked about
    the job; an error of the wait is the outcome of [wait_for_job]; and
    when the wait ends, [wait_for_job] returns the identifier and a status
    read after the wait, and never a [result]. *)
Theorem wait_for_job_outcome sv w job_id connection_name timeout verbose
    st session st1 :
  Sess.get_session w connection_name st = (Ok session, st1) →
  match get_job sv (trace st1) job_id (sess_id session) with
  | Raise e =>
      wait_for_job sv w job_id connection_name timeout verbose st = (Raise e, st1) ∧
      get_job_status sv w job_id connection_name verbose st = (Raise e, st1)
  | Ok job =>
      ∃ res st',
        wait_for_job sv w job_id connection_name timeout verbose st = (res, st') ∧
        match job_wait w (trace st1) job timeout with
        | Some e => res = Raise e ∧ trace st' = (trace st1 ++ [EvJobWait job timeout])%list
        | None =>
            ∃ r tr, res = Ok r ∧ dom r = {["job_id"; "status"]} ∧
                    r !! "job_id" = Some (VStr job) ∧
                    r !! "status" = Some (VStr (job_status w tr job)) ∧
                    In (EvJobWait job timeout) tr
        end
  end.
Proof.
  intros Hget. unfold wait_for_job, get_job_status.
  cbv [mbind M_bind bind get_trace lift ret raise emit when Submit.status].
  rewrite Hget. simpl.
  destruct (get_job sv (trace st1) job_id (sess_id session)) as [job|e0]; simpl.
  2: { by destruct st1. }
  destruct (job_wait w (trace st1) job timeout) as [e|].
  { eexists _, _. split; [reflexivity|]. done. }
  assert (Hin : In (EvJobWait job timeout) (trace st1 ++ [EvJobWait job timeout])).
  { apply in_or_app. right. by left. }
  destruct verbose; simpl; eexists _, _; (split; [reflexivity|]);
    eexists _, _; (split; [reflexivity|]);
    (split; [rewrite !dom_insert_L; set_solver|]);
    (split; [by simplify_map_eq|]); (split; [by simplify_map_eq | exact Hin]).
Qed.

Lemma wait_for_job_outcome_witness :
  wait_for_job job_service populated_world "JOB_9" (Some "a") 60 true initial_state
    = (Raise (ValueError "no such job"),
       {| cache := Some (Some "a", {| sess_id := 0; sess_cfg := conn_a |});
          created := 1; trace := [EvConnect conn_a] |}).
Proof.
  exact (proj1 (wait_for_job_outcome job_service populated_world "JOB_9" (Some "a")
                  60 true initial_state {| sess_id := 0; sess_cfg := conn_a |}
                  {| cache := Some (Some "a", {| sess_id := 0; sess_cfg := conn_a |});
                     created := 1; trace := [EvConnect conn_a] |} eq_refl)).
Defined.

End StatusFacts.
